(** * SafeRun: the scan pipeline, embedded from the Python sources

    Modules embedded here, each definition next to the source place it
    follows:

    - [core/threat_detector.py]  ThreatLevel, ThreatSignature, ThreatDetector
    - [utils/file_analyzer.py]   FileAnalyzer
    - [core/isolation.py]        ContainerIsolation, ProcessIsolation,
                                 get_isolation_environment
    - [core/monitor.py]          ProcessMonitor
    - [core/sandbox.py]          Sandbox

    Conventions of the embedding.

    - Python [str] and [bytes] values are [string]s of 8-bit characters;
      [str.lower] is ASCII lower-casing.
    - Python [float] scores are exact rationals ([Q]): the literals [0.1],
      [0.2], ... denote the decimal fractions written in the source, [+] is
      exact, and [round(x, 2)] is rounding to the nearest hundredth, ties to
      even.  Binary64 rounding error of the additions is not represented.
    - Everything outside the repository (the file system, the clock, uuid4,
      hashlib, the regular-expression engine, os.path, psutil, the platform
      back ends and the configuration file) is a field of the record [World];
      every definition is a function of the world it runs in.
    - A Python call that may raise returns a [result]; [try]/[except] is a
      [match] on it.  Objects mutated in place are threaded as explicit
      state; calls made on the platform back ends are logged in a trace.
      The text [str(e)] of an exception is its argument.
    - Constructing a platform handler succeeds; what a handler does when
      called is up to the world.
    - The polling thread of the monitor is run sequentially: the passes it
      makes before [stop_monitoring] joins it are a list the world
      supplies, and their effect is in the monitor when the join returns.
    - Logging, console printing and the unused [isolation_id] attributes
      are left out. *)

From Stdlib Require Import ZArith QArith Qround Qminmax List String Ascii Bool Lia.
From Stdlib Require Import DecimalString Lqa.
Import ListNotations.

Open Scope string_scope.
Open Scope Q_scope.

Set Implicit Arguments.

(* ================================================================== *)
(** * Python values *)
(* ================================================================== *)

(** Exceptions, by class.  [except Exception] catches every one of them. *)
Inductive exn : Type :=
| RuntimeError (msg : string)
| FileNotFoundError (msg : string)
| PermissionError (msg : string)
| AttributeError (msg : string)
| ValueError (msg : string)
| TimeoutExpired
| NoSuchProcess
| AccessDenied
| OtherError (msg : string).

Inductive result (A : Type) : Type :=
| Ok (a : A)
| Raise (e : exn).
Arguments Ok {A} a.
Arguments Raise {A} e.

Definition is_ok {A} (r : result A) : bool :=
  match r with Ok _ => true | Raise _ => false end.

(** [str(e)]: the message an exception prints as. *)
Definition exn_str (e : exn) : string :=
  match e with
  | RuntimeError m | FileNotFoundError m | PermissionError m
  | AttributeError m | ValueError m | OtherError m => m
  | TimeoutExpired => "timed out"
  | NoSuchProcess => "process no longer exists"
  | AccessDenied => "access denied"
  end.

(** The few dynamically typed values that cross the back-end boundary. *)
Inductive pyval : Type :=
| PNone
| PBool (b : bool)
| PInt (z : Z)
| PStr (s : string)
| PProc (pid : Z).          (* a subprocess.Popen handle *)

(** Python truthiness. *)
Definition truthy (v : pyval) : bool :=
  match v with
  | PNone => false
  | PBool b => b
  | PInt z => negb (z =? 0)%Z
  | PStr s => negb (s =? EmptyString)%string
  | PProc _ => true
  end.

(** A [dict] with string keys, in insertion order. *)
Definition pydict : Type := list (string * pyval).

Fixpoint dict_get {K V : Type} (eqb : K -> K -> bool) (d : list (K * V))
         (k : K) (default : V) : V :=
  match d with
  | [] => default
  | (k', v) :: d' => if eqb k' k then v else dict_get eqb d' k default
  end.

(* ================================================================== *)
(** * Strings *)
(* ================================================================== *)

Definition ascii_lower (c : ascii) : ascii :=
  let n := nat_of_ascii c in
  if (65 <=? n)%nat && (n <=? 90)%nat then ascii_of_nat (n + 32) else c.

(** [s.lower()] *)
Fixpoint lower (s : string) : string :=
  match s with
  | EmptyString => EmptyString
  | String c s' => String (ascii_lower c) (lower s')
  end.

(** [pat in s] on [str] and on [bytes]. *)
Fixpoint contains (pat s : string) : bool :=
  prefix pat s ||
  match s with
  | EmptyString => false
  | String _ s' => contains pat s'
  end.

(** [x in l] for a list of strings. *)
Definition str_in (x : string) (l : list string) : bool :=
  existsb (String.eqb x) l.

(** [f"{n}"] for a non-negative integer. *)
Definition str_of_nat (n : nat) : string :=
  NilZero.string_of_uint (Nat.to_uint n).

(* ================================================================== *)
(** * Scores *)
(* ================================================================== *)

(** Nearest integer, ties to even. *)
Definition round_half_even (q : Q) : Z :=
  let f := Qfloor q in
  match Qcompare (q - inject_Z f) (1 # 2) with
  | Lt => f
  | Gt => (f + 1)%Z
  | Eq => if Z.even f then f else (f + 1)%Z
  end.

(** [round(q, 2)] *)
Definition round2 (q : Q) : Q :=
  inject_Z (round_half_even (q * 100)) / 100.

(** [min(a, b)]: Python keeps the first argument unless the second is
    strictly smaller, which is what [Qmin] does. *)
Definition py_min (a b : Q) : Q := Qmin a b.

(* ================================================================== *)
(** * core/threat_detector.py: severities and signatures *)
(* ================================================================== *)

Inductive ThreatLevel : Type := NONE | LOW | MEDIUM | HIGH | CRITICAL.

Definition ThreatLevel_eqb (a b : ThreatLevel) : bool :=
  match a, b with
  | NONE, NONE | LOW, LOW | MEDIUM, MEDIUM | HIGH, HIGH
  | CRITICAL, CRITICAL => true
  | _, _ => false
  end.

(** [level.name] *)
Definition ThreatLevel_name (l : ThreatLevel) : string :=
  match l with
  | NONE => "NONE" | LOW => "LOW" | MEDIUM => "MEDIUM"
  | HIGH => "HIGH" | CRITICAL => "CRITICAL"
  end.

(** [ThreatLevel.from_string] *)
Definition from_string (level_str : string) : ThreatLevel :=
  dict_get String.eqb
    [("none", NONE); ("low", LOW); ("medium", MEDIUM); ("high", HIGH);
     ("critical", CRITICAL)]
    (lower level_str) NONE.

Record ThreatSignature : Type := {
  sig_id : string;
  sig_name : string;
  sig_description : string;
  sig_indicators : list string;
  sig_severity : ThreatLevel;
  sig_category : string;
  sig_platforms : list string
}.

(** [ThreatDetector._load_signatures] *)
Definition builtin_signatures : list ThreatSignature :=
  [ {| sig_id := "SIG-001"; sig_name := "System File Access";
       sig_description := "Accesses sensitive system files";
       sig_indicators := ["/etc/passwd"; "C:\Windows\System32\config"];
       sig_severity := HIGH; sig_category := "File Access";
       sig_platforms := ["linux"; "windows"; "macos"] |};
    {| sig_id := "SIG-002"; sig_name := "Registry Modification";
       sig_description := "Modifies autorun registry keys";
       sig_indicators :=
         ["HKEY_LOCAL_MACHINE\Software\Microsoft\Windows\CurrentVersion\Run"];
       sig_severity := MEDIUM; sig_category := "Registry Modification";
       sig_platforms := ["windows"] |};
    {| sig_id := "SIG-003"; sig_name := "Suspicious Network Connection";
       sig_description := "Connects to common malicious ports or domains";
       sig_indicators :=
         [":4444"; ":1337"; ":31337"; ":8080"; "malicious.example.com"];
       sig_severity := HIGH; sig_category := "Network Activity";
       sig_platforms := ["all"] |} ].

(** The weight table of [analyze_file]:
    [{CRITICAL: 1.0, HIGH: 0.4, MEDIUM: 0.2, LOW: 0.1}.get(level, 0.1)]. *)
Definition keyword_weight (level : ThreatLevel) : Q :=
  dict_get ThreatLevel_eqb
    [(CRITICAL, 1.0); (HIGH, 0.4); (MEDIUM, 0.2); (LOW, 0.1)] level 0.1.

(** The weight table of [analyze_report], written out a second time in the
    source: [{...}.get(sig.severity, 0.1)]. *)
Definition signature_weight (severity : ThreatLevel) : Q :=
  dict_get ThreatLevel_eqb
    [(CRITICAL, 1.0); (HIGH, 0.4); (MEDIUM, 0.2); (LOW, 0.1)] severity 0.1.

(** The keyword table of [analyze_file]. *)
Definition keywords : list (string * ThreatLevel) :=
  [ ("cmd.exe", MEDIUM); ("powershell", MEDIUM); ("CreateProcess", HIGH);
    ("WriteProcessMemory", HIGH); ("curl", LOW); ("wget", LOW);
    ("socket", MEDIUM); ("registry", MEDIUM); ("os.system", MEDIUM);
    ("eval", HIGH); ("exec", HIGH); ("malicious.example.com", HIGH) ].

(* ================================================================== *)
(** * The world a scan runs in *)
(* ================================================================== *)

(** [platform.system()]; core/isolation.py refuses to import elsewhere. *)
Inductive Platform : Type := Linux | Darwin | Windows.

Definition platform_system (p : Platform) : string :=
  match p with
  | Linux => "Linux" | Darwin => "Darwin" | Windows => "Windows"
  end.

(** What the file system holds at a path. *)
Record FileEntry : Type := {
  content : string;       (* the bytes of the file *)
  readable : bool;        (* [open] succeeds *)
  x_ok : bool             (* [os.access(path, os.X_OK)] *)
}.

(** One psutil connection: [conn.status] and [conn.raddr] ([None] when the
    remote address tuple is empty). *)
Record Connection : Type := {
  conn_status : string;
  conn_raddr : option (string * nat)
}.

(** What psutil reports about the monitored process during one pass of the
    polling loop. *)
Record Observation : Type := {
  obs_is_running : result bool;
  obs_open_files : result (list string);
  obs_connections : result (list Connection);
  obs_memory_maps : result (list string)
}.

(** A value of the [resource_limits] section of the YAML configuration:
    a scalar, or a mapping from security level to value. *)
Inductive cfgval : Type :=
| CScalar (v : pyval)
| CPerLevel (d : pydict).

(** What [IsolationProvider.execute] hands back: the dictionary of the
    container handlers, or the pair [(process, output)] of the process
    handlers. *)
Inductive exec_return : Type :=
| ExecDict (d : pydict)
| ExecTuple (process : pyval) (output : pydict).

Record World : Type := {
  platform : Platform;
  (* os.path *)
  basename : string -> string;
  splitext : string -> string * string;
  join : string -> string -> string;
  (* files *)
  fs : string -> option FileEntry;
  workspace_writable : bool;      (* makedirs and copy under SANDBOX_DIR succeed *)
  log_dir_writable : bool;        (* makedirs and open(..., 'w') under LOG_DIR succeed *)
  rmtree_result : result unit;    (* shutil.rmtree(sandbox_dir) *)
  SANDBOX_DIR : string;
  LOG_DIR : string;
  (* hashlib; re.search(pattern, text-of-file, re.IGNORECASE) is not None *)
  hexdigest : string -> string -> string;
  re_search : string -> string -> bool;
  (* uuid4, datetime.now().isoformat() at its n-th call, time elapsed *)
  uuid4 : string;
  datetime_now : nat -> string;
  elapsed : Q;
  (* settings.load_config().get("sandbox", {}).get("resource_limits", {}) *)
  resource_limits : result (list (string * cfgval));
  (* platform handlers *)
  check_container_support : result bool;
  check_isolation_support : result bool;
  create_container : string -> pyval -> pyval -> pyval -> result pyval;
  execute_in_container : pyval -> string -> result pydict;
  remove_container : pyval -> result unit;    (* its value is never used *)
  execute_isolated : string -> string -> result (pyval * pydict);
  terminate_process : pyval -> result unit;   (* its value is never used *)
  (* psutil.Process(pid).is_running(), the passes the polling thread makes
     before it is stopped, Popen.wait and Popen.terminate *)
  psutil_is_running : pyval -> result bool;
  polling_passes : pyval -> list Observation;
  process_wait : pyval -> Z -> result unit;
  process_terminate : pyval -> result unit
}.

(** File-system calls, read off [fs]. *)
Definition exists_ (w : World) (path : string) : bool :=
  match fs w path with Some _ => true | None => false end.

Definition read_bytes (w : World) (path : string) : result string :=
  match fs w path with
  | None => Raise (FileNotFoundError path)
  | Some f => if readable f then Ok (content f) else Raise (PermissionError path)
  end.

Definition getsize (w : World) (path : string) : result nat :=
  match fs w path with
  | None => Raise (FileNotFoundError path)
  | Some f => Ok (String.length (content f))
  end.

(* ================================================================== *)
(** * json.dumps of an activity record *)
(* ================================================================== *)

Record file_access : Type := { fa_timestamp : string; fa_path : string }.
Record net_connection : Type := { nc_timestamp : string; nc_remote : string }.
Record reg_activity : Type :=
  { ra_timestamp : string; ra_dll : string; ra_key : string }.

(** An element of [file_ops + network_ops + registry_ops]. *)
Inductive entry : Type :=
| EFile (f : file_access)
| ENet (n : net_connection)
| EReg (r : reg_activity).

Definition dquote : string := String "034"%char EmptyString.

Definition hex_digit (n : nat) : ascii :=
  if (n <? 10)%nat then ascii_of_nat (48 + n) else ascii_of_nat (87 + n).

(** One character of a JSON string with [ensure_ascii=True]. *)
Definition json_escape_char (c : ascii) : string :=
  let n := nat_of_ascii c in
  if (n =? 34)%nat then "\" ++ dquote
  else if (n =? 92)%nat then "\\"
  else if (n =? 10)%nat then "\n"
  else if (n =? 13)%nat then "\r"
  else if (n =? 9)%nat then "\t"
  else if (n =? 8)%nat then "\b"
  else if (n =? 12)%nat then "\f"
  else if (32 <=? n)%nat && (n <=? 126)%nat then String c EmptyString
  else "\u00" ++ String (hex_digit (n / 16)) (String (hex_digit (n mod 16)) EmptyString).

Fixpoint json_escape (s : string) : string :=
  match s with
  | EmptyString => EmptyString
  | String c s' => json_escape_char c ++ json_escape s'
  end.

Definition json_str (s : string) : string := dquote ++ json_escape s ++ dquote.

Definition json_item (k v : string) : string := json_str k ++ ": " ++ json_str v.

(** [json.dumps(entry)] *)
Definition json_dumps (e : entry) : string :=
  match e with
  | EFile f =>
      "{" ++ json_item "timestamp" (fa_timestamp f) ++ ", "
          ++ json_item "path" (fa_path f) ++ "}"
  | ENet n =>
      "{" ++ json_item "timestamp" (nc_timestamp n) ++ ", "
          ++ json_item "remote" (nc_remote n) ++ "}"
  | EReg r =>
      "{" ++ json_item "timestamp" (ra_timestamp r) ++ ", "
          ++ json_item "dll" (ra_dll r) ++ ", "
          ++ json_item "key" (ra_key r) ++ "}"
  end.

(* ================================================================== *)
(** * Findings and reports *)
(* ================================================================== *)

(** The dictionaries appended to the [threats] lists, by shape. *)
Inductive finding : Type :=
| FileFinding (signature_name : string) (threat_level : Q) (details : string)
    (* FileAnalyzer.analyze *)
| Heuristic (type details : string) (confidence : Q)
    (* analyze_file: "extension", "script", "error" *)
| Keyword (details level : string)
    (* analyze_file: "type": "keyword" *)
| SignatureFinding (signature_id signature_name threat_level category
                    details : string).
    (* analyze_report *)

(** [threat.get("type")] *)
Definition finding_type (f : finding) : option string :=
  match f with
  | Heuristic t _ _ => Some t
  | Keyword _ _ => Some "keyword"
  | _ => None
  end.

(** The [{"threat_score": ..., "threats": [...]}] of both analyses. *)
Record analysis : Type := { threat_score : Q; threats : list finding }.

(** The dictionary [ProcessMonitor.stop_monitoring] returns. *)
Record monitoring_data : Type := {
  md_threat_score : Z;
  file_operations : list file_access;
  network_activity : list net_connection;
  registry_operations : list reg_activity
}.

(** [monitor_results]: [None] is the empty dictionary [{}]. *)
Definition monitor_results : Type := option monitoring_data.

Definition get_file_operations (r : monitor_results) : list file_access :=
  match r with Some d => file_operations d | None => [] end.
Definition get_network_activity (r : monitor_results) : list net_connection :=
  match r with Some d => network_activity d | None => [] end.
Definition get_registry_operations (r : monitor_results) : list reg_activity :=
  match r with Some d => registry_operations d | None => [] end.

(* ================================================================== *)
(** * core/threat_detector.py: ThreatDetector.analyze_file *)
(* ================================================================== *)

Section Detector.
Variable w : World.

(** The extension branch: [score] starts at [0.0]. *)
Definition extension_step (ext : string) : Q * list finding :=
  if str_in ext [".exe"; ".dll"; ".bat"; ".ps1"]
  then (0.0 + 0.2, [Heuristic "extension" ext 0.8])
  else if str_in ext [".py"; ".js"; ".vba"]
  then (0.0 + 0.1, [Heuristic "script" ext 0.6])
  else (0.0, []).

(** One turn of [for kw, level in keywords]. *)
Definition keyword_step (file_content : string) (acc : Q * list finding)
           (k : string * ThreatLevel) : Q * list finding :=
  let (kw, level) := k in
  if contains kw file_content
  then (fst acc + keyword_weight level,
        (snd acc ++ [Keyword kw (ThreatLevel_name level)])%list)
  else acc.

Definition scan_keywords (file_content : string) (acc : Q * list finding)
  : Q * list finding :=
  fold_left (keyword_step file_content) keywords acc.

Definition analyze_file (file_path : string) : analysis :=
  let ext := lower (snd (splitext w file_path)) in
  let start := extension_step ext in
  match read_bytes w file_path with
  | Ok file_content =>
      let fin := scan_keywords file_content start in
      {| threat_score := py_min (fst fin) 1.0; threats := snd fin |}
  | Raise e =>
      {| threat_score := py_min (fst start) 1.0;
         threats := (snd start ++ [Heuristic "error" (exn_str e) 0.1])%list |}
  end.

(* ================================================================== *)
(** * core/threat_detector.py: ThreatDetector.analyze_report *)
(* ================================================================== *)

(** The negation of the [continue] guard on a signature's platforms. *)
Definition sig_applies (sig : ThreatSignature) : bool :=
  negb (negb (str_in (lower (platform_system (platform w)))
                     (map lower (sig_platforms sig)))
        && negb (str_in "all" (sig_platforms sig))).

(** [for indicator in sig.indicators: if ...: ...; break] *)
Fixpoint first_indicator (indicators : list string) (data_str : string)
  : option string :=
  match indicators with
  | [] => None
  | indicator :: rest =>
      if contains (lower indicator) data_str then Some indicator
      else first_indicator rest data_str
  end.

(** One turn of [for sig in self.signatures]. *)
Definition signature_step (data_str : string) (acc : Q * list finding)
           (sig : ThreatSignature) : Q * list finding :=
  if sig_applies sig then
    match first_indicator (sig_indicators sig) data_str with
    | Some indicator =>
        (fst acc + signature_weight (sig_severity sig),
         (snd acc ++ [SignatureFinding (sig_id sig) (sig_name sig)
                       (ThreatLevel_name (sig_severity sig))
                       (sig_category sig) indicator])%list)
    | None => acc
    end
  else acc.

(** One turn of [for entry in all_entries]. *)
Definition entry_step (signatures : list ThreatSignature)
           (acc : Q * list finding) (e : entry) : Q * list finding :=
  fold_left (signature_step (lower (json_dumps e))) signatures acc.

Definition all_entries (report : monitor_results) : list entry :=
  (map EFile (get_file_operations report)
   ++ map ENet (get_network_activity report)
   ++ map EReg (get_registry_operations report))%list.

Definition scan_entries (signatures : list ThreatSignature)
           (entries : list entry) : Q * list finding :=
  fold_left (entry_step signatures) entries (0.0, []).

Definition analyze_report (signatures : list ThreatSignature)
           (report : monitor_results) : analysis :=
  let fin := scan_entries signatures (all_entries report) in
  {| threat_score := py_min (fst fin) 1.0; threats := snd fin |}.

(* ================================================================== *)
(** * utils/file_analyzer.py: FileAnalyzer *)
(* ================================================================== *)

(** The dictionary [FileAnalyzer.analyze] returns; an absent key is [None]. *)
Record analysis_result : Type := {
  ar_error : option string;
  ar_filename : option string;
  ar_file_size : option nat;
  ar_file_extension : option string;
  ar_file_type : option string;
  ar_file_hash : option string;
  ar_md5_hash : option string;
  ar_is_executable : option bool;
  ar_threat_level : Q;
  ar_threat_analysis : option (list finding)
}.

(** [settings.EXECUTABLE_EXTENSIONS] *)
Definition EXECUTABLE_EXTENSIONS : list (string * list string) :=
  [ ("Windows", [".exe"; ".bat"; ".cmd"; ".msi"; ".ps1"; ".vbs"]);
    ("Linux", [".sh"; ".bin"; ".run"; ".AppImage"]);
    ("Darwin", [".app"; ".sh"; ".command"; ".tool"]) ].

Definition os_access_x (path : string) : bool :=
  match fs w path with Some f => x_ok f | None => false end.

Definition _is_executable (file_path file_ext : string) : bool :=
  let platform_name := platform_system (platform w) in
  if str_in file_ext (dict_get String.eqb EXECUTABLE_EXTENSIONS platform_name [])
  then true
  else if str_in platform_name ["Linux"; "Darwin"] then os_access_x file_path
  else false.

Definition _calculate_hash (file_path algorithm : string) : result string :=
  match read_bytes w file_path with
  | Ok bytes => Ok (hexdigest w algorithm bytes)
  | Raise e => Raise e
  end.

(** The [patterns] dictionary of [_check_script_for_suspicious_patterns]. *)
Definition script_patterns : list (string * string) :=
  [ ("Obfuscation", "eval\(|exec\(|base64\.decode|fromCharCode");
    ("System Access", "subprocess\.call|os\.system|exec\s+|runtime\.exec");
    ("Privilege Escalation", "sudo|runas|powershell -command");
    ("Network Connection",
     "socket\.connect|http[s]?://|urllib|requests\.get|curl |wget ");
    ("Data Exfiltration", "\.upload\(|POST http|ftp\.put|send\(|mail\(");
    ("Registry Access", "HKEY_|Registry\.|Reg(Create|Set)Key");
    ("Browser Exploit",
     "navigator\.userAgent|document\.cookie|localStorage|sessionStorage") ].

Definition _check_script_for_suspicious_patterns (file_path : string)
  : list string :=
  match read_bytes w file_path with
  | Ok text =>
      map (fun p => "Suspicious " ++ fst p ++ " pattern")
          (filter (fun p => re_search w (snd p) text) script_patterns)
  | Raise _ => []
  end.

(** [for pattern in suspicious_patterns: threat_score += 0.1; ...] *)
Definition pattern_step (acc : Q * list finding) (pattern : string)
  : Q * list finding :=
  (fst acc + 0.1,
   (snd acc ++ [FileFinding pattern 0.1 ("Suspicious pattern found: " ++ pattern)])%list).

(** The body of the [try] block of [analyze]. *)
Definition analyze_body (file_path : string) : result analysis_result :=
  match getsize w file_path with
  | Raise e => Raise e
  | Ok file_size =>
  let file_name := basename w file_path in
  let file_ext := lower (snd (splitext w file_name)) in
  match _calculate_hash file_path "md5" with
  | Raise e => Raise e
  | Ok md5_hash =>
  match _calculate_hash file_path "sha256" with
  | Raise e => Raise e
  | Ok sha256_hash =>
  let file_type := "Unknown (extension: " ++ file_ext ++ ")" in
  let s0 : Q * list finding := (0.0, []) in
  let is_executable := _is_executable file_path file_ext in
  let s1 :=
    if is_executable
    then (fst s0 + 0.3,
          (snd s0 ++ [FileFinding "Executable file detected" 0.3
            "The file is an executable, which could perform system-level operations."])%list)
    else s0 in
  let s2 :=
    if str_in file_ext [".sh"; ".py"; ".bat"; ".ps1"]
    then
      let s := (fst s1 + 0.1,
                (snd s1 ++ [FileFinding "Script file detected" 0.1
                  "Script files may contain commands that alter system behavior."])%list) in
      fold_left pattern_step (_check_script_for_suspicious_patterns file_path) s
    else s1 in
  let threat_score := py_min (fst s2) 1.0 in
  Ok {| ar_error := None;
        ar_filename := Some file_name;
        ar_file_size := Some file_size;
        ar_file_extension := Some file_ext;
        ar_file_type := Some file_type;
        ar_file_hash := Some sha256_hash;
        ar_md5_hash := Some md5_hash;
        ar_is_executable := Some is_executable;
        ar_threat_level := round2 threat_score;
        ar_threat_analysis := Some (snd s2) |}
  end end end.

Definition analyze (file_path : string) : analysis_result :=
  if negb (exists_ w file_path) then
    {| ar_error := Some "File not found"; ar_filename := None;
       ar_file_size := None; ar_file_extension := None; ar_file_type := None;
       ar_file_hash := None; ar_md5_hash := None; ar_is_executable := None;
       ar_threat_level := 0.0; ar_threat_analysis := None |}
  else
    match analyze_body file_path with
    | Ok r => r
    | Raise e =>
        {| ar_error := Some ("Analysis failed: " ++ exn_str e);
           ar_filename := Some (basename w file_path);
           ar_file_size := None; ar_file_extension := None;
           ar_file_type := None; ar_file_hash := None; ar_md5_hash := None;
           ar_is_executable := None;
           ar_threat_level := 0.5; ar_threat_analysis := Some [] |}
    end.

End Detector.

(* ================================================================== *)
(** * State and exceptions *)
(* ================================================================== *)

(** A computation on a state [S] that returns or raises; the state it
    leaves behind is kept in both cases. *)
Definition M (S A : Type) : Type := S -> result A * S.

Definition ret {S A} (a : A) : M S A := fun s => (Ok a, s).
Definition raise {S A} (e : exn) : M S A := fun s => (Raise e, s).

Definition bind {S A B} (m : M S A) (k : A -> M S B) : M S B :=
  fun s =>
    match m s with
    | (Ok a, s') => k a s'
    | (Raise e, s') => (Raise e, s')
    end.

(** [try: m except Exception as e: handler(e)] *)
Definition try_except {S A} (m : M S A) (handler : exn -> M S A) : M S A :=
  fun s =>
    match m s with
    | (Ok a, s') => (Ok a, s')
    | (Raise e, s') => handler e s'
    end.

Definition get {S} : M S S := fun s => (Ok s, s).
Definition put {S} (s : S) : M S unit := fun _ => (Ok tt, s).

(** A call whose outcome the world decides. *)
Definition lift {S A} (r : result A) : M S A := fun s => (r, s).

Declare Scope monad_scope.
Delimit Scope monad_scope with monad.
Notation "x <- m ;; k" := (bind m (fun x => k))
  (at level 61, m at next level, right associativity) : monad_scope.
Notation "m ;;; k" := (bind m (fun _ => k))
  (at level 61, right associativity) : monad_scope.
Open Scope monad_scope.

(* ================================================================== *)
(** * core/isolation.py *)
(* ================================================================== *)

(** Calls made on the platform handlers and on the workspace, in order. *)
Inductive event : Type :=
| CheckContainerSupport
| CheckIsolationSupport
| CreateContainer (security_level : string)
                  (memory_limit cpu_limit network_access : pyval)
| ExecuteInContainer (container_id : pyval) (file_path : string)
| RemoveContainer (container_id : pyval)
| ExecuteIsolated (file_path security_level : string)
| TerminateProcess (process : pyval)
| Makedirs (dir : string)
| Copy (src dst : string)
| Rmtree (dir : string)
| PopenTerminate (process : pyval).

Definition trace : Type := list event.

(** The two providers, with the attributes their methods assign. *)
Inductive IsolationProvider : Type :=
| ContainerIsolation (security_level : string) (container_id : pyval)
| ProcessIsolation (security_level : string) (process : pyval).

Definition provider_level (p : IsolationProvider) : string :=
  match p with
  | ContainerIsolation l _ | ProcessIsolation l _ => l
  end.

Definition is_container (p : IsolationProvider) : bool :=
  match p with ContainerIsolation _ _ => true | ProcessIsolation _ _ => false end.

(** The level check shared by both constructors. *)
Definition checked_level (security_level : string) : string :=
  let l := lower security_level in
  if str_in l ["low"; "medium"; "high"] then l else "medium".

Definition ContainerIsolation_init (security_level : string) : IsolationProvider :=
  ContainerIsolation (checked_level security_level) PNone.

Definition ProcessIsolation_init (security_level : string) : IsolationProvider :=
  ProcessIsolation (checked_level security_level) PNone.

Section Isolation.
Variable w : World.

Definition emit {S} (log : event -> S -> S) (e : event) : M S unit :=
  fun s => (Ok tt, log e s).

Definition log_trace (e : event) (t : trace) : trace := (t ++ [e])%list.

(** A provider together with the trace: the state of its methods. *)
Definition env_state : Type := IsolationProvider * trace.

Definition log_env (e : event) (s : env_state) : env_state :=
  (fst s, log_trace e (snd s)).

Definition set_provider (p : IsolationProvider) : M env_state unit :=
  fun s => (Ok tt, (p, snd s)).

(** [config.get(key, {}).get(level, default)] *)
Definition cfg_lookup (config : list (string * cfgval)) (key level : string)
           (default : pyval) : result pyval :=
  match dict_get String.eqb config key (CPerLevel []) with
  | CPerLevel d => Ok (dict_get String.eqb d level default)
  | CScalar _ => Raise (AttributeError "object has no attribute 'get'")
  end.

(** [ContainerIsolation._create_container] *)
Definition _create_container (level : string) : M env_state pyval :=
  let config := match resource_limits w with Ok c => c | Raise _ => [] end in
  mem <- lift (cfg_lookup config "memory_mb" level (PInt 256)) ;;
  cpu <- lift (cfg_lookup config "cpu_percent" level (PInt 30)) ;;
  net <- lift (cfg_lookup config "network_access" level (PBool false)) ;;
  try_except
    (emit log_env (CreateContainer level mem cpu net) ;;;
     id <- lift (create_container w level mem cpu net) ;;
     set_provider (ContainerIsolation level id) ;;;
     ret id)
    (fun _ => raise (RuntimeError "Container creation failed")).

(** [IsolationProvider.setup]; [ProcessIsolation.setup] is never called by
    the pipeline and is not embedded. *)
Definition setup : M env_state pyval :=
  s <- get ;;
  match fst s with
  | ContainerIsolation level _ => _create_container level
  | ProcessIsolation _ _ => ret PNone
  end.

(** [IsolationProvider.execute(file_path)] *)
Definition execute (file_path : string) : M env_state exec_return :=
  s <- get ;;
  match fst s with
  | ContainerIsolation _ container_id =>
      (if negb (truthy container_id) then setup ;;; ret tt else ret tt) ;;;
      s' <- get ;;
      match fst s' with
      | ContainerIsolation _ container_id' =>
          emit log_env (ExecuteInContainer container_id' file_path) ;;;
          d <- lift (execute_in_container w container_id' file_path) ;;
          ret (ExecDict d)
      | ProcessIsolation _ _ => ret (ExecDict [])
      end
  | ProcessIsolation level _ =>
      emit log_env (ExecuteIsolated file_path level) ;;;
      r <- lift (execute_isolated w file_path level) ;;
      set_provider (ProcessIsolation level (fst r)) ;;;
      ret (ExecTuple (fst r) (snd r))
  end.

(** [IsolationProvider.cleanup] *)
Definition cleanup_provider : M env_state bool :=
  s <- get ;;
  match fst s with
  | ContainerIsolation level container_id =>
      if truthy container_id then
        try_except
          (emit log_env (RemoveContainer container_id) ;;;
           lift (remove_container w container_id) ;;;
           set_provider (ContainerIsolation level PNone) ;;;
           ret true)
          (fun _ => ret false)
      else ret false
  | ProcessIsolation level process =>
      if truthy process then
        try_except
          (emit log_env (TerminateProcess process) ;;;
           lift (terminate_process w process) ;;;
           set_provider (ProcessIsolation level PNone) ;;;
           ret true)
          (fun _ => ret false)
      else ret false
  end.

(** [IsolationProvider.is_available] *)
Definition is_available (p : IsolationProvider) : M trace bool :=
  match p with
  | ContainerIsolation _ _ =>
      try_except
        (emit log_trace CheckContainerSupport ;;; lift (check_container_support w))
        (fun _ => ret false)
  | ProcessIsolation _ _ =>
      try_except
        (emit log_trace CheckIsolationSupport ;;; lift (check_isolation_support w))
        (fun _ => ret false)
  end.

(** The second [if] of [get_isolation_environment] and the final [raise]. *)
Definition try_process_isolation (method security_level : string)
  : M trace IsolationProvider :=
  if (method =? "process")%string || (method =? "container")%string then
    let process := ProcessIsolation_init security_level in
    available <- is_available process ;;
    if available then ret process
    else raise (RuntimeError "No supported isolation method available.")
  else raise (RuntimeError "No supported isolation method available.").

Definition get_isolation_environment (method security_level : string)
  : M trace IsolationProvider :=
  let method := lower method in
  if (method =? "container")%string then
    let container := ContainerIsolation_init security_level in
    available <- is_available container ;;
    if available then ret container
    else try_process_isolation method security_level
  else try_process_isolation method security_level.

End Isolation.

(* ================================================================== *)
(** * core/monitor.py: ProcessMonitor *)
(* ================================================================== *)

(** The attributes of a monitor.  [clock_reads] counts the calls of
    [datetime.now()] made so far; it selects the world's next clock
    reading and is not an attribute of the Python object.  The three lists
    are the entries of [self.monitoring_data] under the keys
    ["file_accesses"], ["network_connections"] and
    ["registry_activities"]; [keys_renamed] holds once [stop_monitoring]
    has popped these keys: the entries are gone from the dictionary, and a
    subscript on one of them raises [KeyError]. *)
Record ProcessMonitor : Type := {
  pm_platform : string;
  monitoring : bool;
  monitoring_thread : bool;
  pm_pid : pyval;
  pm_threat_score : Z;
  file_accesses : list file_access;
  network_connections : list net_connection;
  registry_activities : list reg_activity;
  clock_reads : nat;
  keys_renamed : bool
}.

(** [self.suspicious_patterns] *)
Definition suspicious_files : list string :=
  ["C:\Windows\System32\config"; "/etc/passwd"].
Definition suspicious_network : list string :=
  ["malicious.example.com"; ":4444"; ":1337"; ":31337"].
Definition suspicious_registry : list string :=
  ["HKEY_LOCAL_MACHINE\SOFTWARE\Microsoft\Windows\CurrentVersion\Run";
   "HKEY_CURRENT_USER\Software\Microsoft\Windows\CurrentVersion\Run"].

Section Monitor.
Variable w : World.

(** [ProcessMonitor.__init__], after its [os.makedirs]. *)
Definition new_monitor : ProcessMonitor :=
  {| pm_platform := platform_system (platform w);
     monitoring := false; monitoring_thread := false; pm_pid := PNone;
     pm_threat_score := 0;
     file_accesses := []; network_connections := [];
     registry_activities := []; clock_reads := 0; keys_renamed := false |}.

(** [for pattern in patterns: if pattern in s: self.threat_score += points] *)
Definition add_points (patterns : list string) (s : string) (points score : Z) : Z :=
  fold_left (fun sc pattern => if contains pattern s then (sc + points)%Z else sc)
            patterns score.

Definition set_threat_score (m : ProcessMonitor) (score : Z) : ProcessMonitor :=
  {| pm_platform := pm_platform m; monitoring := monitoring m;
     monitoring_thread := monitoring_thread m; pm_pid := pm_pid m;
     pm_threat_score := score;
     file_accesses := file_accesses m;
     network_connections := network_connections m;
     registry_activities := registry_activities m;
     clock_reads := clock_reads m; keys_renamed := keys_renamed m |}.

Definition append_file_access (m : ProcessMonitor) (path : string) : ProcessMonitor :=
  {| pm_platform := pm_platform m; monitoring := monitoring m;
     monitoring_thread := monitoring_thread m; pm_pid := pm_pid m;
     pm_threat_score := pm_threat_score m;
     file_accesses :=
       (file_accesses m ++
        [{| fa_timestamp := datetime_now w (clock_reads m); fa_path := path |}])%list;
     network_connections := network_connections m;
     registry_activities := registry_activities m;
     clock_reads := S (clock_reads m); keys_renamed := keys_renamed m |}.

Definition append_network_connection (m : ProcessMonitor) (remote : string)
  : ProcessMonitor :=
  {| pm_platform := pm_platform m; monitoring := monitoring m;
     monitoring_thread := monitoring_thread m; pm_pid := pm_pid m;
     pm_threat_score := pm_threat_score m;
     file_accesses := file_accesses m;
     network_connections :=
       (network_connections m ++
        [{| nc_timestamp := datetime_now w (clock_reads m); nc_remote := remote |}])%list;
     registry_activities := registry_activities m;
     clock_reads := S (clock_reads m); keys_renamed := keys_renamed m |}.

Definition append_registry_activity (m : ProcessMonitor) (dll : string)
  : ProcessMonitor :=
  {| pm_platform := pm_platform m; monitoring := monitoring m;
     monitoring_thread := monitoring_thread m; pm_pid := pm_pid m;
     pm_threat_score := pm_threat_score m;
     file_accesses := file_accesses m;
     network_connections := network_connections m;
     registry_activities :=
       (registry_activities m ++
        [{| ra_timestamp := datetime_now w (clock_reads m); ra_dll := dll;
            ra_key := hd EmptyString suspicious_registry |}])%list;
     clock_reads := S (clock_reads m); keys_renamed := keys_renamed m |}.

(** The body of [for file in process.open_files()]. *)
Definition file_step (m : ProcessMonitor) (path : string) : ProcessMonitor :=
  if negb (existsb (fun f => (fa_path f =? path)%string) (file_accesses m)) then
    let m1 := append_file_access m path in
    set_threat_score m1 (add_points suspicious_files path 10 (pm_threat_score m1))
  else m.

(** [_monitor_file_activity].  The first turn of the loop subscripts
    [self.monitoring_data["file_accesses"]] before it changes anything:
    once the keys are renamed that raises [KeyError], which the
    [except Exception: pass] around the loop swallows. *)
Definition _monitor_file_activity (obs : Observation) (m : ProcessMonitor)
  : ProcessMonitor :=
  match obs_open_files obs with
  | Ok files => if keys_renamed m then m else fold_left file_step files m
  | Raise _ => m
  end.

(** [f"{conn.raddr.ip}:{conn.raddr.port}"] *)
Definition remote_of (ip : string) (port : nat) : string :=
  ip ++ ":" ++ str_of_nat port.

(** The body of [for conn in process.connections(kind="inet")]. *)
Definition network_step (m : ProcessMonitor) (conn : Connection) : ProcessMonitor :=
  match conn_raddr conn with
  | Some (ip, port) =>
      if (conn_status conn =? "ESTABLISHED")%string then
        let remote := remote_of ip port in
        let m1 :=
          if negb (existsb (fun n => (nc_remote n =? remote)%string)
                           (network_connections m))
          then append_network_connection m remote
          else m in
        set_threat_score m1
          (add_points suspicious_network remote 20 (pm_threat_score m1))
      else m
  | None => m
  end.

(** [_monitor_network_activity].  Connections that are not established
    are passed over; the first established one subscripts
    [self.monitoring_data["network_connections"]] before anything is
    appended or scored, with the same [KeyError] once the keys are
    renamed. *)
Definition _monitor_network_activity (obs : Observation) (m : ProcessMonitor)
  : ProcessMonitor :=
  match obs_connections obs with
  | Ok conns => if keys_renamed m then m else fold_left network_step conns m
  | Raise _ => m
  end.

(** The body of [for dll in dlls]. *)
Definition registry_step (m : ProcessMonitor) (dll_path : string) : ProcessMonitor :=
  let path := lower dll_path in
  if contains "advapi32.dll" path then
    if negb (existsb (fun r => (ra_dll r =? path)%string) (registry_activities m))
    then
      let m1 := append_registry_activity m path in
      set_threat_score m1 (pm_threat_score m1 + 5)%Z
    else m
  else m.

(** [_monitor_registry_activity]; the subscript on
    [self.monitoring_data["registry_activities"]] comes first here too. *)
Definition _monitor_registry_activity (obs : Observation) (m : ProcessMonitor)
  : ProcessMonitor :=
  match obs_memory_maps obs with
  | Ok dlls => if keys_renamed m then m else fold_left registry_step dlls m
  | Raise _ => m
  end.

(** One pass of the [while self.monitoring] loop; [None] when the pass
    leaves the loop ([break]). *)
Definition poll (obs : Observation) (m : ProcessMonitor) : option ProcessMonitor :=
  match obs_is_running obs with
  | Ok true =>
      let m1 := _monitor_file_activity obs m in
      let m2 := _monitor_network_activity obs m1 in
      Some (if (pm_platform m2 =? "Windows")%string
            then _monitor_registry_activity obs m2 else m2)
  | Ok false => None
  | Raise _ => None
  end.

(** [_monitor_process]: the passes made while [self.monitoring] holds. *)
Fixpoint _monitor_process (passes : list Observation) (m : ProcessMonitor)
  : ProcessMonitor :=
  match passes with
  | [] => m
  | obs :: rest =>
      match poll obs m with
      | Some m' => _monitor_process rest m'
      | None => m
      end
  end.

Definition set_started (m : ProcessMonitor) (pid : pyval) (started : bool)
  : ProcessMonitor :=
  {| pm_platform := pm_platform m;
     monitoring := if started then true else monitoring m;
     monitoring_thread := if started then true else monitoring_thread m;
     pm_pid := pid;
     pm_threat_score := pm_threat_score m;
     file_accesses := file_accesses m;
     network_connections := network_connections m;
     registry_activities := registry_activities m;
     clock_reads := clock_reads m; keys_renamed := keys_renamed m |}.

(** [start_monitoring(pid)]; the returned dictionary is not used by the
    caller. *)
Definition start_monitoring (pid : pyval) : M ProcessMonitor unit :=
  if negb (truthy pid) then ret tt
  else
    m <- get ;;
    put (set_started m pid false) ;;;
    try_except
      (running <- lift (psutil_is_running w pid) ;;
       if running then put (set_started m pid true) else ret tt)
      (fun e => match e with NoSuchProcess => ret tt | _ => raise e end).

Definition set_stopped (m : ProcessMonitor) : ProcessMonitor :=
  {| pm_platform := pm_platform m; monitoring := false;
     monitoring_thread := monitoring_thread m; pm_pid := pm_pid m;
     pm_threat_score := pm_threat_score m;
     file_accesses := file_accesses m;
     network_connections := network_connections m;
     registry_activities := registry_activities m;
     clock_reads := clock_reads m; keys_renamed := keys_renamed m |}.

(** [self.monitoring_data.pop(key, [])] for each of the three keys: the
    entries leave the dictionary. *)
Definition rename_keys (m : ProcessMonitor) : ProcessMonitor :=
  {| pm_platform := pm_platform m; monitoring := monitoring m;
     monitoring_thread := monitoring_thread m; pm_pid := pm_pid m;
     pm_threat_score := pm_threat_score m;
     file_accesses := [];
     network_connections := [];
     registry_activities := [];
     clock_reads := clock_reads m; keys_renamed := true |}.

(** What [pop(key, [])] gives: the list under the key, or the default
    [[]] when the key is gone. *)
Definition popped {A} (m : ProcessMonitor) (l : list A) : list A :=
  if keys_renamed m then [] else l.

(** [stop_monitoring]: the flag is cleared, the thread is joined (the passes
    it made are in the monitor from here on), the log is written, and the
    three lists are popped and returned under the detector's key names.
    When writing the log raises, the keys are not renamed. *)
Definition stop_monitoring : M ProcessMonitor monitoring_data :=
  m <- get ;;
  let m1 :=
    if monitoring_thread m
    then _monitor_process (polling_passes w (pm_pid m)) m else m in
  put (set_stopped m1) ;;;
  (if log_dir_writable w then ret tt
   else raise (PermissionError (LOG_DIR w))) ;;;
  put (rename_keys (set_stopped m1)) ;;;
  ret {| md_threat_score := pm_threat_score m1;
         file_operations := popped m1 (file_accesses m1);
         network_activity := popped m1 (network_connections m1);
         registry_operations := popped m1 (registry_activities m1) |}.

End Monitor.

(* ================================================================== *)
(** * core/threat_detector.py: ThreatDetector.__init__ *)
(* ================================================================== *)

Record ThreatDetector : Type := {
  signatures : list ThreatSignature;
  td_security_level : string;
  td_isolation_method : string;
  td_isolation_env : IsolationProvider;
  detection_sensitivity : Q
}.

Section Pipeline.
Variable w : World.

(** [ThreatDetector(security_level, isolation_method)];
    [isolation_method or "container"] replaces [None] and the empty string. *)
Definition ThreatDetector_init (security_level : string)
           (isolation_method : option string) : M trace ThreatDetector :=
  let method :=
    match isolation_method with
    | Some m => if truthy (PStr m) then m else "container"
    | None => "container"
    end in
  env <- get_isolation_environment w method security_level ;;
  ret {| signatures := builtin_signatures;
         td_security_level := security_level;
         td_isolation_method := method;
         td_isolation_env := env;
         detection_sensitivity :=
           dict_get String.eqb [("low", 0.3); ("medium", 0.5); ("high", 0.7)]
                    (lower security_level) 0.5 |}.

(* ================================================================== *)
(** * core/sandbox.py: Sandbox *)
(* ================================================================== *)

(** The attributes of a sandbox.  [dir_exists] stands for
    [os.path.exists(self.sandbox_dir)]. *)
Record Sandbox : Type := {
  security_level : string;
  isolation_method : string;
  sandbox_id : string;
  sandbox_dir : string;
  threat_detector : ThreatDetector;
  process_monitor : ProcessMonitor;
  isolation_env : IsolationProvider;
  dir_exists : bool
}.

(** A sandbox together with the trace: the state of its methods. *)
Definition sandbox_state : Type := Sandbox * trace.

Definition log_sandbox (e : event) (s : sandbox_state) : sandbox_state :=
  (fst s, log_trace e (snd s)).

(** [os.makedirs(dir, exist_ok=True)] under a directory that is writable
    or not. *)
Definition makedirs {S} (log : event -> S -> S) (writable : bool) (dir : string)
  : M S unit :=
  emit log (Makedirs dir) ;;;
  if writable then ret tt else raise (PermissionError dir).

Definition Sandbox_init (isolation_method security_level : string)
  : M trace Sandbox :=
  let sandbox_id := uuid4 w in
  let sandbox_dir := join w (SANDBOX_DIR w) sandbox_id in
  detector <- ThreatDetector_init security_level (Some isolation_method) ;;
  makedirs log_trace (log_dir_writable w) (join w (LOG_DIR w) sandbox_id) ;;;
  env <- get_isolation_environment w isolation_method security_level ;;
  makedirs log_trace (workspace_writable w) sandbox_dir ;;;
  ret {| security_level := security_level;
         isolation_method := isolation_method;
         sandbox_id := sandbox_id;
         sandbox_dir := sandbox_dir;
         threat_detector := detector;
         process_monitor := new_monitor w;
         isolation_env := env;
         dir_exists := true |}.

(** Running a method of [self.isolation_env] / [self.process_monitor]
    inside a method of the sandbox. *)
Definition on_env {A} (m : M env_state A) : M sandbox_state A :=
  fun s =>
    let sb := fst s in
    match m (isolation_env sb, snd s) with
    | (r, (env', t')) =>
        (r, ({| security_level := security_level sb;
                isolation_method := isolation_method sb;
                sandbox_id := sandbox_id sb;
                sandbox_dir := sandbox_dir sb;
                threat_detector := threat_detector sb;
                process_monitor := process_monitor sb;
                isolation_env := env';
                dir_exists := dir_exists sb |}, t'))
    end.

Definition on_monitor {A} (m : M ProcessMonitor A) : M sandbox_state A :=
  fun s =>
    let sb := fst s in
    match m (process_monitor sb) with
    | (r, mon') =>
        (r, ({| security_level := security_level sb;
                isolation_method := isolation_method sb;
                sandbox_id := sandbox_id sb;
                sandbox_dir := sandbox_dir sb;
                threat_detector := threat_detector sb;
                process_monitor := mon';
                isolation_env := isolation_env sb;
                dir_exists := dir_exists sb |}, snd s))
    end.

(** [self.security_level = level] *)
Definition set_security_level (level : string) : M sandbox_state unit :=
  fun s =>
    let sb := fst s in
    (Ok tt, ({| security_level := level;
                isolation_method := isolation_method sb;
                sandbox_id := sandbox_id sb;
                sandbox_dir := sandbox_dir sb;
                threat_detector := threat_detector sb;
                process_monitor := process_monitor sb;
                isolation_env := isolation_env sb;
                dir_exists := dir_exists sb |}, snd s)).

(** A sandbox whose directory exists, or not. *)
Definition with_dir_exists (sb : Sandbox) (b : bool) : Sandbox :=
  {| security_level := security_level sb;
     isolation_method := isolation_method sb;
     sandbox_id := sandbox_id sb;
     sandbox_dir := sandbox_dir sb;
     threat_detector := threat_detector sb;
     process_monitor := process_monitor sb;
     isolation_env := isolation_env sb;
     dir_exists := b |}.

Definition set_dir_exists (b : bool) : M sandbox_state unit :=
  fun s =>
    let sb := fst s in
    (Ok tt, ({| security_level := security_level sb;
                isolation_method := isolation_method sb;
                sandbox_id := sandbox_id sb;
                sandbox_dir := sandbox_dir sb;
                threat_detector := threat_detector sb;
                process_monitor := process_monitor sb;
                isolation_env := isolation_env sb;
                dir_exists := b |}, snd s)).

(** [shutil.copy(src, dst)] *)
Definition shutil_copy (src dst : string) : M sandbox_state unit :=
  emit log_sandbox (Copy src dst) ;;;
  lift (read_bytes w src) ;;;
  if workspace_writable w then ret tt else raise (PermissionError dst).

(** [_prepare_file].  [os.makedirs(dest_dir, exist_ok=True)] creates the
    missing parents of [dest_dir] too: once it has returned,
    [self.sandbox_dir] exists, also when an earlier [cleanup] had removed
    it. *)
Definition _prepare_file (file_path : string) : M sandbox_state string :=
  s <- get ;;
  let dest_dir := join w (sandbox_dir (fst s)) "files" in
  makedirs log_sandbox (workspace_writable w) dest_dir ;;;
  set_dir_exists true ;;;
  let file_name := basename w file_path in
  let dest_file_path := join w dest_dir file_name in
  shutil_copy file_path dest_file_path ;;;
  ret dest_file_path.

(** The dictionary of [_execute_in_container] and [_execute_in_process]. *)
Record execution_result : Type := {
  er_status : string;
  er_exit_code : pyval;
  er_pid : pyval;
  er_process : pyval
}.

Definition failed_execution : execution_result :=
  {| er_status := "failed"; er_exit_code := PInt (-1);
     er_pid := PNone; er_process := PNone |}.

Definition _execute_in_container (file_path : string) (timeout : Z)
  : M sandbox_state execution_result :=
  try_except
    (r <- on_env (execute w file_path) ;;
     match r with
     | ExecDict d =>
         ret {| er_status := "completed";
                er_exit_code := dict_get String.eqb d "exit_code" (PInt 0);
                er_pid := dict_get String.eqb d "pid" PNone;
                er_process := PNone |}
     | ExecTuple _ _ =>
         raise (AttributeError "'tuple' object has no attribute 'get'")
     end)
    (fun _ => ret failed_execution).

(** [process, output = ...]: a pair unpacks to its components, a
    dictionary to its keys when there are exactly two. *)
Definition unpack_pair (r : exec_return) : result (pyval * pyval) :=
  match r with
  | ExecTuple process _ => Ok (process, PNone)
  | ExecDict [(k1, _); (k2, _)] => Ok (PStr k1, PStr k2)
  | ExecDict _ => Raise (ValueError "wrong number of values to unpack")
  end.

(** [process.pid if process else None] *)
Definition pid_of (process : pyval) : result pyval :=
  if truthy process then
    match process with
    | PProc pid => Ok (PInt pid)
    | _ => Raise (AttributeError "object has no attribute 'pid'")
    end
  else Ok PNone.

Definition _execute_in_process (file_path : string) (timeout : Z)
  : M sandbox_state execution_result :=
  try_except
    (r <- on_env (execute w file_path) ;;
     po <- lift (unpack_pair r) ;;
     pid <- lift (pid_of (fst po)) ;;
     ret {| er_status := "completed"; er_exit_code := PInt 0;
            er_pid := pid; er_process := fst po |})
    (fun _ => ret failed_execution).

Definition _terminate_execution (er : execution_result) : M sandbox_state unit :=
  let process := er_process er in
  if truthy process then
    try_except
      (emit log_sandbox (PopenTerminate process) ;;;
       lift (process_terminate w process))
      (fun _ => ret tt)
  else ret tt.

(** [Sandbox.cleanup] *)
Definition cleanup : M sandbox_state unit :=
  try_except
    (s <- get ;;
     (if dir_exists (fst s) then
        emit log_sandbox (Rmtree (sandbox_dir (fst s))) ;;;
        lift (rmtree_result w) ;;;
        set_dir_exists false
      else ret tt) ;;;
     on_env (cleanup_provider w) ;;;
     ret tt)
    (fun _ => ret tt).

(** The report dictionary of [execute_file]. *)
Record report : Type := {
  r_sandbox_id : string;
  r_filename : string;
  r_file : string;
  r_file_hash : option string;
  r_execution_time : Q;
  r_status : string;
  r_exit_code : pyval;
  r_threat_level : Q;
  r_monitoring_results : monitor_results;
  r_threats : list finding;          (* threat_analysis.threats *)
  r_timestamp : string;
  r_file_operations : list file_access;
  r_network_activity : list net_connection;
  r_registry_operations : list reg_activity
}.

(** The monitored branch of [execute_file]: start, wait, stop. *)
Definition monitored_run (er : execution_result) (timeout : Z)
  : M sandbox_state monitor_results :=
  on_monitor (start_monitoring w (er_pid er)) ;;;
  (if truthy (er_process er) then
     try_except
       (lift (process_wait w (er_process er) timeout))
       (fun e => match e with
                 | TimeoutExpired => _terminate_execution er
                 | _ => raise e
                 end)
   else ret tt) ;;;
  data <- on_monitor (stop_monitoring w) ;;
  ret (Some data).

(** The [if self.isolation_method == "container": ... else: ...] of
    [execute_file]: the execution result and the monitor results. *)
Definition run_step (sandbox_file_path : string) (timeout : Z)
           (monitor : bool) (method : string)
  : M sandbox_state (execution_result * monitor_results) :=
  if (method =? "container")%string then
    er <- _execute_in_container sandbox_file_path timeout ;;
    ret (er, None)
  else
    er <- _execute_in_process sandbox_file_path timeout ;;
    if monitor && truthy (er_pid er) then
      mr <- monitored_run er timeout ;;
      ret (er, mr)
    else ret (er, None).

(** [total_threat_score] *)
Definition combined_score (static_threat_score dynamic_score : Q) : Q :=
  round2 (py_min (static_threat_score + dynamic_score) 1.0).

Definition execute_file (file_path : string) (timeout : Z) (monitor : bool)
  : M sandbox_state report :=
  (* static analysis *)
  let analysis_result := analyze w file_path in
  let static_threat_score := ar_threat_level analysis_result in
  let static_threats :=
    match ar_threat_analysis analysis_result with Some t => t | None => [] end in
  let file_name :=
    match ar_filename analysis_result with
    | Some n => n | None => basename w file_path
    end in
  (* copy to sandbox directory *)
  sandbox_file_path <- _prepare_file file_path ;;
  (* elevate security if static score is high *)
  (if negb (Qle_bool static_threat_score 0.2)
   then set_security_level "high" else ret tt) ;;;
  (* execute in sandbox *)
  s <- get ;;
  run <- run_step sandbox_file_path timeout monitor (isolation_method (fst s)) ;;
  let execution_result := fst run in
  let monitor_results := snd run in
  (* dynamic analysis *)
  s' <- get ;;
  let dynamic_analysis :=
    analyze_report w (signatures (threat_detector (fst s'))) monitor_results in
  let dynamic_score := threat_score dynamic_analysis in
  let dynamic_threats := threats dynamic_analysis in
  let total_threat_score := combined_score static_threat_score dynamic_score in
  let combined_threats := (static_threats ++ dynamic_threats)%list in
  let rep :=
    {| r_sandbox_id := sandbox_id (fst s');
       r_filename := file_name;
       r_file := file_name;
       r_file_hash := ar_file_hash analysis_result;
       r_execution_time := elapsed w;
       r_status := er_status execution_result;
       r_exit_code := er_exit_code execution_result;
       r_threat_level := total_threat_score;
       r_monitoring_results := monitor_results;
       r_threats := combined_threats;
       r_timestamp := datetime_now w (clock_reads (process_monitor (fst s')));
       r_file_operations := get_file_operations monitor_results;
       r_network_activity := get_network_activity monitor_results;
       r_registry_operations := get_registry_operations monitor_results |} in
  cleanup ;;;
  ret rep.

(** main.py, [run_sandbox]: construct a sandbox, then scan. *)
Definition run_sandbox (file_path security_level isolation_method : string)
  : result report * trace :=
  match Sandbox_init isolation_method security_level [] with
  | (Ok sandbox, t) =>
      match execute_file file_path 300 true (sandbox, t) with
      | (r, (_, t')) => (r, t')
      end
  | (Raise e, t) => (Raise e, t)
  end.

End Pipeline.

(* ================================================================== *)
(** * os.path on POSIX, and worlds to run the pipeline in *)
(* ================================================================== *)

Module Posix.

(** [posixpath.basename]: what follows the last slash. *)
Fixpoint basename (p : string) : string :=
  match p with
  | EmptyString => EmptyString
  | String c p' =>
      if contains "/" p' then basename p'
      else if Ascii.eqb c "/"%char then p' else p
  end.

(** [posixpath.join] of two components. *)
Definition join (a b : string) : string :=
  if prefix "/" b then b
  else if (a =? EmptyString)%string then b
  else if contains "/" (substring (String.length a - 1) 1 a) then a ++ b
  else a ++ "/" ++ b.

(** [p.rfind(c)], [-1] when [c] does not occur. *)
Fixpoint rfind_from (c : ascii) (p : string) (i last : Z) : Z :=
  match p with
  | EmptyString => last
  | String d p' => rfind_from c p' (i + 1)%Z (if Ascii.eqb d c then i else last)
  end.

Definition rfind (c : ascii) (p : string) : Z := rfind_from c p 0 (-1).

(** Some character of [p] is not a dot. *)
Fixpoint has_non_dot (p : string) : bool :=
  match p with
  | EmptyString => false
  | String c p' => negb (Ascii.eqb c "."%char) || has_non_dot p'
  end.

(** [posixpath.splitext], that is [genericpath._splitext(p, '/', None, '.')]:
    the extension starts at the last dot, provided that dot comes after the
    last slash and after some character of the name that is not a dot. *)
Definition splitext (p : string) : string * string :=
  let sepIndex := rfind "/"%char p in
  let dotIndex := rfind "."%char p in
  if (sepIndex <? dotIndex)%Z
     && has_non_dot (substring (Z.to_nat (sepIndex + 1))
                               (Z.to_nat (dotIndex - (sepIndex + 1))) p)
  then (substring 0 (Z.to_nat dotIndex) p,
        substring (Z.to_nat dotIndex) (String.length p - Z.to_nat dotIndex) p)
  else (p, EmptyString).

End Posix.

(** Lookup in a finite directory listing. *)
Fixpoint lookup_file (files : list (string * FileEntry)) (path : string)
  : option FileEntry :=
  match files with
  | [] => None
  | (p, f) :: rest => if (p =? path)%string then Some f else lookup_file rest path
  end.

Definition plain_file (bytes : string) : FileEntry :=
  {| content := bytes; readable := true; x_ok := false |}.

Definition executable_file (bytes : string) : FileEntry :=
  {| content := bytes; readable := true; x_ok := true |}.

(** A Linux host: what is on disk, which back ends answer the probes, what
    the process handler does with a file, and what the polling thread sees. *)
Definition linux_world (files : list (string * FileEntry))
           (container_probe process_probe : result bool)
           (run : result (pyval * pydict)) (passes : list Observation) : World :=
  {| platform := Linux;
     basename := Posix.basename;
     splitext := Posix.splitext;
     join := Posix.join;
     fs := lookup_file files;
     workspace_writable := true;
     log_dir_writable := true;
     rmtree_result := Ok tt;
     SANDBOX_DIR := "/home/user/.saferun/sandbox";
     LOG_DIR := "/home/user/.saferun/logs";
     hexdigest := fun algorithm bytes => algorithm ++ ":" ++ bytes;
     re_search := fun _ _ => false;
     uuid4 := "0b0c7f3e-sandbox";
     datetime_now := fun n => "2025-01-01T00:00:0" ++ str_of_nat (n mod 10);
     elapsed := 1.5;
     resource_limits := Ok [];
     check_container_support := container_probe;
     check_isolation_support := process_probe;
     create_container := fun _ _ _ _ => Ok (PStr "c0ffee");
     execute_in_container := fun _ _ => Ok [("exit_code", PInt 0)];
     remove_container := fun _ => Ok tt;
     execute_isolated := fun _ _ => run;
     terminate_process := fun _ => Ok tt;
     psutil_is_running := fun _ => Ok true;
     polling_passes := fun _ => passes;
     process_wait := fun _ _ => Ok tt;
     process_terminate := fun _ => Ok tt |}.

(** One pass in which the process is running and psutil reports the given
    open files and connections. *)
Definition seen (files : list string) (conns : list Connection) : Observation :=
  {| obs_is_running := Ok true;
     obs_open_files := Ok files;
     obs_connections := Ok conns;
     obs_memory_maps := Ok [] |}.

Definition established (ip : string) (port : nat) : Connection :=
  {| conn_status := "ESTABLISHED"; conn_raddr := Some (ip, port) |}.

(* ================================================================== *)
(** * Vocabulary of the properties *)
(* ================================================================== *)

(** The weight table as the code applies it: the four entries of the
    dictionary, and the default of [.get] for every other severity. *)
Definition severity_table (level : ThreatLevel) : Q :=
  match level with
  | CRITICAL => 1.0
  | HIGH => 0.4
  | MEDIUM => 0.2
  | LOW => 0.1
  | NONE => 0.1
  end.

(** The weight table as the specification words it: four weights, and
    [none] contributing nothing. *)
Definition spec_weight (level : ThreatLevel) : Q :=
  match level with
  | CRITICAL => 1.0
  | HIGH => 0.4
  | MEDIUM => 0.2
  | LOW => 0.1
  | NONE => 0.0
  end.

(** The weight a finding stands for: the table at the severity the finding
    names.  Findings of the extension heuristics carry no severity. *)
Definition finding_weight (f : finding) : Q :=
  match f with
  | Keyword _ level => severity_table (from_string level)
  | SignatureFinding _ _ level _ _ => severity_table (from_string level)
  | _ => 0
  end.

Definition Qsum (l : list Q) : Q := fold_right Qplus 0 l.

(** How many findings of a list have the given ["type"]. *)
Definition count_type (t : string) (l : list finding) : nat :=
  List.length
    (filter (fun f => match finding_type f with
                      | Some t' => (t' =? t)%string
                      | None => false
                      end) l).

(** What the score is ahead of the weights of the findings collected. *)
Definition balance (acc : Q * list finding) : Q :=
  fst acc - Qsum (map finding_weight (snd acc)).

(** What one record adds to the dynamic score. *)
Definition entry_gain (w : World) (sigs : list ThreatSignature) (e : entry) : Q :=
  fst (entry_step w sigs (0, []) e).

(** A report that has the records of another one and possibly more, in
    each of the three lists. *)
Definition extends (r r' : monitor_results) : Prop :=
  exists fx nx gx,
    get_file_operations r' = (get_file_operations r ++ fx)%list
    /\ get_network_activity r' = (get_network_activity r ++ nx)%list
    /\ get_registry_operations r' = (get_registry_operations r ++ gx)%list.

(** [path.endswith(suffix)] *)
Definition ends_with (suffix path : string) : bool :=
  (substring (String.length path - String.length suffix)
             (String.length suffix) path =? suffix)%string
  && (String.length suffix <=? String.length path)%nat.

(** The error of [get_isolation_environment] when nothing is available. *)
Definition NoIsolationAvailable : exn :=
  RuntimeError "No supported isolation method available.".

(** [is_available()] as the selector sees it: a probe that raises counts as
    unavailable. *)
Definition container_available (w : World) : bool :=
  match check_container_support w with Ok b => b | Raise _ => false end.
Definition process_available (w : World) : bool :=
  match check_isolation_support w with Ok b => b | Raise _ => false end.

(** Calls that set up an isolation environment or run a file in one. *)
Definition is_setup_or_execute (e : event) : bool :=
  match e with
  | CreateContainer _ _ _ _ | ExecuteInContainer _ _ | ExecuteIsolated _ _ => true
  | _ => false
  end.

(** A trace without such a call. *)
Definition no_setup_or_execute (t : trace) : bool :=
  forallb (fun e => negb (is_setup_or_execute e)) t.

(** A computation on the trace that adds neither a set-up nor an execute
    call to it. *)
Definition quiet {A} (m : M trace A) : Prop :=
  forall t, no_setup_or_execute t = true ->
            no_setup_or_execute (snd (m t)) = true.

(** Probes of the back ends. *)
Definition is_probe (e : event) : bool :=
  match e with
  | CheckContainerSupport | CheckIsolationSupport => true
  | _ => false
  end.

(** [threat_analysis.threats] of the static analysis, [[]] when absent. *)
Definition static_threats_of (r : analysis_result) : list finding :=
  match ar_threat_analysis r with Some t => t | None => [] end.

(** The deduplication keys recorded by a monitor. *)
Definition file_keys (m : ProcessMonitor) : list string :=
  map fa_path (file_accesses m).
Definition network_keys (m : ProcessMonitor) : list string :=
  map nc_remote (network_connections m).
Definition registry_keys (m : ProcessMonitor) : list string :=
  map ra_dll (registry_activities m).

(** No two records of a class share their key. *)
Definition deduplicated (m : ProcessMonitor) : Prop :=
  NoDup (file_keys m) /\ NoDup (network_keys m) /\ NoDup (registry_keys m).

(** The records of [m'] are those of [m], in place, followed by new ones. *)
Definition grows_from (m m' : ProcessMonitor) : Prop :=
  (exists fx, file_accesses m' = (file_accesses m ++ fx)%list)
  /\ (exists nx, network_connections m' = (network_connections m ++ nx)%list)
  /\ (exists gx, registry_activities m' = (registry_activities m ++ gx)%list).

(** A step of the monitor that keeps the lists free of
    duplicates and only appends to them. *)
Definition step_ok (m m' : ProcessMonitor) : Prop :=
  (deduplicated m -> deduplicated m') /\ grows_from m m'.

(** A method of the sandbox that leaves an attribute as it found it. *)
Definition keeps {X A} (f : Sandbox -> X) (m : M sandbox_state A) : Prop :=
  forall s, f (fst (snd (m s))) = f (fst s).

(** All passes of a session, whatever the loop does with each. *)
Definition session (w : World) (passes : list Observation) : ProcessMonitor :=
  _monitor_process w passes (new_monitor w).

(* ================================================================== *)
(** * Sample hosts and scans *)
(* ================================================================== *)

(** A sandbox as [Sandbox.__init__] leaves it, around a given provider. *)
Definition fresh_sandbox (w : World) (method level : string)
           (env : IsolationProvider) : sandbox_state :=
  ({| security_level := level;
      isolation_method := method;
      sandbox_id := uuid4 w;
      sandbox_dir := join w (SANDBOX_DIR w) (uuid4 w);
      threat_detector :=
        {| signatures := builtin_signatures;
           td_security_level := level;
           td_isolation_method := method;
           td_isolation_env := env;
           detection_sensitivity := 0.5 |};
      process_monitor := new_monitor w;
      isolation_env := env;
      dir_exists := true |}, []).

(** A host without a container engine, with a process-isolation utility
    that starts the file as process 4242.  On disk: an executable shell
    script.  The polling thread makes two passes, each seeing the same open
    file and the same established connection. *)
Definition tool_world : World :=
  linux_world
    [("/tmp/tool.sh", executable_file "echo hello")]
    (Ok false) (Ok true)
    (Ok (PProc 4242, [("exit_code", PInt 0)]))
    [ seen ["/etc/passwd"] [established "10.0.0.5" 4444];
      seen ["/etc/passwd"] [established "10.0.0.5" 4444] ].

(** The same host, with a process handler that raises. *)
Definition broken_world : World :=
  linux_world
    [("/tmp/tool.sh", executable_file "echo hello")]
    (Ok false) (Ok true)
    (Raise (OtherError "execute_isolated failed"))
    [].

(** A host on which both probes answer no. *)
Definition bare_world : World :=
  linux_world
    [("/tmp/tool.sh", executable_file "echo hello")]
    (Ok false) (Ok false)
    (Ok (PProc 4242, []))
    [].

(** A host with a container engine. *)
Definition docker_world : World :=
  linux_world [] (Ok true) (Ok true) (Ok (PProc 4242, [])) [].

(** A host holding [sample.exe], whose bytes mention two keywords, and
    [clean.exe], whose bytes mention one. *)
Definition exe_world : World :=
  linux_world
    [("sample.exe", plain_file "cmd.exe /c CreateProcess");
     ("clean.exe", plain_file "call CreateProcess now")]
    (Ok false) (Ok true) (Ok (PProc 4242, [])) [].

(** A signature whose severity string is not one of the five names. *)
Definition odd_signature : ThreatSignature :=
  {| sig_id := "SIG-900"; sig_name := "Temp file";
     sig_description := "Touches the temporary directory";
     sig_indicators := ["/tmp/"];
     sig_severity := from_string "informational";
     sig_category := "File Access";
     sig_platforms := ["all"] |}.

(** An activity report with one file record under [/tmp/]. *)
Definition tmp_report : monitor_results :=
  Some {| md_threat_score := 0;
          file_operations :=
            [{| fa_timestamp := "2025-01-01T00:00:00";
                fa_path := "/tmp/scratch.txt" |}];
          network_activity := [];
          registry_operations := [] |}.

(** No keyword of the table other than [kw] occurs in [bytes]. *)
Definition only_keyword (kw bytes : string) : bool :=
  forallb (fun k => (fst k =? kw)%string || negb (contains (fst k) bytes))
          keywords.

(* ================================================================== *)
(** * Further code: configuration defaults *)
(* ================================================================== *)

(** config/settings.py, [save_default_config]: the [resource_limits]
    mapping of the configuration written when none exists. *)
Definition default_resource_limits : list (string * cfgval) :=
  [ ("cpu_percent", CScalar (PInt 50));
    ("memory_mb", CScalar (PInt 1024));
    ("disk_mb", CScalar (PInt 1024)) ].

(** A world that differs from another in its configuration file only. *)
Definition with_resource_limits (w : World)
           (limits : result (list (string * cfgval))) : World :=
  {| platform := platform w;
     basename := basename w; splitext := splitext w; join := join w;
     fs := fs w;
     workspace_writable := workspace_writable w;
     log_dir_writable := log_dir_writable w;
     rmtree_result := rmtree_result w;
     SANDBOX_DIR := SANDBOX_DIR w; LOG_DIR := LOG_DIR w;
     hexdigest := hexdigest w; re_search := re_search w;
     uuid4 := uuid4 w; datetime_now := datetime_now w; elapsed := elapsed w;
     resource_limits := limits;
     check_container_support := check_container_support w;
     check_isolation_support := check_isolation_support w;
     create_container := create_container w;
     execute_in_container := execute_in_container w;
     remove_container := remove_container w;
     execute_isolated := execute_isolated w;
     terminate_process := terminate_process w;
     psutil_is_running := psutil_is_running w;
     polling_passes := polling_passes w;
     process_wait := process_wait w;
     process_terminate := process_terminate w |}.

(** A world that differs from another in what [shutil.rmtree] does. *)
Definition with_rmtree_result (w : World) (outcome : result unit) : World :=
  {| platform := platform w;
     basename := basename w; splitext := splitext w; join := join w;
     fs := fs w;
     workspace_writable := workspace_writable w;
     log_dir_writable := log_dir_writable w;
     rmtree_result := outcome;
     SANDBOX_DIR := SANDBOX_DIR w; LOG_DIR := LOG_DIR w;
     hexdigest := hexdigest w; re_search := re_search w;
     uuid4 := uuid4 w; datetime_now := datetime_now w; elapsed := elapsed w;
     resource_limits := resource_limits w;
     check_container_support := check_container_support w;
     check_isolation_support := check_isolation_support w;
     create_container := create_container w;
     execute_in_container := execute_in_container w;
     remove_container := remove_container w;
     execute_isolated := execute_isolated w;
     terminate_process := terminate_process w;
     psutil_is_running := psutil_is_running w;
     polling_passes := polling_passes w;
     process_wait := process_wait w;
     process_terminate := process_terminate w |}.

(** A host on which the workspace cannot be removed. *)
Definition sticky_world : World :=
  with_rmtree_result docker_world (Raise (PermissionError "sandbox")).

(** A host with a container engine, an executable script on disk and the
    default configuration file. *)
Definition default_config_world : World :=
  with_resource_limits
    (linux_world [("/tmp/tool.sh", executable_file "echo hello")]
       (Ok true) (Ok true) (Ok (PProc 4242, [])) [])
    (Ok default_resource_limits).

(** A host whose process handler reports that the program ended with
    exit code 3. *)
Definition exit_world : World :=
  linux_world
    [("/tmp/tool.sh", executable_file "echo hello")]
    (Ok false) (Ok true)
    (Ok (PProc 4242, [("exit_code", PInt 3)]))
    [].

(* ================================================================== *)
(** * Further vocabulary *)
(* ================================================================== *)

(** The sandbox after the escalation step of [execute_file]. *)
Definition escalate (sb : Sandbox) (static_threat_score : Q) : Sandbox :=
  if negb (Qle_bool static_threat_score 0.2)
  then {| security_level := "high";
          isolation_method := isolation_method sb;
          sandbox_id := sandbox_id sb;
          sandbox_dir := sandbox_dir sb;
          threat_detector := threat_detector sb;
          process_monitor := process_monitor sb;
          isolation_env := isolation_env sb;
          dir_exists := dir_exists sb |}
  else sb.

(** The report [execute_file] assembles from the execution result, the
    monitor results and the sandbox as the execution step left it. *)
Definition report_of (w : World) (file_path : string)
           (er : execution_result) (mr : monitor_results) (sb : Sandbox)
  : report :=
  let analysis_result := analyze w file_path in
  let file_name :=
    match ar_filename analysis_result with
    | Some n => n | None => basename w file_path
    end in
  let dynamic_analysis :=
    analyze_report w (signatures (threat_detector sb)) mr in
  {| r_sandbox_id := sandbox_id sb;
     r_filename := file_name;
     r_file := file_name;
     r_file_hash := ar_file_hash analysis_result;
     r_execution_time := elapsed w;
     r_status := er_status er;
     r_exit_code := er_exit_code er;
     r_threat_level :=
       combined_score (ar_threat_level analysis_result)
                      (threat_score dynamic_analysis);
     r_monitoring_results := mr;
     r_threats :=
       (static_threats_of analysis_result ++ threats dynamic_analysis)%list;
     r_timestamp := datetime_now w (clock_reads (process_monitor sb));
     r_file_operations := get_file_operations mr;
     r_network_activity := get_network_activity mr;
     r_registry_operations := get_registry_operations mr |}.

(** The calls a trace makes on the isolation back ends to set up or run. *)
Definition isolation_calls (t : trace) : list event :=
  filter is_setup_or_execute t.

(** Calls that remove the workspace or release the provider's handle. *)
Definition is_cleanup_call (e : event) : bool :=
  match e with
  | Rmtree _ | RemoveContainer _ | TerminateProcess _ => true
  | _ => false
  end.

Definition cleanup_calls (t : trace) : list event := filter is_cleanup_call t.

(** A method of the sandbox that adds no call of some kind to the trace:
    [view] keeps the calls of that kind. *)
Definition keeps_trace {X A} (view : trace -> X) (m : M sandbox_state A)
  : Prop :=
  forall s, view (snd (snd (m s))) = view (snd s).

(** The handle a provider holds: [container_id] or [process]. *)
Definition provider_handle (p : IsolationProvider) : pyval :=
  match p with
  | ContainerIsolation _ id => id
  | ProcessIsolation _ process => process
  end.

(** The attributes of a sandbox that only [cleanup] may change. *)
Definition frame (sb : Sandbox)
  : string * string * string * bool * ThreatDetector :=
  (isolation_method sb, sandbox_id sb, sandbox_dir sb, dir_exists sb,
   threat_detector sb).

(** How many patterns of a list occur in a string. *)
Definition matches (patterns : list string) (s : string) : Z :=
  Z.of_nat (List.length (filter (fun p => contains p s) patterns)).

Definition Zsum (l : list Z) : Z := fold_right Z.add 0%Z l.

(** The points the records of a monitor account for: 10 per sensitive
    pattern in a recorded path, 20 per suspicious pattern in a recorded
    endpoint, 5 per registry record. *)
Definition accounted (m : ProcessMonitor) : Z :=
  (10 * Zsum (map (fun f => matches suspicious_files (fa_path f))
                  (file_accesses m))
   + 20 * Zsum (map (fun n => matches suspicious_network (nc_remote n))
                    (network_connections m))
   + 5 * Z.of_nat (List.length (registry_activities m)))%Z.

(** No pass of a list observes a connection. *)
Definition no_connections (passes : list Observation) : Prop :=
  Forall (fun obs => match obs_connections obs with
                     | Ok [] | Raise _ => True
                     | Ok (_ :: _) => False
                     end) passes.

(** What a step does to the platform, the score and the accounted points. *)
Definition score_step (strict : bool) (m m' : ProcessMonitor) : Prop :=
  pm_platform m' = pm_platform m
  /\ (pm_threat_score m <= pm_threat_score m')%Z
  /\ (pm_threat_score m' - accounted m' >= pm_threat_score m - accounted m)%Z
  /\ (strict = true ->
      (pm_threat_score m' - accounted m' = pm_threat_score m - accounted m)%Z).

(** A pass that observes no connection. *)
Definition quiet_pass (obs : Observation) : Prop :=
  match obs_connections obs with
  | Ok [] | Raise _ => True
  | Ok (_ :: _) => False
  end.

(** The ["threat_level"] a finding of [FileAnalyzer.analyze] carries. *)
Definition finding_level (f : finding) : Q :=
  match f with
  | FileFinding _ level _ => level
  | _ => 0
  end.

(** The ["signature_id"] of a finding of [analyze_report]. *)
Definition finding_signature (f : finding) : option string :=
  match f with
  | SignatureFinding id _ _ _ _ => Some id
  | _ => None
  end.

(** The ["details"] of a finding. *)
Definition finding_details (f : finding) : string :=
  match f with
  | FileFinding _ _ d | Heuristic _ d _ | Keyword d _
  | SignatureFinding _ _ _ _ d => d
  end.

(** The characters that follow a backslash in the output of
    [json.dumps]. *)
Definition escape_letter (c : ascii) : bool :=
  existsb (Ascii.eqb c)
    ["034"%char; "\"%char; "n"%char; "r"%char; "t"%char; "b"%char;
     "f"%char; "u"%char].

(** Reading a string as JSON text: [pending] holds when the character
    before was a backslash that opens an escape.  [None] when a backslash
    is followed by something that is no escape letter. *)
Fixpoint read_escapes (pending : bool) (s : string) : option bool :=
  match s with
  | EmptyString => Some pending
  | String c s' =>
      if pending
      then if escape_letter c then read_escapes false s' else None
      else read_escapes (Ascii.eqb c "\"%char) s'
  end.

(** A backslash that follows a character other than a backslash and is
    followed by a character that is no escape letter. *)
Fixpoint lone_backslash (s : string) : bool :=
  match s with
  | String x (String b (String y _) as s') =>
      (negb (Ascii.eqb x "\"%char) && Ascii.eqb b "\"%char
       && negb (escape_letter y))
      || lone_backslash s'
  | _ => false
  end.

(** The dictionary [analyze_report] appends for a signature and the
    indicator that matched. *)
Definition signature_finding (sig : ThreatSignature) (indicator : string)
  : finding :=
  SignatureFinding (sig_id sig) (sig_name sig)
    (ThreatLevel_name (sig_severity sig)) (sig_category sig) indicator.

(** What one signature adds to the findings for one record. *)
Definition signature_hits (w : World) (data_str : string)
           (sig : ThreatSignature) : list finding :=
  if sig_applies w sig then
    match first_indicator (sig_indicators sig) data_str with
    | Some indicator => [signature_finding sig indicator]
    | None => []
    end
  else [].

(** The dictionary [analyze_file] appends for a keyword of its table. *)
Definition keyword_finding (k : string * ThreatLevel) : finding :=
  Keyword (fst k) (ThreatLevel_name (snd k)).

(** A score that is a whole number of tenths. *)
Definition tenths (q : Q) : Prop := exists z : Z, q == inject_Z z / 10.

(** A report of a process that opened the password file and the Windows
    registry hive, talked to port 4444 and loaded the registry library. *)
Definition busy_report : monitor_results :=
  Some {| md_threat_score := 55;
          file_operations :=
            [{| fa_timestamp := "2025-01-01T00:00:00";
                fa_path := "/etc/passwd" |};
             {| fa_timestamp := "2025-01-01T00:00:01";
                fa_path := "C:\Windows\System32\config\SAM" |}];
          network_activity :=
            [{| nc_timestamp := "2025-01-01T00:00:02";
                nc_remote := "10.0.0.5:4444" |}];
          registry_operations :=
            [{| ra_timestamp := "2025-01-01T00:00:03";
                ra_dll := "c:\windows\system32\advapi32.dll";
                ra_key :=
                  "HKEY_LOCAL_MACHINE\SOFTWARE\Microsoft\Windows\CurrentVersion\Run" |}] |}.

(** A call of [Popen.terminate] other than one on a process for which,
    in a monitored scan that is not a container scan, waiting [timeout]
    seconds times out. *)
Definition untimely_terminate (w : World) (timeout : Z) (monitor : bool)
           (method : string) (e : event) : bool :=
  match e with
  | PopenTerminate process =>
      negb (monitor && negb (method =? "container")%string
            && match process_wait w process timeout with
               | Raise TimeoutExpired => true
               | _ => false
               end)
  | _ => false
  end.

(** A world that differs from another in what [Popen.wait] does. *)
Definition with_process_wait (w : World)
           (wait : pyval -> Z -> result unit) : World :=
  {| platform := platform w;
     basename := basename w; splitext := splitext w; join := join w;
     fs := fs w;
     workspace_writable := workspace_writable w;
     log_dir_writable := log_dir_writable w;
     rmtree_result := rmtree_result w;
     SANDBOX_DIR := SANDBOX_DIR w; LOG_DIR := LOG_DIR w;
     hexdigest := hexdigest w; re_search := re_search w;
     uuid4 := uuid4 w; datetime_now := datetime_now w; elapsed := elapsed w;
     resource_limits := resource_limits w;
     check_container_support := check_container_support w;
     check_isolation_support := check_isolation_support w;
     create_container := create_container w;
     execute_in_container := execute_in_container w;
     remove_container := remove_container w;
     execute_isolated := execute_isolated w;
     terminate_process := terminate_process w;
     psutil_is_running := psutil_is_running w;
     polling_passes := polling_passes w;
     process_wait := wait;
     process_terminate := process_terminate w |}.

(** The host of [tool_world] with a program that does not end in time. *)
Definition slow_world : World :=
  with_process_wait tool_world (fun _ _ => Raise TimeoutExpired).

(** platforms/linux.py: [LinuxContainerHandler] defines neither
    [execute_in_container] nor [remove_container], and
    [LinuxProcessHandler] defines no [execute_isolated]; a call of one of
    them raises [AttributeError]. *)
Definition linux_handlers (w : World) : Prop :=
  platform w = Linux
  /\ (forall id p,
        exists msg, execute_in_container w id p = Raise (AttributeError msg))
  /\ (forall id, exists msg, remove_container w id = Raise (AttributeError msg))
  /\ (forall p level,
        exists msg, execute_isolated w p level = Raise (AttributeError msg)).

(** A Linux host with a container engine and with the handlers of
    platforms/linux.py. *)
Definition linux_py_world : World :=
  {| platform := Linux;
     basename := Posix.basename;
     splitext := Posix.splitext;
     join := Posix.join;
     fs := lookup_file [("/tmp/tool.sh", executable_file "echo hello")];
     workspace_writable := true;
     log_dir_writable := true;
     rmtree_result := Ok tt;
     SANDBOX_DIR := "/home/user/.saferun/sandbox";
     LOG_DIR := "/home/user/.saferun/logs";
     hexdigest := fun algorithm bytes => algorithm ++ ":" ++ bytes;
     re_search := fun _ _ => false;
     uuid4 := "0b0c7f3e-sandbox";
     datetime_now := fun n => "2025-01-01T00:00:0" ++ str_of_nat (n mod 10);
     elapsed := 1.5;
     resource_limits := Ok [];
     check_container_support := Ok true;
     check_isolation_support := Ok true;
     create_container := fun _ _ _ _ => Ok (PStr "c0ffee");
     execute_in_container := fun _ _ =>
       Raise (AttributeError
                "'LinuxContainerHandler' object has no attribute 'execute_in_container'");
     remove_container := fun _ =>
       Raise (AttributeError
                "'LinuxContainerHandler' object has no attribute 'remove_container'");
     execute_isolated := fun _ _ =>
       Raise (AttributeError
                "'LinuxProcessHandler' object has no attribute 'execute_isolated'");
     terminate_process := fun _ => Ok tt;
     psutil_is_running := fun _ => Ok true;
     polling_passes := fun _ => [];
     process_wait := fun _ _ => Ok tt;
     process_terminate := fun _ => Ok tt |}.

(** A host whose process handler answers as [execute_isolated] of
    platforms/windows.py does when the launch fails: no process, and an
    output dictionary with exit code -1. *)
Definition failed_launch_world : World :=
  linux_world
    [("/tmp/tool.sh", executable_file "echo hello")]
    (Ok false) (Ok true)
    (Ok (PNone, [("stdout", PStr EmptyString);
                 ("stderr", PStr "launch failed");
                 ("exit_code", PInt (-1))]))
    [].

(** A host holding a script that exists and cannot be read. *)
Definition locked_world : World :=
  linux_world
    [("/tmp/locked.sh",
      {| content := "echo hello"; readable := false; x_ok := true |})]
    (Ok false) (Ok true)
    (Ok (PProc 4242, [("exit_code", PInt 0)]))
    [].

(** The call [cleanup] of a provider makes on its handler, the event that
    stands for it, and the provider once the handle is dropped.  What the
    handler's method returns is not looked at by [cleanup]: only whether
    the call returns or raises matters. *)
Definition release (w : World) (p : IsolationProvider) : result unit :=
  match p with
  | ContainerIsolation _ container_id => remove_container w container_id
  | ProcessIsolation _ process => terminate_process w process
  end.

Definition release_event (p : IsolationProvider) : event :=
  match p with
  | ContainerIsolation _ container_id => RemoveContainer container_id
  | ProcessIsolation _ process => TerminateProcess process
  end.

Definition released (p : IsolationProvider) : IsolationProvider :=
  match p with
  | ContainerIsolation level _ => ContainerIsolation level PNone
  | ProcessIsolation level _ => ProcessIsolation level PNone
  end.

(* ================================================================== *)
(** * Rounding and the combined score *)
(* ================================================================== *)

Unset Implicit Arguments.

Ltac qcmp H :=
  match type of H with
  | Qcompare _ _ = Eq => apply (proj2 (Qeq_alt _ _)) in H
  | Qcompare _ _ = Lt => apply (proj2 (Qlt_alt _ _)) in H
  | Qcompare _ _ = Gt => apply (proj2 (Qgt_alt _ _)) in H
  end.

Lemma round_half_even_bounds q :
  (Qfloor q <= round_half_even q <= Qfloor q + 1)%Z.
Proof.
  unfold round_half_even.
  destruct (Qcompare (q - inject_Z (Qfloor q)) (1 # 2)); try lia.
  destruct (Z.even (Qfloor q)); lia.
Qed.

#[local] Instance round_half_even_proper : Proper (Qeq ==> eq) round_half_even.
Proof.
  intros a b Hab. unfold round_half_even.
  rewrite (Qfloor_comp a b Hab).
  assert (H : Qcompare (a - inject_Z (Qfloor b)) (1 # 2)
              = Qcompare (b - inject_Z (Qfloor b)) (1 # 2)).
  { apply Qcompare_comp; [rewrite Hab|]; reflexivity. }
  rewrite H. reflexivity.
Qed.

Lemma round_half_even_mono a b :
  a <= b -> (round_half_even a <= round_half_even b)%Z.
Proof.
  intros Hab.
  pose proof (Qfloor_resp_le a b Hab) as Hf.
  destruct (Z.eq_dec (Qfloor a) (Qfloor b)) as [E | NE].
  - unfold round_half_even. rewrite E.
    destruct (Qcompare (a - inject_Z (Qfloor b)) (1 # 2)) eqn:Ca;
    destruct (Qcompare (b - inject_Z (Qfloor b)) (1 # 2)) eqn:Cb;
      qcmp Ca; qcmp Cb;
      try (destruct (Z.even (Qfloor b))); try lia; exfalso; lra.
  - pose proof (round_half_even_bounds a).
    pose proof (round_half_even_bounds b). lia.
Qed.

Lemma round_half_even_Z n : round_half_even (inject_Z n) = n.
Proof.
  unfold round_half_even. rewrite Qfloor_Z.
  assert (H : Qcompare (inject_Z n - inject_Z n) (1 # 2) = Lt).
  { apply (proj1 (Qlt_alt _ _)). generalize (inject_Z n). intro q. lra. }
  rewrite H. reflexivity.
Qed.

#[local] Instance round2_proper : Proper (Qeq ==> Qeq) round2.
Proof. intros a b Hab. unfold round2. rewrite Hab. reflexivity. Qed.

Lemma round2_mono a b : a <= b -> round2 a <= round2 b.
Proof.
  intros Hab. unfold round2.
  assert (H : (round_half_even (a * 100) <= round_half_even (b * 100))%Z).
  { apply round_half_even_mono. lra. }
  apply Qmult_le_compat_r; [| discriminate ].
  rewrite <- Zle_Qle. exact H.
Qed.

Lemma round2_0 : round2 0 == 0.
Proof. reflexivity. Qed.

Lemma round2_1 : round2 1 == 1.
Proof. reflexivity. Qed.

Lemma py_min_le_l a b : py_min a b <= a.
Proof. apply Q.le_min_l. Qed.

Lemma py_min_le_r a b : py_min a b <= b.
Proof. apply Q.le_min_r. Qed.

Lemma py_min_glb a b c : c <= a -> c <= b -> c <= py_min a b.
Proof. intros. apply Q.min_glb; assumption. Qed.

Lemma py_min_mono a a' b : a <= a' -> py_min a b <= py_min a' b.
Proof. intros. apply Q.min_le_compat_r. assumption. Qed.

#[local] Instance py_min_proper : Proper (Qeq ==> Qeq ==> Qeq) py_min.
Proof. intros a a' Ha b b' Hb. unfold py_min. rewrite Ha, Hb. reflexivity. Qed.

#[local] Instance combined_score_proper :
  Proper (Qeq ==> Qeq ==> Qeq) combined_score.
Proof.
  intros a a' Ha b b' Hb. unfold combined_score. rewrite Ha, Hb. reflexivity.
Qed.

Lemma combined_score_range s d :
  0 <= s -> 0 <= d -> 0 <= combined_score s d <= 1.
Proof.
  intros Hs Hd. unfold combined_score. split.
  - apply Qle_trans with (round2 0); [rewrite round2_0; apply Qle_refl |].
    apply round2_mono, py_min_glb; lra.
  - apply Qle_trans with (round2 1); [| rewrite round2_1; apply Qle_refl].
    apply round2_mono.
    pose proof (py_min_le_r (s + d) 1.0). lra.
Qed.

Lemma combined_score_comm s d : combined_score s d == combined_score d s.
Proof. unfold combined_score. rewrite (Qplus_comm s d). reflexivity. Qed.

Lemma combined_score_mono s s' d d' :
  s <= s' -> d <= d' -> combined_score s d <= combined_score s' d'.
Proof.
  intros Hs Hd. unfold combined_score.
  apply round2_mono, py_min_mono. lra.
Qed.

Lemma combined_score_saturates s d : 1 <= s + d -> combined_score s d == 1.
Proof.
  intros H. unfold combined_score.
  assert (E : py_min (s + d) 1.0 == 1.0) by (apply Q.min_r; lra).
  rewrite E. reflexivity.
Qed.

(* ================================================================== *)
(** * Scores only grow while findings are collected *)
(* ================================================================== *)

Section Accumulate.
Context {X : Type} (step : Q * list finding -> X -> Q * list finding).
Hypothesis step_grows : forall acc x, fst acc <= fst (step acc x).

Lemma fold_grows (l : list X) (acc : Q * list finding) :
  fst acc <= fst (fold_left step l acc).
Proof.
  revert acc. induction l as [| x l IH]; intro acc; simpl.
  - apply Qle_refl.
  - apply Qle_trans with (fst (step acc x)); [apply step_grows | apply IH].
Qed.

End Accumulate.

Lemma severity_table_pos level : 0 < severity_table level.
Proof. destruct level; reflexivity. Qed.

Lemma keyword_weight_table level : keyword_weight level = severity_table level.
Proof. destruct level; reflexivity. Qed.

Lemma signature_weight_table level : signature_weight level = severity_table level.
Proof. destruct level; reflexivity. Qed.

Lemma keyword_step_grows bytes acc k : fst acc <= fst (keyword_step bytes acc k).
Proof.
  unfold keyword_step. destruct k as [kw level].
  destruct (contains kw bytes); simpl; [| apply Qle_refl].
  rewrite keyword_weight_table. pose proof (severity_table_pos level). lra.
Qed.

Lemma signature_step_grows w data acc sig :
  fst acc <= fst (signature_step w data acc sig).
Proof.
  unfold signature_step.
  destruct (sig_applies w sig); [| apply Qle_refl].
  destruct (first_indicator (sig_indicators sig) data); simpl; [| apply Qle_refl].
  rewrite signature_weight_table.
  pose proof (severity_table_pos (sig_severity sig)). lra.
Qed.

Lemma entry_step_grows w sigs acc e : fst acc <= fst (entry_step w sigs acc e).
Proof. unfold entry_step. apply fold_grows. apply signature_step_grows. Qed.

Lemma pattern_step_grows acc p : fst acc <= fst (pattern_step acc p).
Proof. unfold pattern_step. simpl. lra. Qed.

Lemma scan_entries_nonneg w sigs entries : 0 <= fst (scan_entries w sigs entries).
Proof.
  unfold scan_entries.
  apply Qle_trans with (fst ((0.0, []) : Q * list finding));
    [simpl; lra | apply fold_grows, entry_step_grows].
Qed.

Lemma scan_entries_app w sigs entries more :
  fst (scan_entries w sigs entries)
  <= fst (scan_entries w sigs (entries ++ more)).
Proof.
  unfold scan_entries. rewrite fold_left_app.
  apply fold_grows, entry_step_grows.
Qed.

Lemma analyze_report_range w sigs report :
  0 <= threat_score (analyze_report w sigs report) <= 1.
Proof.
  unfold analyze_report. simpl.
  pose proof (scan_entries_nonneg w sigs (all_entries report)).
  split.
  - apply py_min_glb; [assumption | lra].
  - pose proof (py_min_le_r (fst (scan_entries w sigs (all_entries report))) 1.0).
    lra.
Qed.

Lemma analyze_file_range w path : 0 <= threat_score (analyze_file w path) <= 1.
Proof.
  assert (Hstart : forall ext, 0 <= fst (extension_step ext)).
  { intro ext. unfold extension_step.
    destruct (str_in ext _); [simpl; lra |].
    destruct (str_in ext _); simpl; lra. }
  assert (Hcap : forall q, 0 <= q -> 0 <= py_min q 1.0 <= 1).
  { intros q Hq. split; [apply py_min_glb; lra |].
    pose proof (py_min_le_r q 1.0). lra. }
  unfold analyze_file.
  destruct (read_bytes w path); simpl; apply Hcap.
  - unfold scan_keywords.
    eapply Qle_trans; [apply Hstart | apply fold_grows, keyword_step_grows].
  - apply Hstart.
Qed.

Lemma round2_unit_range q : 0 <= q <= 1 -> 0 <= round2 q <= 1.
Proof.
  intros [H0 H1]. split.
  - apply Qle_trans with (round2 0); [rewrite round2_0; apply Qle_refl |].
    apply round2_mono; assumption.
  - apply Qle_trans with (round2 1); [| rewrite round2_1; apply Qle_refl].
    apply round2_mono; assumption.
Qed.

Lemma analyze_range w path : 0 <= ar_threat_level (analyze w path) <= 1.
Proof.
  unfold analyze.
  destruct (negb (exists_ w path)); [simpl; lra |].
  destruct (analyze_body w path) as [r | e] eqn:Hbody; [| simpl; lra].
  unfold analyze_body in Hbody.
  destruct (getsize w path); [| discriminate].
  destruct (_calculate_hash w path "md5"); [| discriminate].
  destruct (_calculate_hash w path "sha256"); [| discriminate].
  injection Hbody as <-. simpl.
  apply round2_unit_range.
  match goal with |- 0 <= py_min ?q _ <= 1 => assert (Hq : 0 <= q) end.
  { set (s1 := if _is_executable w path _ then _ else _).
    assert (Hs1 : 0 <= fst s1).
    { subst s1. destruct (_is_executable w path _); simpl; lra. }
    match goal with
    | |- context [if ?c then _ else s1] => destruct c
    end; [| exact Hs1].
    eapply Qle_trans; [| apply fold_grows, pattern_step_grows].
    simpl. lra. }
  split; [apply py_min_glb; lra |].
  match goal with |- py_min ?q _ <= 1 => pose proof (py_min_le_r q 1.0) end.
  lra.
Qed.

(* ================================================================== *)
(** * Reasoning about computations *)
(* ================================================================== *)

Section MonadFacts.
Context {S : Type}.

Lemma bind_ok_inv {A B} (m : M S A) (k : A -> M S B) s b s' :
  bind m k s = (Ok b, s') ->
  exists a s1, m s = (Ok a, s1) /\ k a s1 = (Ok b, s').
Proof.
  unfold bind. destruct (m s) as [[a | e] s1]; intro H.
  - exists a, s1. split; [reflexivity | exact H].
  - discriminate.
Qed.

Lemma bind_ok {A B} (m : M S A) (k : A -> M S B) s a s1 :
  m s = (Ok a, s1) -> bind m k s = k a s1.
Proof. unfold bind. intros ->. reflexivity. Qed.

Lemma bind_raise {A B} (m : M S A) (k : A -> M S B) s e s1 :
  m s = (Raise e, s1) -> bind m k s = (Raise e, s1).
Proof. unfold bind. intros ->. reflexivity. Qed.

(** A handler that returns makes the whole [try] return. *)
Lemma try_except_total {A} (m : M S A) (h : exn -> M S A) :
  (forall e s, exists a s', h e s = (Ok a, s')) ->
  forall s, exists a s', try_except m h s = (Ok a, s').
Proof.
  intros Hh s. unfold try_except.
  destruct (m s) as [[a | e] s1]; [exists a, s1; reflexivity | apply Hh].
Qed.

End MonadFacts.

Section Keeps.
Context {X : Type} (f : Sandbox -> X).

Lemma keeps_ret {A} (a : A) : keeps f (ret a).
Proof. intro s. reflexivity. Qed.

Lemma keeps_raise {A} e : keeps f (@raise _ A e).
Proof. intro s. reflexivity. Qed.

Lemma keeps_lift {A} (r : result A) : keeps f (lift r).
Proof. intro s. reflexivity. Qed.

Lemma keeps_get : keeps f get.
Proof. intro s. reflexivity. Qed.

Lemma keeps_emit e : keeps f (emit log_sandbox e).
Proof. intro s. reflexivity. Qed.

Lemma keeps_bind {A B} (m : M sandbox_state A) (k : A -> M sandbox_state B) :
  keeps f m -> (forall a, keeps f (k a)) -> keeps f (bind m k).
Proof.
  intros Hm Hk s. unfold bind. specialize (Hm s).
  destruct (m s) as [[a | e] s1]; simpl in *; [| exact Hm].
  rewrite <- Hm. apply Hk.
Qed.

Lemma keeps_try_except {A} (m : M sandbox_state A) h :
  keeps f m -> (forall e, keeps f (h e)) -> keeps f (try_except m h).
Proof.
  intros Hm Hh s. unfold try_except. specialize (Hm s).
  destruct (m s) as [[a | e] s1]; simpl in *; [exact Hm |].
  rewrite <- Hm. apply Hh.
Qed.

Lemma keeps_if {A} (b : bool) (m1 m2 : M sandbox_state A) :
  keeps f m1 -> keeps f m2 -> keeps f (if b then m1 else m2).
Proof. destruct b; auto. Qed.

Lemma keeps_makedirs writable dir : keeps f (makedirs log_sandbox writable dir).
Proof.
  unfold makedirs. apply keeps_bind; [apply keeps_emit | intros _].
  destruct writable; [apply keeps_ret | apply keeps_raise].
Qed.

End Keeps.

Create HintDb keeps.
#[export] Hint Resolve keeps_ret keeps_raise keeps_lift keeps_get keeps_emit
  keeps_makedirs : keeps.

Ltac keeps_step :=
  first
    [ solve [auto with keeps]
    | apply keeps_bind; [| intro]
    | apply keeps_try_except; [| intro]
    | apply keeps_if ].

(** Copying the file touches no attribute of the sandbox; the directory
    may have been created again. *)
Lemma _prepare_file_keeps {X} (f : Sandbox -> X) w file_path :
  (forall sb b, f (with_dir_exists sb b) = f sb) ->
  keeps f (_prepare_file w file_path).
Proof.
  intro Hf. unfold _prepare_file, shutil_copy.
  repeat first [ (intro s; apply Hf) | keeps_step ].
Qed.

(** The sandbox [_prepare_file] leaves, whether it returns or raises. *)
Lemma _prepare_file_sandbox w file_path sb t :
  fst (snd (_prepare_file w file_path (sb, t)))
  = if workspace_writable w then with_dir_exists sb true else sb.
Proof.
  unfold _prepare_file, shutil_copy, makedirs, bind, get, emit, lift, raise,
    ret, set_dir_exists, log_sandbox, log_trace.
  cbn [fst snd].
  destruct (workspace_writable w); cbn [fst snd]; [| reflexivity].
  destruct (read_bytes w file_path); reflexivity.
Qed.

Lemma _prepare_file_ok_writable w file_path st p st1 :
  _prepare_file w file_path st = (Ok p, st1) -> workspace_writable w = true.
Proof.
  destruct (workspace_writable w) eqn:Hw; [reflexivity |].
  unfold _prepare_file, makedirs, bind, get, emit, raise, log_sandbox,
    log_trace.
  cbn [fst snd]. rewrite Hw. discriminate.
Qed.

Lemma _prepare_file_ok w file_path sb t p st1 :
  _prepare_file w file_path (sb, t) = (Ok p, st1) ->
  st1 = (with_dir_exists sb true, snd st1).
Proof.
  intro H. pose proof (_prepare_file_sandbox w file_path sb t) as E.
  rewrite H, (_prepare_file_ok_writable _ _ _ _ _ H) in E.
  cbn [fst snd] in E. destruct st1 as [sb1 t1].
  cbn [fst snd] in *. subst sb1. reflexivity.
Qed.

Lemma on_env_keeps_detector {A} (m : M env_state A) :
  keeps threat_detector (on_env m).
Proof.
  intro s. unfold on_env. destruct (m _) as [r [env' t']]. reflexivity.
Qed.

Lemma on_monitor_keeps_detector {A} (m : M ProcessMonitor A) :
  keeps threat_detector (on_monitor m).
Proof.
  intro s. unfold on_monitor. destruct (m _) as [r mon']. reflexivity.
Qed.

Lemma on_monitor_keeps_env {A} (m : M ProcessMonitor A) :
  keeps isolation_env (on_monitor m).
Proof.
  intro s. unfold on_monitor. destruct (m _) as [r mon']. reflexivity.
Qed.

Lemma set_security_level_keeps_detector level :
  keeps threat_detector (set_security_level level).
Proof. intro s. reflexivity. Qed.

Lemma set_security_level_keeps_env level :
  keeps isolation_env (set_security_level level).
Proof. intro s. reflexivity. Qed.

Lemma set_dir_exists_keeps_detector b :
  keeps threat_detector (set_dir_exists b).
Proof. intro s. reflexivity. Qed.

#[export] Hint Resolve _prepare_file_keeps on_env_keeps_detector
  on_monitor_keeps_detector on_monitor_keeps_env
  set_security_level_keeps_detector set_security_level_keeps_env
  set_dir_exists_keeps_detector : keeps.

Lemma _terminate_execution_keeps_detector w er :
  keeps threat_detector (_terminate_execution w er).
Proof. unfold _terminate_execution. repeat keeps_step. Qed.

Lemma _execute_in_container_keeps_detector w p timeout :
  keeps threat_detector (_execute_in_container w p timeout).
Proof.
  unfold _execute_in_container. repeat keeps_step.
  destruct a; auto with keeps.
Qed.

Lemma _execute_in_process_keeps_detector w p timeout :
  keeps threat_detector (_execute_in_process w p timeout).
Proof. unfold _execute_in_process. repeat keeps_step. Qed.

Lemma monitored_run_keeps_detector w er timeout :
  keeps threat_detector (monitored_run w er timeout).
Proof.
  unfold monitored_run. repeat keeps_step.
  destruct e; auto with keeps. apply _terminate_execution_keeps_detector.
Qed.

#[export] Hint Resolve _terminate_execution_keeps_detector
  _execute_in_container_keeps_detector _execute_in_process_keeps_detector
  monitored_run_keeps_detector : keeps.

(* ================================================================== *)
(** * What a scan that returns has computed *)
(* ================================================================== *)

Lemma cleanup_returns w s : exists s', cleanup w s = (Ok tt, s').
Proof.
  unfold cleanup, try_except.
  match goal with |- context [match ?m s with _ => _ end] => destruct (m s) as [[[] | e] s1] end;
    eexists; reflexivity.
Qed.

Lemma cleanup_keeps_detector w : keeps threat_detector (cleanup w).
Proof.
  unfold cleanup. repeat keeps_step.
Qed.

Lemma run_step_keeps_detector w p timeout monitor method :
  keeps threat_detector (run_step w p timeout monitor method).
Proof. unfold run_step. repeat keeps_step. Qed.

Lemma execute_file_ok w file_path timeout monitor st rep st' :
  execute_file w file_path timeout monitor st = (Ok rep, st') ->
  r_threat_level rep =
    combined_score
      (ar_threat_level (analyze w file_path))
      (threat_score
         (analyze_report w (signatures (threat_detector (fst st)))
                         (r_monitoring_results rep)))
  /\ r_threats rep =
       (static_threats_of (analyze w file_path)
        ++ threats (analyze_report w (signatures (threat_detector (fst st)))
                                   (r_monitoring_results rep)))%list.
Proof.
  unfold execute_file. intro H.
  apply bind_ok_inv in H as (p & s1 & Hprep & H).
  apply bind_ok_inv in H as (u & s2 & Hlevel & H).
  apply bind_ok_inv in H as (s2' & s2'' & Hget & H).
  injection Hget as <- <-.
  apply bind_ok_inv in H as (run & s3 & Hrun & H).
  apply bind_ok_inv in H as (s3' & s3'' & Hget & H).
  injection Hget as <- <-.
  apply bind_ok_inv in H as (u' & s4 & Hclean & H).
  injection H as <- <-.
  assert (Hdet : threat_detector (fst s3) = threat_detector (fst st)).
  { pose proof (_prepare_file_keeps threat_detector w file_path
                  (fun _ _ => eq_refl) st) as K1.
    rewrite Hprep in K1. simpl in K1.
    assert (K2 : threat_detector (fst s2) = threat_detector (fst s1)).
    { destruct (negb (Qle_bool (ar_threat_level (analyze w file_path)) 0.2)).
      - pose proof (set_security_level_keeps_detector "high" s1) as K.
        rewrite Hlevel in K. exact K.
      - unfold ret in Hlevel. congruence. }
    pose proof (run_step_keeps_detector w p timeout monitor
                  (isolation_method (fst s2)) s2) as K3.
    rewrite Hrun in K3. simpl in K3.
    congruence. }
  simpl. rewrite Hdet. split; reflexivity.
Qed.

(* ================================================================== *)
(** * Scores are sums of weights *)
(* ================================================================== *)

Lemma Qsum_app l1 l2 : Qsum (l1 ++ l2) == Qsum l1 + Qsum l2.
Proof.
  induction l1 as [| x l1 IH]; simpl; [lra |]. rewrite IH. lra.
Qed.

Lemma from_string_name level : from_string (ThreatLevel_name level) = level.
Proof. destruct level; reflexivity. Qed.

Section Balanced.
Context {X : Type} (step : Q * list finding -> X -> Q * list finding).
Hypothesis step_balanced : forall acc x, balance (step acc x) == balance acc.

Lemma fold_balanced (l : list X) (acc : Q * list finding) :
  balance (fold_left step l acc) == balance acc.
Proof.
  revert acc. induction l as [| x l IH]; intro acc; simpl; [reflexivity |].
  rewrite IH. apply step_balanced.
Qed.

End Balanced.

Lemma balance_snoc acc q f :
  q == finding_weight f ->
  balance (fst acc + q, (snd acc ++ [f])%list) == balance acc.
Proof.
  intro Hq. unfold balance. simpl.
  rewrite map_app, Qsum_app. simpl. lra.
Qed.

Lemma keyword_step_balanced bytes acc k :
  balance (keyword_step bytes acc k) == balance acc.
Proof.
  unfold keyword_step. destruct k as [kw level].
  destruct (contains kw bytes); [| reflexivity].
  apply balance_snoc. simpl.
  rewrite from_string_name, keyword_weight_table. reflexivity.
Qed.

Lemma signature_step_balanced w data acc sig :
  balance (signature_step w data acc sig) == balance acc.
Proof.
  unfold signature_step.
  destruct (sig_applies w sig); [| reflexivity].
  destruct (first_indicator (sig_indicators sig) data); [| reflexivity].
  apply balance_snoc. simpl.
  rewrite from_string_name, signature_weight_table. reflexivity.
Qed.

Lemma entry_step_balanced w sigs acc e :
  balance (entry_step w sigs acc e) == balance acc.
Proof. unfold entry_step. apply fold_balanced, signature_step_balanced. Qed.

Lemma scan_keywords_sum bytes s0 :
  fst (scan_keywords bytes (s0, []))
  == s0 + Qsum (map finding_weight (snd (scan_keywords bytes (s0, [])))).
Proof.
  pose proof (fold_balanced (keyword_step bytes) (keyword_step_balanced bytes)
                keywords (s0, [])) as H.
  unfold balance in H. cbn [fst snd map Qsum fold_right] in H.
  unfold scan_keywords. lra.
Qed.

Lemma scan_entries_sum w sigs entries :
  fst (scan_entries w sigs entries)
  == Qsum (map finding_weight (snd (scan_entries w sigs entries))).
Proof.
  pose proof (fold_balanced (entry_step w sigs) (entry_step_balanced w sigs)
                entries (0.0, [])) as H.
  unfold balance in H. cbn [fst snd map Qsum fold_right] in H.
  unfold scan_entries. lra.
Qed.

(* ================================================================== *)
(** * The dynamic score of a longer activity report *)
(* ================================================================== *)

Lemma signature_fold_shift w data sigs acc :
  fst (fold_left (signature_step w data) sigs acc)
  == fst acc + fst (fold_left (signature_step w data) sigs (0, [])).
Proof.
  assert (G : forall sigs a b,
             fst (fold_left (signature_step w data) sigs a) - fst a
             == fst (fold_left (signature_step w data) sigs b) - fst b).
  { clear. induction sigs as [| sig sigs IH]; intros a b; simpl; [lra |].
    pose proof (IH (signature_step w data a sig) (signature_step w data b sig))
      as E.
    assert (D : fst (signature_step w data a sig) - fst a
                == fst (signature_step w data b sig) - fst b).
    { unfold signature_step.
      destruct (sig_applies w sig); [| lra].
      destruct (first_indicator (sig_indicators sig) data); simpl; lra. }
    lra. }
  specialize (G sigs acc (0, [])). simpl in G. lra.
Qed.

Lemma entries_fold_sum w sigs entries acc :
  fst (fold_left (entry_step w sigs) entries acc)
  == fst acc + Qsum (map (entry_gain w sigs) entries).
Proof.
  revert acc. induction entries as [| e entries IH]; intro acc; simpl; [lra |].
  pose proof (IH (entry_step w sigs acc e)) as E.
  pose proof (signature_fold_shift w (lower (json_dumps e)) sigs acc) as D.
  fold (entry_step w sigs acc e) in D.
  fold (entry_step w sigs (0, []) e) in D.
  fold (entry_gain w sigs e) in D. lra.
Qed.

Lemma entry_gain_nonneg w sigs e : 0 <= entry_gain w sigs e.
Proof.
  unfold entry_gain.
  apply Qle_trans with (fst ((0, []) : Q * list finding));
    [simpl; lra | apply entry_step_grows].
Qed.

Lemma Qsum_gain_nonneg w sigs l : 0 <= Qsum (map (entry_gain w sigs) l).
Proof.
  induction l as [| e l IH]; simpl; [lra |].
  pose proof (entry_gain_nonneg w sigs e). lra.
Qed.

Lemma analyze_report_extends w sigs r r' :
  extends r r' ->
  threat_score (analyze_report w sigs r) <= threat_score (analyze_report w sigs r').
Proof.
  intros (fx & nx & gx & Hf & Hn & Hg).
  unfold analyze_report. simpl. apply py_min_mono.
  unfold scan_entries, all_entries.
  rewrite !entries_fold_sum, Hf, Hn, Hg. simpl.
  rewrite !map_app, !Qsum_app.
  pose proof (Qsum_gain_nonneg w sigs (map EFile fx)).
  pose proof (Qsum_gain_nonneg w sigs (map ENet nx)).
  pose proof (Qsum_gain_nonneg w sigs (map EReg gx)).
  lra.
Qed.

(* ================================================================== *)
(** * C1: the combined threat score *)
(* ================================================================== *)

(** C1.  The report of every scan that returns carries
    [round(min(static_score + dynamic_score, 1.0), 2)], where the static
    score is the one of [FileAnalyzer.analyze] and the dynamic score the one
    of [analyze_report] on the monitor results, and that number lies in
    [[0, 1]].  As a function of two non-negative scores the combined score
    lies in [[0, 1]], does not depend on the order of its summands, does not
    decrease when either score grows or when the activity report gets more
    records, and is [1] as soon as the sum reaches [1]. *)
Theorem combined_threat_score_laws :
  (forall w file_path timeout monitor st rep st',
      execute_file w file_path timeout monitor st = (Ok rep, st') ->
      r_threat_level rep =
        round2 (py_min
                  (ar_threat_level (analyze w file_path)
                   + threat_score
                       (analyze_report w (signatures (threat_detector (fst st)))
                                       (r_monitoring_results rep)))
                  1.0)
      /\ 0 <= r_threat_level rep <= 1)
  /\ (forall s d, 0 <= s -> 0 <= d -> 0 <= combined_score s d <= 1)
  /\ (forall s d, combined_score s d == combined_score d s)
  /\ (forall s d x, 0 <= x ->
        combined_score s d <= combined_score s (d + x)
        /\ combined_score s d <= combined_score (s + x) d)
  /\ (forall w sigs r r' s, extends r r' ->
        combined_score s (threat_score (analyze_report w sigs r))
        <= combined_score s (threat_score (analyze_report w sigs r')))
  /\ (forall s d, 1 <= s + d -> combined_score s d == 1).
Proof.
  repeat split.
  - apply execute_file_ok in H. apply H.
  - apply execute_file_ok in H. destruct H as [H _]. rewrite H.
    apply combined_score_range;
      [apply analyze_range | apply analyze_report_range].
  - apply execute_file_ok in H. destruct H as [H _]. rewrite H.
    apply combined_score_range;
      [apply analyze_range | apply analyze_report_range].
  - apply combined_score_range; assumption.
  - apply combined_score_range; assumption.
  - apply combined_score_comm.
  - apply combined_score_mono; lra.
  - apply combined_score_mono; lra.
  - intros w sigs r r' s Hext.
    apply combined_score_mono; [lra | apply analyze_report_extends, Hext].
  - apply combined_score_saturates.
Qed.

(** A scan on [tool_world] and three pairs of scores, through C1. *)
Lemma combined_threat_score_witness :
  (exists rep st',
      execute_file tool_world "/tmp/tool.sh" 300 true
        (fresh_sandbox tool_world "process" "low" (ProcessIsolation "low" PNone))
      = (Ok rep, st')
      /\ 0 <= r_threat_level rep <= 1)
  /\ 0 <= combined_score 0.3 0.4 <= 1
  /\ combined_score 0.3 0.4 <= combined_score 0.3 (0.4 + 0.4)
  /\ combined_score 0.3 0.8 == 1.
Proof.
  pose proof combined_threat_score_laws as H.
  destruct H as (Hscan & Hrange & _ & Hmono & _ & Hsat).
  split; [| split; [| split]].
  - destruct (execute_file tool_world "/tmp/tool.sh" 300 true
                (fresh_sandbox tool_world "process" "low"
                   (ProcessIsolation "low" PNone)))
      as [[rep | e] st'] eqn:E.
    + exists rep, st'. split; [reflexivity |].
      exact (proj2 (Hscan _ _ _ _ _ _ _ E)).
    + vm_compute in E. discriminate E.
  - apply (Hrange 0.3 0.4); unfold Qle; simpl; lia.
  - refine (proj1 (Hmono 0.3 0.4 0.4 _)). unfold Qle; simpl; lia.
  - apply (Hsat 0.3 0.8). unfold Qle; simpl; lia.
Defined.

(* ================================================================== *)
(** * C2: severity weights *)
(* ================================================================== *)

(** C2, as stated, fails.  A signature whose severity is [NONE] (here one
    built from a severity string outside the five names) that matches a
    record adds [0.1] to the dynamic score, not nothing; and the lookup of
    either analysis disagrees with the specification's table at [NONE]. *)
Lemma none_severity_adds_a_tenth :
  sig_severity odd_signature = NONE
  /\ threats (analyze_report tool_world [odd_signature] tmp_report)
     = [SignatureFinding "SIG-900" "Temp file" "NONE" "File Access" "/tmp/"]
  /\ threat_score (analyze_report tool_world [odd_signature] tmp_report) == 0.1
  /\ ~ (forall level,
           keyword_weight level == spec_weight level
           /\ signature_weight level == spec_weight level).
Proof.
  split; [reflexivity |].
  split; [vm_compute; reflexivity |]. split; [vm_compute; reflexivity |].
  intro H. destruct (H NONE) as [Hk _]. vm_compute in Hk. discriminate Hk.
Qed.

Lemma extension_step_weightless ext :
  Qsum (map finding_weight (snd (extension_step ext))) == 0.
Proof.
  unfold extension_step.
  destruct (str_in ext _); [reflexivity |].
  destruct (str_in ext _); reflexivity.
Qed.

(** C2, amended.  Both analyses look a severity up in the same table:
    critical 1.0, high 0.4, medium 0.2, low 0.1, and 0.1 (the default of
    the lookup) for [none].  The score of the keyword scan of a readable
    file, before the cap, is the extension weight plus the table's weight
    of every keyword finding; the dynamic score, before the cap, is the sum
    of the table's weights of the signature findings. *)
Theorem severity_weights_as_applied :
  (forall level,
      keyword_weight level = severity_table level
      /\ signature_weight level = severity_table level)
  /\ (severity_table CRITICAL == 1.0 /\ severity_table HIGH == 0.4
      /\ severity_table MEDIUM == 0.2 /\ severity_table LOW == 0.1
      /\ severity_table NONE == 0.1)
  /\ (forall w path bytes,
        read_bytes w path = Ok bytes ->
        threat_score (analyze_file w path)
        == py_min (fst (extension_step (lower (snd (splitext w path))))
                   + Qsum (map finding_weight (threats (analyze_file w path))))
                  1.0)
  /\ (forall w sigs report,
        threat_score (analyze_report w sigs report)
        == py_min (Qsum (map finding_weight
                           (threats (analyze_report w sigs report)))) 1.0).
Proof.
  split; [| split; [| split]].
  - intro level. split;
      [apply keyword_weight_table | apply signature_weight_table].
  - repeat split; reflexivity.
  - intros w path bytes Hread. unfold analyze_file. rewrite Hread.
    cbn [threat_score threats].
    apply py_min_proper; [| reflexivity].
    pose proof (fold_balanced (keyword_step bytes) (keyword_step_balanced bytes)
                  keywords (extension_step (lower (snd (splitext w path)))))
      as H.
    pose proof (extension_step_weightless (lower (snd (splitext w path)))) as H0.
    unfold balance in H. unfold scan_keywords. lra.
  - intros w sigs report. unfold analyze_report. cbn [threat_score threats].
    apply py_min_proper; [| reflexivity]. apply scan_entries_sum.
Qed.

(** The score of [sample.exe] is the sum of its weights, through C2. *)
Lemma severity_weights_witness :
  threat_score (analyze_file exe_world "sample.exe")
  == py_min (fst (extension_step ".exe")
             + Qsum (map finding_weight
                       (threats (analyze_file exe_world "sample.exe")))) 1.0.
Proof.
  pose proof severity_weights_as_applied as H.
  destruct H as (_ & _ & Hfile & _).
  apply (Hfile exe_world "sample.exe" "cmd.exe /c CreateProcess").
  vm_compute. reflexivity.
Defined.

(* ================================================================== *)
(** * C9: an executable that mentions CreateProcess *)
(* ================================================================== *)

(** C9, as stated, fails.  [sample.exe] ends in [.exe] and its bytes contain
    [CreateProcess]; they also contain [cmd.exe], so the keyword scan finds
    two keywords and the score is 0.8. *)
Lemma createprocess_with_second_keyword :
  ends_with ".exe" "sample.exe" = true
  /\ read_bytes exe_world "sample.exe" = Ok "cmd.exe /c CreateProcess"
  /\ contains "CreateProcess" "cmd.exe /c CreateProcess" = true
  /\ threat_score (analyze_file exe_world "sample.exe") == 0.8
  /\ count_type "keyword" (threats (analyze_file exe_world "sample.exe")) = 2%nat
  /\ ~ (threat_score (analyze_file exe_world "sample.exe") == 0.6
        /\ count_type "extension"
             (threats (analyze_file exe_world "sample.exe")) = 1%nat
        /\ count_type "keyword"
             (threats (analyze_file exe_world "sample.exe")) = 1%nat).
Proof.
  repeat (split; [vm_compute; reflexivity |]).
  intros (_ & _ & H). vm_compute in H. discriminate H.
Qed.

(** [os.path.splitext] on POSIX: a name that is nothing but [.exe] has no
    extension, and the case of the extension is kept. *)
Example splitext_samples :
  Posix.splitext "sample.exe" = ("sample", ".exe")
  /\ Posix.splitext "/opt/tools/SETUP.EXE" = ("/opt/tools/SETUP", ".EXE")
  /\ Posix.splitext ".exe" = (".exe", EmptyString)
  /\ Posix.splitext "/tmp/..exe" = ("/tmp/..exe", EmptyString).
Proof. vm_compute. repeat split. Qed.

Lemma keyword_step_miss bytes acc kw level :
  contains kw bytes = false -> keyword_step bytes acc (kw, level) = acc.
Proof. intro H. unfold keyword_step. rewrite H. reflexivity. Qed.

Lemma keyword_step_hit bytes acc kw level :
  contains kw bytes = true ->
  keyword_step bytes acc (kw, level)
  = (fst acc + keyword_weight level,
     (snd acc ++ [Keyword kw (ThreatLevel_name level)])%list).
Proof. intro H. unfold keyword_step. rewrite H. reflexivity. Qed.

(** C9, amended.  For every readable file whose extension, as
    [os.path.splitext] splits it and lower-cased, is [.exe], and whose bytes
    contain [CreateProcess] and no other keyword of the table,
    [analyze_file] returns the score 0.2 + 0.4 = 0.6 and exactly two
    findings: the "extension" finding and the "keyword" finding of
    [CreateProcess]. *)
Theorem createprocess_exe_analysis w path bytes :
  lower (snd (splitext w path)) = ".exe" ->
  read_bytes w path = Ok bytes ->
  contains "CreateProcess" bytes = true ->
  only_keyword "CreateProcess" bytes = true ->
  threat_score (analyze_file w path) == 0.2 + 0.4
  /\ round2 (threat_score (analyze_file w path)) == 0.6
  /\ threats (analyze_file w path)
     = [Heuristic "extension" ".exe" 0.8; Keyword "CreateProcess" "HIGH"]
  /\ count_type "extension" (threats (analyze_file w path)) = 1%nat
  /\ count_type "keyword" (threats (analyze_file w path)) = 1%nat.
Proof.
  intros Hext Hread Hcp Honly.
  unfold only_keyword in Honly. simpl in Honly.
  repeat match type of Honly with
         | (_ && _)%bool = true =>
             apply andb_prop in Honly; destruct Honly as [? Honly]
         end.
  repeat match goal with
         | H : negb (contains ?k bytes) = true |- _ =>
             apply negb_true_iff in H
         end.
  assert (E : analyze_file w path
              = {| threat_score := py_min (0.0 + 0.2 + 0.4) 1.0;
                   threats := [Heuristic "extension" ".exe" 0.8;
                               Keyword "CreateProcess" "HIGH"] |}).
  { unfold analyze_file. rewrite Hext, Hread.
    unfold scan_keywords, keywords. cbn [fold_left].
    rewrite !keyword_step_miss by assumption.
    rewrite (keyword_step_hit _ _ _ _ Hcp).
    rewrite !keyword_step_miss by assumption.
    vm_compute. reflexivity. }
  rewrite E. repeat split; vm_compute; reflexivity.
Qed.

(** [clean.exe] mentions [CreateProcess] and no other keyword. *)
Lemma createprocess_exe_witness :
  threat_score (analyze_file exe_world "clean.exe") == 0.2 + 0.4
  /\ round2 (threat_score (analyze_file exe_world "clean.exe")) == 0.6
  /\ threats (analyze_file exe_world "clean.exe")
     = [Heuristic "extension" ".exe" 0.8; Keyword "CreateProcess" "HIGH"]
  /\ count_type "extension" (threats (analyze_file exe_world "clean.exe")) = 1%nat
  /\ count_type "keyword" (threats (analyze_file exe_world "clean.exe")) = 1%nat.
Proof.
  apply (createprocess_exe_analysis exe_world "clean.exe"
           "call CreateProcess now"); vm_compute; reflexivity.
Defined.

(* ================================================================== *)
(** * C5: selecting an isolation environment *)
(* ================================================================== *)

Lemma is_available_container w level id t :
  is_available w (ContainerIsolation level id) t
  = (Ok (container_available w), (t ++ [CheckContainerSupport])%list).
Proof.
  unfold is_available, container_available, try_except, bind, emit, lift, ret,
    log_trace.
  destruct (check_container_support w); reflexivity.
Qed.

Lemma is_available_process w level p t :
  is_available w (ProcessIsolation level p) t
  = (Ok (process_available w), (t ++ [CheckIsolationSupport])%list).
Proof.
  unfold is_available, process_available, try_except, bind, emit, lift, ret,
    log_trace.
  destruct (check_isolation_support w); reflexivity.
Qed.

Lemma try_process_isolation_spec w method level t :
  try_process_isolation w method level t
  = if (method =? "process")%string || (method =? "container")%string
    then
      if process_available w
      then (Ok (ProcessIsolation (checked_level level) PNone),
            (t ++ [CheckIsolationSupport])%list)
      else (Raise NoIsolationAvailable, (t ++ [CheckIsolationSupport])%list)
    else (Raise NoIsolationAvailable, t).
Proof.
  unfold try_process_isolation.
  destruct ((method =? "process")%string || (method =? "container")%string);
    [| reflexivity].
  unfold bind, ProcessIsolation_init. rewrite is_available_process.
  destruct (process_available w); reflexivity.
Qed.

Lemma get_isolation_environment_spec w method level t :
  get_isolation_environment w method level t
  = if (lower method =? "container")%string
    then
      if container_available w
      then (Ok (ContainerIsolation (checked_level level) PNone),
            (t ++ [CheckContainerSupport])%list)
      else try_process_isolation w (lower method) level
             (t ++ [CheckContainerSupport])%list
    else try_process_isolation w (lower method) level t.
Proof.
  unfold get_isolation_environment.
  destruct (lower method =? "container")%string; [| reflexivity].
  unfold bind, ContainerIsolation_init. rewrite is_available_container.
  destruct (container_available w); reflexivity.
Qed.

(** C5.  When "container" is requested the container provider is probed
    first and returned if available; otherwise the process provider is
    probed and returned if available.  When "process" is requested only the
    process provider is probed.  When no probed provider is available, and
    for any other method, the selection raises the "no supported isolation
    method" error.  The only calls made on the back ends are the probes: no
    file is run. *)
Theorem isolation_selection w method security_level t :
  (lower method = "container" -> container_available w = true ->
   get_isolation_environment w method security_level t
   = (Ok (ContainerIsolation (checked_level security_level) PNone),
      (t ++ [CheckContainerSupport])%list))
  /\ (lower method = "container" -> container_available w = false ->
      process_available w = true ->
      get_isolation_environment w method security_level t
      = (Ok (ProcessIsolation (checked_level security_level) PNone),
         (t ++ [CheckContainerSupport; CheckIsolationSupport])%list))
  /\ (lower method = "container" -> container_available w = false ->
      process_available w = false ->
      get_isolation_environment w method security_level t
      = (Raise NoIsolationAvailable,
         (t ++ [CheckContainerSupport; CheckIsolationSupport])%list))
  /\ (lower method = "process" -> process_available w = true ->
      get_isolation_environment w method security_level t
      = (Ok (ProcessIsolation (checked_level security_level) PNone),
         (t ++ [CheckIsolationSupport])%list))
  /\ (lower method = "process" -> process_available w = false ->
      get_isolation_environment w method security_level t
      = (Raise NoIsolationAvailable, (t ++ [CheckIsolationSupport])%list))
  /\ (lower method <> "container" -> lower method <> "process" ->
      get_isolation_environment w method security_level t
      = (Raise NoIsolationAvailable, t)).
Proof.
  rewrite get_isolation_environment_spec, !try_process_isolation_spec.
  repeat split.
  - intros -> ->. reflexivity.
  - intros -> -> ->. simpl. rewrite <- app_assoc. reflexivity.
  - intros -> -> ->. simpl. rewrite <- app_assoc. reflexivity.
  - intros -> ->. reflexivity.
  - intros -> ->. reflexivity.
  - intros Hc Hp.
    apply String.eqb_neq in Hc. apply String.eqb_neq in Hp.
    rewrite Hc, Hp. reflexivity.
Qed.

(** The six cases of the selection, on three hosts. *)
Lemma isolation_selection_witness :
  get_isolation_environment docker_world "container" "high" []
  = (Ok (ContainerIsolation "high" PNone), [CheckContainerSupport])
  /\ get_isolation_environment tool_world "Container" "low" []
     = (Ok (ProcessIsolation "low" PNone),
        [CheckContainerSupport; CheckIsolationSupport])
  /\ get_isolation_environment bare_world "container" "medium" []
     = (Raise NoIsolationAvailable,
        [CheckContainerSupport; CheckIsolationSupport])
  /\ get_isolation_environment docker_world "process" "strict" []
     = (Ok (ProcessIsolation "medium" PNone), [CheckIsolationSupport])
  /\ get_isolation_environment bare_world "process" "low" []
     = (Raise NoIsolationAvailable, [CheckIsolationSupport])
  /\ get_isolation_environment docker_world "virtual" "low" []
     = (Raise NoIsolationAvailable, []).
Proof.
  split; [| split; [| split; [| split; [| split]]]].
  - apply (proj1 (isolation_selection docker_world "container" "high" []));
      reflexivity.
  - apply (proj1 (proj2 (isolation_selection tool_world "Container" "low" [])));
      reflexivity.
  - apply (proj1 (proj2 (proj2
             (isolation_selection bare_world "container" "medium" []))));
      reflexivity.
  - apply (proj1 (proj2 (proj2 (proj2
             (isolation_selection docker_world "process" "strict" [])))));
      reflexivity.
  - apply (proj1 (proj2 (proj2 (proj2 (proj2
             (isolation_selection bare_world "process" "low" []))))));
      reflexivity.
  - apply (proj2 (proj2 (proj2 (proj2 (proj2
             (isolation_selection docker_world "virtual" "low" []))))));
      vm_compute; discriminate.
Defined.

(* ================================================================== *)
(** * C10: constructors need a back end *)
(* ================================================================== *)

Lemma get_isolation_environment_unavailable w method level t :
  container_available w = false -> process_available w = false ->
  exists probes,
    get_isolation_environment w method level t
    = (Raise NoIsolationAvailable, (t ++ probes)%list)
    /\ forallb is_probe probes = true.
Proof.
  intros Hc Hp.
  rewrite get_isolation_environment_spec, !try_process_isolation_spec, Hc, Hp.
  destruct (lower method =? "container")%string eqn:E.
  - apply String.eqb_eq in E. rewrite E. simpl.
    exists [CheckContainerSupport; CheckIsolationSupport].
    rewrite <- app_assoc. split; reflexivity.
  - rewrite orb_false_r.
    destruct (lower method =? "process")%string.
    + exists [CheckIsolationSupport]. split; reflexivity.
    + exists []. rewrite app_nil_r. split; reflexivity.
Qed.

(** C10.  On a host where neither probe answers yes, constructing a
    [ThreatDetector] raises, constructing a [Sandbox] raises (inside the
    construction of its detector), and so does [run_sandbox] for every file:
    no report is produced, and the only calls made are probes of the back
    ends. *)
Theorem constructors_need_backend w security_level isolation_method :
  container_available w = false -> process_available w = false ->
  (forall method t, exists probes,
      ThreatDetector_init w security_level method t
      = (Raise NoIsolationAvailable, (t ++ probes)%list)
      /\ forallb is_probe probes = true)
  /\ (forall t, exists probes,
        Sandbox_init w isolation_method security_level t
        = (Raise NoIsolationAvailable, (t ++ probes)%list)
        /\ forallb is_probe probes = true)
  /\ (forall file_path, exists probes,
        run_sandbox w file_path security_level isolation_method
        = (Raise NoIsolationAvailable, probes)
        /\ forallb is_probe probes = true).
Proof.
  intros Hc Hp.
  assert (Hdet : forall method t, exists probes,
             ThreatDetector_init w security_level method t
             = (Raise NoIsolationAvailable, (t ++ probes)%list)
             /\ forallb is_probe probes = true).
  { intros method t. unfold ThreatDetector_init.
    match goal with
    | |- context [get_isolation_environment w ?m ?l] =>
        destruct (get_isolation_environment_unavailable w m l t Hc Hp)
          as (probes & E & Hprobes)
    end.
    exists probes. split; [| exact Hprobes].
    apply bind_raise. exact E. }
  assert (Hsb : forall t, exists probes,
             Sandbox_init w isolation_method security_level t
             = (Raise NoIsolationAvailable, (t ++ probes)%list)
             /\ forallb is_probe probes = true).
  { intro t. destruct (Hdet (Some isolation_method) t) as (probes & E & Hprobes).
    exists probes. split; [| exact Hprobes].
    unfold Sandbox_init. apply bind_raise. exact E. }
  split; [exact Hdet | split; [exact Hsb |]].
  intro file_path. destruct (Hsb []) as (probes & E & Hprobes).
  exists probes. split; [| exact Hprobes].
  unfold run_sandbox. rewrite E. reflexivity.
Qed.

(** Nothing can be constructed on [bare_world]. *)
Lemma constructors_need_backend_witness :
  ThreatDetector_init bare_world "medium" None []
  = (Raise NoIsolationAvailable, [CheckContainerSupport; CheckIsolationSupport])
  /\ Sandbox_init bare_world "process" "medium" []
     = (Raise NoIsolationAvailable, [CheckIsolationSupport])
  /\ run_sandbox bare_world "/tmp/tool.sh" "medium" "container"
     = (Raise NoIsolationAvailable,
        [CheckContainerSupport; CheckIsolationSupport]).
Proof.
  pose proof (constructors_need_backend bare_world "medium" "container"
                eq_refl eq_refl) as (Hdet & _ & Hrun).
  pose proof (constructors_need_backend bare_world "medium" "process"
                eq_refl eq_refl) as (_ & Hsb & _).
  split; [| split].
  - destruct (Hdet None []) as (probes & E & _). rewrite E.
    vm_compute in E. injection E as <-. reflexivity.
  - destruct (Hsb []) as (probes & E & _). rewrite E.
    vm_compute in E. injection E as <-. reflexivity.
  - destruct (Hrun "/tmp/tool.sh") as (probes & E & _). rewrite E.
    vm_compute in E. injection E as <-. reflexivity.
Defined.

(* ================================================================== *)
(** * C8: a file that does not exist *)
(* ================================================================== *)

Lemma _prepare_file_missing w file_path st :
  fs w file_path = None ->
  exists e extra,
    _prepare_file w file_path st
    = (Raise e,
       (if workspace_writable w then with_dir_exists (fst st) true
        else fst st,
        (snd st ++ extra)%list))
    /\ no_setup_or_execute extra = true.
Proof.
  intro Hfs. destruct st as [sb t].
  unfold _prepare_file, shutil_copy, makedirs, bind, get, emit, lift, raise,
    ret, read_bytes, set_dir_exists, log_sandbox, log_trace.
  cbn [fst snd]. rewrite Hfs.
  destruct (workspace_writable w); cbn [fst snd].
  - eexists. eexists [_; _]. rewrite <- app_assoc.
    split; reflexivity.
  - eexists. eexists [_]. split; reflexivity.
Qed.

Lemma quiet_bind {A B} (m : M trace A) (k : A -> M trace B) :
  quiet m -> (forall a, quiet (k a)) -> quiet (bind m k).
Proof.
  intros Hm Hk t Ht. unfold bind. specialize (Hm t Ht).
  destruct (m t) as [[a | e] t1]; simpl in *; [apply Hk |]; exact Hm.
Qed.

Lemma quiet_ret {A} (a : A) : quiet (ret a).
Proof. intros t Ht. exact Ht. Qed.

Lemma quiet_makedirs writable dir : quiet (makedirs log_trace writable dir).
Proof.
  intros t Ht. unfold makedirs, bind, emit, ret, raise, log_trace.
  destruct writable; simpl; unfold no_setup_or_execute;
    rewrite forallb_app; simpl; rewrite andb_true_r; exact Ht.
Qed.

Lemma quiet_get_isolation_environment w method level :
  quiet (get_isolation_environment w method level).
Proof.
  intros t Ht.
  rewrite get_isolation_environment_spec, !try_process_isolation_spec.
  unfold no_setup_or_execute in *.
  repeat match goal with
         | |- context [if ?c then _ else _] => destruct c
         end; simpl; rewrite ?forallb_app, ?Ht; reflexivity.
Qed.

Lemma quiet_Sandbox_init w method level : quiet (Sandbox_init w method level).
Proof.
  unfold Sandbox_init, ThreatDetector_init.
  repeat first
    [ apply quiet_ret | apply quiet_makedirs
    | apply quiet_get_isolation_environment
    | apply quiet_bind; [| intro] ].
Qed.

(** C8.  For a path at which the file system holds nothing, the static
    analysis returns threat level 0.0 and the error marker "File not
    found"; [execute_file] raises while copying the file, leaving the
    sandbox as it was (but for its directory, which [os.makedirs] has
    created again where the workspace is writable), and neither it nor
    [run_sandbox] makes a set-up or execute call on an isolation back
    end. *)
Theorem missing_file_never_isolated w file_path :
  fs w file_path = None ->
  (ar_threat_level (analyze w file_path) = 0.0
   /\ ar_error (analyze w file_path) = Some "File not found")
  /\ (forall timeout monitor st, exists e extra,
        execute_file w file_path timeout monitor st
        = (Raise e,
           (if workspace_writable w then with_dir_exists (fst st) true
            else fst st,
            (snd st ++ extra)%list))
        /\ no_setup_or_execute extra = true)
  /\ (forall security_level isolation_method,
        is_ok (fst (run_sandbox w file_path security_level isolation_method))
        = false
        /\ no_setup_or_execute
             (snd (run_sandbox w file_path security_level isolation_method))
           = true).
Proof.
  intro Hfs.
  assert (Hscan : forall timeout monitor st, exists e extra,
             execute_file w file_path timeout monitor st
             = (Raise e,
                (if workspace_writable w then with_dir_exists (fst st) true
                 else fst st,
                 (snd st ++ extra)%list))
             /\ no_setup_or_execute extra = true).
  { intros timeout monitor st.
    destruct (_prepare_file_missing w file_path st Hfs) as (e & extra & E & Hq).
    exists e, extra. split; [| exact Hq].
    unfold execute_file. apply bind_raise. exact E. }
  split; [| split; [exact Hscan |]].
  - unfold analyze, exists_. rewrite Hfs. split; reflexivity.
  - intros security_level isolation_method. unfold run_sandbox.
    pose proof (quiet_Sandbox_init w isolation_method security_level []
                  eq_refl) as Hinit.
    destruct (Sandbox_init w isolation_method security_level [])
      as [[sandbox | e] t]; [| split; [reflexivity | exact Hinit]].
    destruct (Hscan 300%Z true (sandbox, t)) as (e & extra & E & Hq).
    rewrite E. cbn [fst snd is_ok]. split; [reflexivity |].
    unfold no_setup_or_execute in *. rewrite forallb_app.
    simpl in Hinit. rewrite Hinit, Hq. reflexivity.
Qed.

(** A scan of a path that [tool_world] does not hold. *)
Lemma missing_file_witness :
  ar_threat_level (analyze tool_world "/tmp/absent.bin") = 0.0
  /\ ar_error (analyze tool_world "/tmp/absent.bin") = Some "File not found"
  /\ is_ok (fst (run_sandbox tool_world "/tmp/absent.bin" "low" "process"))
     = false
  /\ no_setup_or_execute
       (snd (run_sandbox tool_world "/tmp/absent.bin" "low" "process"))
     = true.
Proof.
  pose proof (missing_file_never_isolated tool_world "/tmp/absent.bin" eq_refl)
    as ((H1 & H2) & _ & H3).
  destruct (H3 "low" "process") as [H4 H5].
  repeat split; assumption.
Defined.

(* ================================================================== *)
(** * C4: a scan whose execution step fails *)
(* ================================================================== *)

(** C4, as stated, fails.  A scan of a file that exists and cannot be
    read raises [PermissionError] to the caller, out of the copy into the
    workspace.  And on a host whose process handler reports a failed
    launch by what it returns (no process, exit code -1 in the output),
    the scan returns a report with status "completed" and exit code 0. *)
Lemma failed_scan_not_reported_as_failed :
  fst (execute_file locked_world "/tmp/locked.sh" 300 true
         (fresh_sandbox locked_world "process" "medium"
            (ProcessIsolation "medium" PNone)))
  = Raise (PermissionError "/tmp/locked.sh")
  /\ execute_isolated failed_launch_world
       "/home/user/.saferun/sandbox/0b0c7f3e-sandbox/files/tool.sh" "medium"
     = Ok (PNone, [("stdout", PStr EmptyString);
                   ("stderr", PStr "launch failed");
                   ("exit_code", PInt (-1))])
  /\ exists rep st',
       execute_file failed_launch_world "/tmp/tool.sh" 300 true
         (fresh_sandbox failed_launch_world "process" "medium"
            (ProcessIsolation "medium" PNone))
       = (Ok rep, st')
       /\ In (ExecuteIsolated
                "/home/user/.saferun/sandbox/0b0c7f3e-sandbox/files/tool.sh"
                "medium") (snd st')
       /\ r_status rep = "completed"
       /\ r_exit_code rep = PInt 0
       /\ ~ (r_status rep = "failed" /\ r_exit_code rep = PInt (-1)).
Proof.
  split; [vm_compute; reflexivity |]. split; [reflexivity |].
  destruct (execute_file failed_launch_world "/tmp/tool.sh" 300 true
              (fresh_sandbox failed_launch_world "process" "medium"
                 (ProcessIsolation "medium" PNone)))
    as [[rep | e] st'] eqn:E.
  - exists rep, st'. split; [reflexivity |].
    vm_compute in E. injection E as <- <-.
    split; [right; right; left; reflexivity |].
    split; [reflexivity |]. split; [reflexivity |].
    intros [H _]. discriminate H.
  - vm_compute in E. discriminate E.
Qed.

(** C4, amended.  When the file has been copied into the workspace and
    the provider's [execute] raises, whatever the exception,
    [execute_file] returns a report; its status is "failed", its exit code
    is -1, and its threat list is the list of the static analysis.  When
    the copy itself raises, [execute_file] raises that exception to the
    caller, and no set-up or execute call has been made. *)
Theorem failed_execution_is_reported
        w file_path timeout monitor sb t :
  (forall p st1 e,
      _prepare_file w file_path (sb, t) = (Ok p, st1) ->
      fst (execute w p (isolation_env sb, snd st1)) = Raise e ->
      exists rep st',
        execute_file w file_path timeout monitor (sb, t) = (Ok rep, st')
        /\ r_status rep = "failed"
        /\ r_exit_code rep = PInt (-1)
        /\ r_threats rep = static_threats_of (analyze w file_path))
  /\ (forall e st1,
        _prepare_file w file_path (sb, t) = (Raise e, st1) ->
        execute_file w file_path timeout monitor (sb, t) = (Raise e, st1)
        /\ isolation_calls (snd st1) = isolation_calls t).
Proof.
  split.
  2:{ intros e st1 Hprep. split.
      - unfold execute_file. apply bind_raise. exact Hprep.
      - revert Hprep.
        unfold _prepare_file, shutil_copy, makedirs, bind, get, emit, lift,
          raise, ret, set_dir_exists, log_sandbox, log_trace.
        cbn [fst snd].
        destruct (workspace_writable w); cbn [fst snd];
          [destruct (read_bytes w file_path); cbn [fst snd] |];
          intro H; try discriminate H; injection H as _ <-;
          unfold isolation_calls; cbn [snd]; rewrite !filter_app;
          cbn [filter is_setup_or_execute]; rewrite ?app_nil_r;
          reflexivity. }
  intros p st1 e Hprep Hexec.
  pose proof (_prepare_file_ok w file_path sb t p st1 Hprep) as K.
  destruct st1 as [sb1 t1]. cbn [fst snd] in K, Hexec.
  injection K as ->.
  unfold execute_file. rewrite (bind_ok _ _ _ _ _ Hprep).
  set (level_step := if negb (Qle_bool _ _) then _ else _).
  assert (Hlevel : exists sb',
             level_step (with_dir_exists sb true, t1) = (Ok tt, (sb', t1))
             /\ isolation_env sb' = isolation_env sb).
  { subst level_step.
    destruct (negb (Qle_bool _ _)); eexists; split; reflexivity. }
  destruct Hlevel as (sb' & Hlevel & Henv).
  rewrite (bind_ok _ _ _ _ _ Hlevel).
  unfold get at 1. unfold bind at 1. cbn [fst].
  assert (Hrun : exists st2,
             run_step w p timeout monitor (isolation_method sb') (sb', t1)
             = (Ok (failed_execution, None), st2)).
  { unfold run_step.
    assert (Hfail : forall k, exists st2,
               try_except
                 (bind (on_env (execute w p)) k)
                 (fun _ => ret failed_execution) (sb', t1)
               = (Ok failed_execution, st2)).
    { intro k. unfold try_except, bind, on_env. cbn [fst snd].
      rewrite Henv.
      destruct (execute w p (isolation_env sb, t1)) as [[r | e'] [env' t2]];
        cbn [fst] in Hexec; [discriminate |].
      eexists. reflexivity. }
    destruct (isolation_method sb' =? "container")%string.
    - destruct (Hfail (fun r =>
                  match r with
                  | ExecDict d =>
                      ret {| er_status := "completed";
                             er_exit_code :=
                               dict_get String.eqb d "exit_code" (PInt 0);
                             er_pid := dict_get String.eqb d "pid" PNone;
                             er_process := PNone |}
                  | ExecTuple _ _ =>
                      raise (AttributeError
                               "'tuple' object has no attribute 'get'")
                  end)) as (st2 & E).
      exists st2. unfold _execute_in_container.
      rewrite (bind_ok _ _ _ _ _ E). reflexivity.
    - destruct (Hfail (fun r =>
                  bind (lift (unpack_pair r)) (fun po =>
                  bind (lift (pid_of (fst po))) (fun pid =>
                  ret {| er_status := "completed"; er_exit_code := PInt 0;
                         er_pid := pid; er_process := fst po |}))))
        as (st2 & E).
      exists st2. unfold _execute_in_process.
      rewrite (bind_ok _ _ _ _ _ E).
      cbn [failed_execution er_pid truthy]. rewrite andb_false_r.
      reflexivity. }
  destruct Hrun as (st2 & Hrun).
  rewrite (bind_ok _ _ _ _ _ Hrun).
  unfold get at 1. unfold bind at 1.
  destruct (cleanup_returns w st2) as (st3 & Hclean).
  rewrite (bind_ok _ _ _ _ _ Hclean).
  eexists. eexists. split; [reflexivity |].
  cbn [r_status r_exit_code r_threats fst snd failed_execution er_status
       er_exit_code].
  repeat split.
  unfold analyze_report, all_entries, scan_entries. cbn. apply app_nil_r.
Qed.

(** A scan on [broken_world], whose process handler raises. *)
Lemma failed_execution_witness :
  exists rep st',
    execute_file broken_world "/tmp/tool.sh" 300 true
      (fresh_sandbox broken_world "process" "medium"
         (ProcessIsolation "medium" PNone))
    = (Ok rep, st')
    /\ r_status rep = "failed"
    /\ r_exit_code rep = PInt (-1)
    /\ r_threats rep = static_threats_of (analyze broken_world "/tmp/tool.sh").
Proof.
  eapply (proj1 (failed_execution_is_reported broken_world "/tmp/tool.sh"
                   300 true _ _)
            _ _ (OtherError "execute_isolated failed")).
  - vm_compute. reflexivity.
  - vm_compute. reflexivity.
Defined.

(* ================================================================== *)
(** * C6: one record per key *)
(* ================================================================== *)

Lemma NoDup_snoc {A} (l : list A) (x : A) :
  NoDup l -> ~ In x l -> NoDup (l ++ [x]).
Proof.
  induction l as [| y l IH]; intros Hl Hx; simpl.
  - constructor; [intros [] | constructor].
  - inversion Hl as [| ? ? Hy Hl']; subst. constructor.
    + rewrite in_app_iff. intros [H | [H | []]]; [exact (Hy H) |].
      apply Hx. left. symmetry. exact H.
    + apply IH; [exact Hl' |]. intro H. apply Hx. right. exact H.
Qed.

Lemma existsb_key {A} (key : A -> string) (l : list A) (k : string) :
  existsb (fun a => (key a =? k)%string) l = true <-> In k (map key l).
Proof.
  rewrite existsb_exists, in_map_iff. split.
  - intros (a & Ha & E). apply String.eqb_eq in E. exists a. split; assumption.
  - intros (a & E & Ha). exists a. split; [exact Ha |].
    apply String.eqb_eq. exact E.
Qed.

Lemma existsb_key_false {A} (key : A -> string) (l : list A) (k : string) :
  existsb (fun a => (key a =? k)%string) l = false <-> ~ In k (map key l).
Proof.
  rewrite <- existsb_key. destruct (existsb _ l); split; intro H;
    try discriminate; try reflexivity; try (intro; discriminate).
  exfalso. apply H. reflexivity.
Qed.

Section MonitorFacts.
Variable w : World.




(** What each step does to the three lists. *)
Lemma file_step_lists m path :
  (file_accesses (file_step w m path) = file_accesses m
   \/ (~ In path (file_keys m)
       /\ file_accesses (file_step w m path)
          = (file_accesses m
             ++ [{| fa_timestamp := datetime_now w (clock_reads m);
                    fa_path := path |}])%list))
  /\ network_connections (file_step w m path) = network_connections m
  /\ registry_activities (file_step w m path) = registry_activities m.
Proof.
  unfold file_step.
  destruct (existsb _ (file_accesses m)) eqn:E; cbn [negb].
  - repeat split. left. reflexivity.
  - apply existsb_key_false in E. repeat split. right. split; [exact E |].
    reflexivity.
Qed.

Lemma network_step_lists m conn :
  file_accesses (network_step w m conn) = file_accesses m
  /\ (network_connections (network_step w m conn) = network_connections m
      \/ exists remote,
           ~ In remote (network_keys m)
           /\ network_connections (network_step w m conn)
              = (network_connections m
                 ++ [{| nc_timestamp := datetime_now w (clock_reads m);
                        nc_remote := remote |}])%list)
  /\ registry_activities (network_step w m conn) = registry_activities m.
Proof.
  unfold network_step.
  destruct (conn_raddr conn) as [[ip port] |]; [| repeat split; left; reflexivity].
  destruct (conn_status conn =? "ESTABLISHED")%string;
    [| repeat split; left; reflexivity].
  destruct (existsb _ (network_connections m)) eqn:E; cbn [negb].
  - repeat split. left. reflexivity.
  - apply existsb_key_false in E. repeat split. right.
    exists (remote_of ip port). split; [exact E | reflexivity].
Qed.


Lemma step_ok_refl m : step_ok m m.
Proof.
  split; [auto |]. repeat split; exists []; rewrite app_nil_r; reflexivity.
Qed.

Lemma step_ok_trans m1 m2 m3 : step_ok m1 m2 -> step_ok m2 m3 -> step_ok m1 m3.
Proof.
  intros [D1 (F1 & N1 & G1)] [D2 (F2 & N2 & G2)]. split; [auto |].
  destruct F1 as [f1 F1], F2 as [f2 F2], N1 as [n1 N1], N2 as [n2 N2],
    G1 as [g1 G1], G2 as [g2 G2].
  repeat split.
  - exists (f1 ++ f2)%list. rewrite F2, F1, app_assoc. reflexivity.
  - exists (n1 ++ n2)%list. rewrite N2, N1, app_assoc. reflexivity.
  - exists (g1 ++ g2)%list. rewrite G2, G1, app_assoc. reflexivity.
Qed.

Lemma same_or_snoc {A} (l l' : list A) (x : A) :
  l' = l \/ l' = (l ++ [x])%list -> exists extra, l' = (l ++ extra)%list.
Proof.
  intros [-> | ->]; [exists []; rewrite app_nil_r | exists [x]]; reflexivity.
Qed.

Lemma file_step_ok m path : step_ok m (file_step w m path).
Proof.
  destruct (file_step_lists m path) as (F & N & G).
  unfold step_ok, deduplicated, grows_from, file_keys, network_keys,
    registry_keys.
  rewrite N, G. split.
  - intros (Df & Dn & Dg). repeat split; try assumption.
    destruct F as [-> | [Hnew ->]]; [exact Df |].
    rewrite map_app. apply NoDup_snoc; assumption.
  - repeat split; try (exists []; rewrite app_nil_r; reflexivity).
    destruct F as [-> | [_ ->]]; eauto. exists []. rewrite app_nil_r. reflexivity.
Qed.



Lemma fold_step_ok {A} (step : ProcessMonitor -> A -> ProcessMonitor) :
  (forall m a, step_ok m (step m a)) ->
  forall l m, step_ok m (fold_left step l m).
Proof.
  intros Hstep l. induction l as [| a l IH]; intro m; simpl.
  - apply step_ok_refl.
  - eapply step_ok_trans; [apply Hstep | apply IH].
Qed.

Lemma _monitor_file_activity_ok obs m : step_ok m (_monitor_file_activity w obs m).
Proof.
  unfold _monitor_file_activity.
  destruct (obs_open_files obs); [| apply step_ok_refl].
  destruct (keys_renamed m); [apply step_ok_refl |].
  apply fold_step_ok, file_step_ok.
Qed.










End MonitorFacts.



(* ================================================================== *)
(** * C7: what a repeated connection does to the running score *)
(* ================================================================== *)

(** C7 does not hold of the code.  A process keeps one established
    connection to 10.0.0.5:4444 open during two passes of the polling loop:
    one connection record is kept, and the running score is 20 after the
    first pass and 40 after the second.  A file seen in both passes is
    counted once. *)
Lemma repeated_connection_scores_again :
  pm_threat_score
    (session tool_world [seen [] [established "10.0.0.5" 4444]]) = 20%Z
  /\ network_keys
       (session tool_world
          [seen [] [established "10.0.0.5" 4444];
           seen [] [established "10.0.0.5" 4444]])
     = ["10.0.0.5:4444"]
  /\ pm_threat_score
       (session tool_world
          [seen [] [established "10.0.0.5" 4444];
           seen [] [established "10.0.0.5" 4444]]) = 40%Z
  /\ pm_threat_score
       (session tool_world
          [seen ["/etc/passwd"] []; seen ["/etc/passwd"] []]) = 10%Z.
Proof. vm_compute. repeat split. Qed.

(* ================================================================== *)
(** * C3: the level the file is executed at *)
(* ================================================================== *)

(** C3 does not hold of the code.  A sandbox is requested with process
    isolation at level "low" for a script whose static score is 0.4.  After
    the scan the sandbox's own [security_level] is "high", but the provider
    built by the constructor still has level "low", and the one execute
    call made on the back end carries "low". *)
Lemma escalation_does_not_reach_provider :
  match Sandbox_init tool_world "process" "low" [] with
  | (Ok sb, t) =>
      match execute_file tool_world "/tmp/tool.sh" 300 true (sb, t) with
      | (Ok rep, (sb', t')) =>
          ar_threat_level (analyze tool_world "/tmp/tool.sh") == 0.4
          /\ security_level sb = "low"
          /\ security_level sb' = "high"
          /\ provider_level (isolation_env sb') = "low"
          /\ filter is_setup_or_execute t'
             = [ExecuteIsolated
                  "/home/user/.saferun/sandbox/0b0c7f3e-sandbox/files/tool.sh"
                  "low"]
      | _ => False
      end
  | _ => False
  end.
Proof. vm_compute. repeat split. Qed.

(* ================================================================== *)
(** * Further properties: levels and names *)
(* ================================================================== *)

Lemma ascii_lower_idem c : ascii_lower (ascii_lower c) = ascii_lower c.
Proof. destruct c as [[] [] [] [] [] [] [] []]; reflexivity. Qed.

Lemma lower_idem s : lower (lower s) = lower s.
Proof.
  induction s as [| c s IH]; simpl; [reflexivity |].
  rewrite ascii_lower_idem, IH. reflexivity.
Qed.

Lemma str_in_In x l : str_in x l = true <-> In x l.
Proof.
  unfold str_in. rewrite existsb_exists. split.
  - intros (y & Hy & E). apply String.eqb_eq in E. subst. exact Hy.
  - intro H. exists x. split; [exact H | apply String.eqb_refl].
Qed.

(** X1.  The security level a provider keeps is always one of "low",
    "medium" and "high": the requested level in lower case when that is
    one of the three, and "medium" for every other string.  Checking a
    checked level changes nothing, and the letter case of the request does
    not matter. *)
Theorem checked_level_normalizes level :
  In (checked_level level) ["low"; "medium"; "high"]
  /\ checked_level (checked_level level) = checked_level level
  /\ checked_level (lower level) = checked_level level
  /\ (In (lower level) ["low"; "medium"; "high"] ->
      checked_level level = lower level)
  /\ (~ In (lower level) ["low"; "medium"; "high"] ->
      checked_level level = "medium").
Proof.
  assert (Hin : In (checked_level level) ["low"; "medium"; "high"]).
  { unfold checked_level.
    destruct (str_in (lower level) ["low"; "medium"; "high"]) eqn:E.
    - apply str_in_In. exact E.
    - right. left. reflexivity. }
  split; [exact Hin |]. split; [| split; [| split]].
  - destruct Hin as [<- | [<- | [<- | []]]]; reflexivity.
  - unfold checked_level. rewrite lower_idem. reflexivity.
  - intro H. unfold checked_level. apply str_in_In in H. rewrite H.
    reflexivity.
  - intro H. unfold checked_level.
    destruct (str_in (lower level) ["low"; "medium"; "high"]) eqn:E;
      [| reflexivity].
    exfalso. apply H, str_in_In, E.
Qed.

(** The level "HIGH" is kept as "high"; "strict" is not a level. *)
Lemma checked_level_witness :
  checked_level "HIGH" = "high" /\ checked_level "strict" = "medium".
Proof.
  split.
  - apply (proj1 (proj2 (proj2 (proj2 (checked_level_normalizes "HIGH"))))).
    vm_compute. right. right. left. reflexivity.
  - apply (proj2 (proj2 (proj2 (proj2 (checked_level_normalizes "strict"))))).
    vm_compute. intros [H | [H | [H | []]]]; discriminate H.
Defined.

(** X2.  [ThreatLevel.from_string] reads back the name of every level,
    does not depend on letter case, and gives [NONE] for every string that
    is not the name of a level. *)
Theorem from_string_reads_names :
  (forall level, from_string (ThreatLevel_name level) = level)
  /\ (forall s, from_string (lower s) = from_string s)
  /\ (forall s,
        ~ In (lower s) ["none"; "low"; "medium"; "high"; "critical"] ->
        from_string s = NONE).
Proof.
  split; [| split].
  - intros []; reflexivity.
  - intro s. unfold from_string. rewrite lower_idem. reflexivity.
  - intros s H. unfold from_string. cbn [dict_get].
    repeat match goal with
           | |- context [(?k =? lower s)%string] =>
               destruct (String.eqb_spec k (lower s)) as [E | _];
               [exfalso; apply H; rewrite <- E; cbn; tauto |]
           end.
    reflexivity.
Qed.

Lemma from_string_witness : from_string "severe" = NONE.
Proof.
  apply (proj2 (proj2 from_string_reads_names)).
  vm_compute. intros [H | [H | [H | [H | [H | []]]]]]; discriminate H.
Defined.

(* ================================================================== *)
(** * Further properties: the isolation providers *)
(* ================================================================== *)

Ltac run_env :=
  unfold cleanup_provider, execute, setup, _create_container, bind, get,
    try_except, emit, lift, set_provider, ret, raise, log_env, log_trace;
  cbn [fst snd].

(** X3.  [IsolationProvider.cleanup] never raises.  On a provider that
    holds no container or process it returns [False], calls nothing and
    changes nothing.  On one that holds a handle it calls the handler, and
    returns [True] and drops the handle exactly when that call returns,
    whatever it returns: [remove_container] of platforms/windows.py
    reports a removal that failed by returning [False], which [cleanup]
    does not look at.  When the call raises, [cleanup] returns [False] and
    keeps the handle.  After a [True] the handle is gone, so a second
    cleanup is a no-op. *)
Theorem provider_cleanup_idempotent w env t :
  (exists b env' t', cleanup_provider w (env, t) = (Ok b, (env', t')))
  /\ (truthy (provider_handle env) = false ->
      cleanup_provider w (env, t) = (Ok false, (env, t)))
  /\ (truthy (provider_handle env) = true ->
      (forall e,
          release w env = Raise e ->
          cleanup_provider w (env, t)
          = (Ok false, (env, (t ++ [release_event env])%list)))
      /\ (release w env = Ok tt ->
          cleanup_provider w (env, t)
          = (Ok true, (released env, (t ++ [release_event env])%list))))
  /\ (forall env' t',
        cleanup_provider w (env, t) = (Ok true, (env', t')) ->
        provider_handle env' = PNone
        /\ cleanup_provider w (env', t') = (Ok false, (env', t')))
  /\ (forall env' t',
        cleanup_provider w (env, t) = (Ok false, (env', t')) -> env' = env).
Proof.
  destruct env as [level id | level process]; run_env;
    cbn [provider_handle release release_event released].
  - destruct (truthy id) eqn:Hid;
      [destruct (remove_container w id) as [[] | e] |]; cbn [fst snd];
      repeat split; eauto; try discriminate;
      intros; try discriminate;
      repeat match goal with
             | H : (_, _) = (_, _) |- _ => injection H as; subst
             end; try reflexivity; try discriminate.
  - destruct (truthy process) eqn:Hp;
      [destruct (terminate_process w process) as [[] | e] |]; cbn [fst snd];
      repeat split; eauto; try discriminate;
      intros; try discriminate;
      repeat match goal with
             | H : (_, _) = (_, _) |- _ => injection H as; subst
             end; try reflexivity; try discriminate.
Qed.

(** A fresh container provider: cleanup has nothing to do. *)
Lemma provider_cleanup_witness :
  cleanup_provider docker_world (ContainerIsolation "high" PNone, [])
  = (Ok false, (ContainerIsolation "high" PNone, [])).
Proof.
  apply (proj1 (proj2 (provider_cleanup_idempotent docker_world
                         (ContainerIsolation "high" PNone) []))).
  reflexivity.
Defined.

Lemma cfg_lookup_raise config key level default e :
  cfg_lookup config key level default = Raise e ->
  exists msg, e = AttributeError msg.
Proof.
  unfold cfg_lookup.
  destruct (dict_get String.eqb config key (CPerLevel [])); [| discriminate].
  intro H. injection H as <-. eexists. reflexivity.
Qed.

(** What [ContainerIsolation.execute] does, by cases. *)
Lemma container_execute_cases w level id path t :
  (truthy id = true /\
   execute w path (ContainerIsolation level id, t)
   = (match execute_in_container w id path with
      | Ok d => Ok (ExecDict d) | Raise e => Raise e
      end,
      (ContainerIsolation level id,
       (t ++ [ExecuteInContainer id path])%list)))
  \/ (truthy id = false /\
      exists msg,
        execute w path (ContainerIsolation level id, t)
        = (Raise (AttributeError msg), (ContainerIsolation level id, t)))
  \/ (truthy id = false /\
      exists mem cpu net e,
        create_container w level mem cpu net = Raise e
        /\ execute w path (ContainerIsolation level id, t)
           = (Raise (RuntimeError "Container creation failed"),
              (ContainerIsolation level id,
               (t ++ [CreateContainer level mem cpu net])%list)))
  \/ (truthy id = false /\
      exists mem cpu net id',
        create_container w level mem cpu net = Ok id'
        /\ execute w path (ContainerIsolation level id, t)
           = (match execute_in_container w id' path with
              | Ok d => Ok (ExecDict d) | Raise e => Raise e
              end,
              (ContainerIsolation level id',
               (t ++ [CreateContainer level mem cpu net;
                      ExecuteInContainer id' path])%list))).
Proof.
  destruct (truthy id) eqn:Hid.
  - left. split; [reflexivity |]. run_env. rewrite Hid. cbn [negb fst snd].
    destruct (execute_in_container w id path); reflexivity.
  - right. run_env. rewrite Hid. cbn [negb fst snd].
    set (config := match resource_limits w with Ok c => c | Raise _ => [] end).
    destruct (cfg_lookup config "memory_mb" level (PInt 256)) as [mem | e1]
      eqn:H1.
    2:{ left. split; [reflexivity |].
        destruct (cfg_lookup_raise _ _ _ _ _ H1) as [msg ->].
        exists msg. reflexivity. }
    destruct (cfg_lookup config "cpu_percent" level (PInt 30)) as [cpu | e2]
      eqn:H2.
    2:{ left. split; [reflexivity |].
        destruct (cfg_lookup_raise _ _ _ _ _ H2) as [msg ->].
        exists msg. reflexivity. }
    destruct (cfg_lookup config "network_access" level (PBool false))
      as [net | e3] eqn:H3.
    2:{ left. split; [reflexivity |].
        destruct (cfg_lookup_raise _ _ _ _ _ H3) as [msg ->].
        exists msg. reflexivity. }
    right.
    destruct (create_container w level mem cpu net) as [id' | e] eqn:Hc.
    + right. split; [reflexivity |]. exists mem, cpu, net, id'.
      split; [exact Hc |]. cbn [fst snd].
      rewrite <- app_assoc.
      destruct (execute_in_container w id' path); reflexivity.
    + left. split; [reflexivity |]. exists mem, cpu, net, e.
      split; [exact Hc |]. reflexivity.
Qed.

(* ================================================================== *)
(** * Further properties: the steps of a scan *)
(* ================================================================== *)

(** Once the file is copied, a scan is the execution step on the escalated
    sandbox, then cleanup, then the report. *)
Lemma execute_file_steps w file_path timeout monitor sb t p st1 :
  _prepare_file w file_path (sb, t) = (Ok p, st1) ->
  st1 = (with_dir_exists sb true, snd st1)
  /\ execute_file w file_path timeout monitor (sb, t)
     = match run_step w p timeout monitor (isolation_method sb)
               (escalate (with_dir_exists sb true)
                  (ar_threat_level (analyze w file_path)), snd st1)
       with
       | (Ok (er, mr), st3) =>
           match cleanup w st3 with
           | (Ok _, st4) => (Ok (report_of w file_path er mr (fst st3)), st4)
           | (Raise e, st4) => (Raise e, st4)
           end
       | (Raise e, st3) => (Raise e, st3)
       end.
Proof.
  intro Hprep.
  pose proof (_prepare_file_ok w file_path sb t p st1 Hprep) as K.
  destruct st1 as [sb1 t1]. cbn [fst snd] in K. injection K as ->.
  split; [reflexivity |].
  unfold execute_file, escalate, bind, get, set_security_level, ret.
  rewrite Hprep.
  destruct (negb (Qle_bool (ar_threat_level (analyze w file_path)) 0.2));
    cbn [fst snd isolation_method with_dir_exists];
    match goal with
    | |- context [run_step w p timeout monitor ?m ?s] =>
        destruct (run_step w p timeout monitor m s) as [[[er mr] | e] st3]
    end; try reflexivity;
    destruct (cleanup w st3) as [[[] | e'] st4]; reflexivity.
Qed.

Lemma escalate_frame sb q :
  frame (escalate sb q) = frame sb
  /\ isolation_env (escalate sb q) = isolation_env sb
  /\ process_monitor (escalate sb q) = process_monitor sb.
Proof. unfold escalate. destruct (negb _); repeat split. Qed.

Lemma on_env_keeps_frame {A} (m : M env_state A) : keeps frame (on_env m).
Proof.
  intro s. unfold on_env. destruct (m _) as [r [env' t']]. reflexivity.
Qed.

Lemma on_monitor_keeps_frame {A} (m : M ProcessMonitor A) :
  keeps frame (on_monitor m).
Proof.
  intro s. unfold on_monitor. destruct (m _) as [r mon']. reflexivity.
Qed.

Lemma on_env_keeps_monitor {A} (m : M env_state A) :
  keeps process_monitor (on_env m).
Proof.
  intro s. unfold on_env. destruct (m _) as [r [env' t']]. reflexivity.
Qed.

#[export] Hint Resolve on_env_keeps_frame on_monitor_keeps_frame
  on_env_keeps_monitor : keeps.

Lemma _terminate_execution_keeps {X} (f : Sandbox -> X) w er :
  keeps f (_terminate_execution w er).
Proof. unfold _terminate_execution. repeat keeps_step. Qed.

#[export] Hint Resolve _terminate_execution_keeps : keeps.

Lemma run_step_keeps_frame w p timeout monitor method :
  keeps frame (run_step w p timeout monitor method).
Proof.
  unfold run_step, _execute_in_container, _execute_in_process, monitored_run.
  repeat keeps_step.
  - destruct a; auto with keeps.
  - destruct e; auto with keeps.
Qed.

(** The container branch of the execution step. *)
Lemma run_step_container w p timeout monitor sb t :
  exists er st3,
    run_step w p timeout monitor "container" (sb, t) = (Ok (er, None), st3)
    /\ (isolation_env (fst st3), snd st3)
       = snd (execute w p (isolation_env sb, t))
    /\ match fst (execute w p (isolation_env sb, t)) with
       | Ok (ExecDict d) =>
           er = {| er_status := "completed";
                   er_exit_code := dict_get String.eqb d "exit_code" (PInt 0);
                   er_pid := dict_get String.eqb d "pid" PNone;
                   er_process := PNone |}
       | _ => er = failed_execution
       end.
Proof.
  unfold run_step. cbn [String.eqb Ascii.eqb Bool.eqb].
  unfold _execute_in_container, try_except, bind, on_env, ret, raise.
  cbn [fst snd].
  destruct (execute w p (isolation_env sb, t)) as [[[d | pr out] | e] [env' t']];
    cbn [fst snd]; eexists; eexists; repeat split; reflexivity.
Qed.

(** The other branch when nothing is monitored. *)
Lemma run_step_process_result w p timeout monitor method st er mr st3 :
  (method =? "container")%string = false ->
  run_step w p timeout monitor method st = (Ok (er, mr), st3) ->
  (er = failed_execution \/ (er_status er = "completed" /\ er_exit_code er = PInt 0))
  /\ (monitor = false -> mr = None).
Proof.
  intros Hm. unfold run_step. rewrite Hm.
  unfold _execute_in_process, try_except, bind, ret, lift.
  destruct (on_env (execute w p) st) as [[r | e] s1].
  - destruct (unpack_pair r) as [po | e].
    + destruct (pid_of (fst po)) as [pid | e].
      * cbn [er_pid].
        destruct (monitor && truthy pid) eqn:Hmon.
        -- destruct (monitored_run w _ timeout s1) as [[mr' | e] s2];
             [| discriminate].
           intro H. injection H as <- <- <-. split.
           ++ right. split; reflexivity.
           ++ intros ->. discriminate Hmon.
        -- intro H. injection H as <- <- <-. split; [| reflexivity].
           right. split; reflexivity.
      * cbn [failed_execution er_pid truthy]. rewrite andb_false_r.
        intro H. injection H as <- <- <-. split; [left |]; reflexivity.
    + cbn [failed_execution er_pid truthy]. rewrite andb_false_r.
      intro H. injection H as <- <- <-. split; [left |]; reflexivity.
  - cbn [failed_execution er_pid truthy]. rewrite andb_false_r.
    intro H. injection H as <- <- <-. split; [left |]; reflexivity.
Qed.

(** A scan that returns has copied the file. *)
Lemma execute_file_copied w file_path timeout monitor st rep st' :
  execute_file w file_path timeout monitor st = (Ok rep, st') ->
  exists p st1, _prepare_file w file_path st = (Ok p, st1).
Proof.
  unfold execute_file. intro H.
  apply bind_ok_inv in H as (p & st1 & Hprep & _). eauto.
Qed.

Lemma analyze_hundredths w path :
  round2 (ar_threat_level (analyze w path)) == ar_threat_level (analyze w path).
Proof.
  unfold analyze.
  destruct (negb (exists_ w path)); [reflexivity |].
  destruct (analyze_body w path) as [r | e] eqn:Hbody; [| reflexivity].
  unfold analyze_body in Hbody.
  destruct (getsize w path); [| discriminate].
  destruct (_calculate_hash w path "md5"); [| discriminate].
  destruct (_calculate_hash w path "sha256"); [| discriminate].
  injection Hbody as <-. cbn [ar_threat_level].
  match goal with |- round2 (round2 ?q) == _ => generalize q end.
  intro q. unfold round2 at 2 3.
  set (n := round_half_even (q * 100)).
  unfold round2.
  assert (E : inject_Z n / 100 * 100 == inject_Z n) by field.
  rewrite E, round_half_even_Z. reflexivity.
Qed.

Lemma combined_score_static s :
  0 <= s <= 1 -> round2 s == s -> combined_score s (py_min 0.0 1.0) == s.
Proof.
  intros [H0 H1] Hr. unfold combined_score.
  assert (E : py_min (s + py_min 0.0 1.0) 1.0 == s).
  { assert (E0 : py_min 0.0 1.0 == 0) by reflexivity.
    rewrite E0. unfold py_min. rewrite Q.min_l; lra. }
  rewrite E. exact Hr.
Qed.

(** What a scan that returns has gone through. *)
Lemma execute_file_report w file_path timeout monitor sb t rep st' :
  execute_file w file_path timeout monitor (sb, t) = (Ok rep, st') ->
  exists p t1 er mr st3,
    _prepare_file w file_path (sb, t) = (Ok p, (with_dir_exists sb true, t1))
    /\ run_step w p timeout monitor (isolation_method sb)
         (escalate (with_dir_exists sb true)
            (ar_threat_level (analyze w file_path)), t1)
       = (Ok (er, mr), st3)
    /\ cleanup w st3 = (Ok tt, st')
    /\ rep = report_of w file_path er mr (fst st3).
Proof.
  intro H.
  destruct (execute_file_copied _ _ _ _ _ _ _ H) as (p & st1 & Hprep).
  destruct (execute_file_steps w file_path timeout monitor sb t p st1 Hprep)
    as [E1 E2].
  rewrite E2 in H. rewrite E1 in Hprep.
  destruct (run_step w p timeout monitor (isolation_method sb) _)
    as [[[er mr] | e] st3] eqn:Hrun; [| discriminate].
  destruct (cleanup w st3) as [[[] | e] st4] eqn:Hclean; [| discriminate].
  injection H as <- <-.
  exists p, (snd st1), er, mr, st3. repeat split; assumption.
Qed.

(** X4.  A scan that does not monitor (the container branch, or
    [monitor=False]) reports no activity at all: the monitoring results
    are the empty dictionary, the three activity lists are empty, the
    threats are those of the static analysis and the threat level is the
    static score. *)
Theorem unmonitored_scan_is_static
        w file_path timeout monitor sb t rep st' :
  execute_file w file_path timeout monitor (sb, t) = (Ok rep, st') ->
  isolation_method sb = "container" \/ monitor = false ->
  r_monitoring_results rep = None
  /\ r_file_operations rep = []
  /\ r_network_activity rep = []
  /\ r_registry_operations rep = []
  /\ r_threats rep = static_threats_of (analyze w file_path)
  /\ r_threat_level rep == ar_threat_level (analyze w file_path).
Proof.
  intros H Hcase.
  destruct (execute_file_report _ _ _ _ _ _ _ _ H)
    as (p & t1 & er & mr & st3 & _ & Hrun & _ & ->).
  assert (Hmr : mr = None).
  { destruct (isolation_method sb =? "container")%string eqn:E.
    - apply String.eqb_eq in E. rewrite E in Hrun.
      destruct (run_step_container w p timeout monitor
                  (escalate (with_dir_exists sb true)
                     (ar_threat_level (analyze w file_path))) t1)
        as (er' & st3' & Hrun' & _).
      rewrite Hrun' in Hrun. injection Hrun as _ <- _. reflexivity.
    - destruct Hcase as [Hc | Hm];
        [rewrite Hc in E; discriminate E |].
      apply (proj2 (run_step_process_result _ _ _ _ _ _ _ _ _ E Hrun) Hm). }
  subst mr. unfold report_of.
  cbn [r_monitoring_results r_file_operations r_network_activity
       r_registry_operations r_threats r_threat_level
       get_file_operations get_network_activity get_registry_operations].
  repeat split.
  - unfold analyze_report, all_entries, scan_entries. cbn. apply app_nil_r.
  - unfold analyze_report, all_entries, scan_entries.
    cbn [get_file_operations get_network_activity get_registry_operations
         map app fold_left fst threat_score].
    apply combined_score_static;
      [apply analyze_range | apply analyze_hundredths].
Qed.

(** A container scan on [default_config_world]. *)
Lemma unmonitored_scan_witness :
  exists rep st',
    execute_file default_config_world "/tmp/tool.sh" 300 true
      (fresh_sandbox default_config_world "container" "low"
         (ContainerIsolation "low" PNone))
    = (Ok rep, st')
    /\ r_monitoring_results rep = None
    /\ r_threat_level rep
       == ar_threat_level (analyze default_config_world "/tmp/tool.sh").
Proof.
  destruct (execute_file default_config_world "/tmp/tool.sh" 300 true
              (fresh_sandbox default_config_world "container" "low"
                 (ContainerIsolation "low" PNone)))
    as [[rep | e] st'] eqn:E.
  - exists rep, st'. split; [reflexivity |].
    destruct (unmonitored_scan_is_static _ _ _ _ _ _ _ _ E
                (or_introl eq_refl)) as (H1 & _ & _ & _ & _ & H6).
    split; assumption.
  - vm_compute in E. discriminate E.
Defined.

(** X5.  On the process branch the report never carries the exit status
    of the program: a scan that returns reports either status "completed"
    with exit code 0, or status "failed" with exit code -1. *)
Theorem process_scan_exit_code
        w file_path timeout monitor sb t rep st' :
  execute_file w file_path timeout monitor (sb, t) = (Ok rep, st') ->
  isolation_method sb <> "container" ->
  (r_status rep = "completed" /\ r_exit_code rep = PInt 0)
  \/ (r_status rep = "failed" /\ r_exit_code rep = PInt (-1)).
Proof.
  intros H Hm.
  destruct (execute_file_report _ _ _ _ _ _ _ _ H)
    as (p & t1 & er & mr & st3 & _ & Hrun & _ & ->).
  apply String.eqb_neq in Hm.
  destruct (run_step_process_result _ _ _ _ _ _ _ _ _ Hm Hrun)
    as [[-> | [Hs He]] _]; cbn [report_of r_status r_exit_code].
  - right. split; reflexivity.
  - left. split; assumption.
Qed.

(** The process handler of [exit_world] hands back exit code 3. *)
Lemma process_scan_exit_code_witness :
  exists rep st',
    execute_file exit_world "/tmp/tool.sh" 300 true
      (fresh_sandbox exit_world "process" "low" (ProcessIsolation "low" PNone))
    = (Ok rep, st')
    /\ ((r_status rep = "completed" /\ r_exit_code rep = PInt 0)
        \/ (r_status rep = "failed" /\ r_exit_code rep = PInt (-1))).
Proof.
  destruct (execute_file exit_world "/tmp/tool.sh" 300 true
              (fresh_sandbox exit_world "process" "low"
                 (ProcessIsolation "low" PNone)))
    as [[rep | e] st'] eqn:E.
  - exists rep, st'. split; [reflexivity |].
    apply (process_scan_exit_code _ _ _ _ _ _ _ _ E).
    vm_compute. discriminate.
  - vm_compute in E. discriminate E.
Defined.

(* ================================================================== *)
(** * Further properties: containers *)
(* ================================================================== *)

(** X6.  [ContainerIsolation.execute] creates a container exactly when the
    provider holds none.  A provider that holds one runs the file in it and
    creates nothing.  Otherwise the only file ever run is run in the
    container that [create_container] has just returned, which the
    provider then holds; and when nothing is run, [execute] has raised and
    the provider holds what it held. *)
Theorem container_execute_creates_first w level id path t r env' t' :
  execute w path (ContainerIsolation level id, t) = (r, (env', t')) ->
  exists added,
    t' = (t ++ added)%list
    /\ (truthy id = true ->
        added = [ExecuteInContainer id path]
        /\ env' = ContainerIsolation level id)
    /\ (truthy id = false ->
        forall cid p, In (ExecuteInContainer cid p) added ->
        exists mem cpu net,
          added = [CreateContainer level mem cpu net;
                   ExecuteInContainer cid path]
          /\ create_container w level mem cpu net = Ok cid
          /\ env' = ContainerIsolation level cid)
    /\ (truthy id = false ->
        (forall cid p, ~ In (ExecuteInContainer cid p) added) ->
        is_ok r = false /\ env' = ContainerIsolation level id).
Proof.
  intro H.
  destruct (container_execute_cases w level id path t)
    as [[Hid E] | [[Hid (msg & E)] | [[Hid (mem & cpu & net & e & Hc & E)]
                                   | [Hid (mem & cpu & net & id' & Hc & E)]]]];
    rewrite E in H; injection H as <- <- <-.
  - exists [ExecuteInContainer id path].
    split; [reflexivity |]. split; [auto |].
    split; intro Hf; rewrite Hid in Hf; discriminate.
  - exists []. rewrite app_nil_r. split; [reflexivity |].
    split; [intro Hf; rewrite Hid in Hf; discriminate |].
    split; [intros _ cid p [] | intros _ _; split; reflexivity].
  - exists [CreateContainer level mem cpu net].
    split; [reflexivity |].
    split; [intro Hf; rewrite Hid in Hf; discriminate |].
    split; [intros _ cid p [Hin | []]; discriminate Hin
           | intros _ _; split; reflexivity].
  - exists [CreateContainer level mem cpu net; ExecuteInContainer id' path].
    split; [reflexivity |].
    split; [intro Hf; rewrite Hid in Hf; discriminate |].
    split.
    + intros _ cid p [Hin | [Hin | []]]; [discriminate Hin |].
      injection Hin as <- <-. exists mem, cpu, net. repeat split; assumption.
    + intros _ Hnone. exfalso. apply (Hnone id' path). right. left. reflexivity.
Qed.

(** A provider of [docker_world] that holds container [c0ffee]. *)
Lemma container_execute_witness :
  snd (snd (execute docker_world "/w/a.sh"
              (ContainerIsolation "low" (PStr "c0ffee"), [])))
  = [ExecuteInContainer (PStr "c0ffee") "/w/a.sh"].
Proof.
  destruct (execute docker_world "/w/a.sh"
              (ContainerIsolation "low" (PStr "c0ffee"), []))
    as [r [env' t']] eqn:E.
  destruct (container_execute_creates_first _ _ _ _ _ _ _ _ E)
    as (added & -> & Hold & _).
  destruct (Hold eq_refl) as [-> _]. reflexivity.
Defined.

(** X7.  When one of the three resource limits in the configuration is a
    plain value instead of a mapping from security level to value, as all
    are in the configuration [save_default_config] writes, a container
    provider that holds no container cannot execute anything: [execute]
    raises [AttributeError] before any call on the back end, and the
    provider and the trace stay as they were. *)
Theorem scalar_limit_breaks_container_setup w cfg key v level path t :
  resource_limits w = Ok cfg ->
  In key ["memory_mb"; "cpu_percent"; "network_access"] ->
  dict_get String.eqb cfg key (CPerLevel []) = CScalar v ->
  exists msg,
    execute w path (ContainerIsolation level PNone, t)
    = (Raise (AttributeError msg), (ContainerIsolation level PNone, t)).
Proof.
  intros Hcfg Hkey Hscalar. run_env. cbn [truthy negb fst snd].
  rewrite Hcfg.
  assert (Hraise : forall default,
             cfg_lookup cfg key level default
             = Raise (AttributeError "object has no attribute 'get'")).
  { intro default. unfold cfg_lookup. rewrite Hscalar. reflexivity. }
  destruct (cfg_lookup cfg "memory_mb" level (PInt 256)) as [mem | e1] eqn:H1.
  2:{ destruct (cfg_lookup_raise _ _ _ _ _ H1) as [msg ->].
      exists msg. reflexivity. }
  destruct (cfg_lookup cfg "cpu_percent" level (PInt 30)) as [cpu | e2] eqn:H2.
  2:{ destruct (cfg_lookup_raise _ _ _ _ _ H2) as [msg ->].
      exists msg. reflexivity. }
  destruct (cfg_lookup cfg "network_access" level (PBool false))
    as [net | e3] eqn:H3.
  2:{ destruct (cfg_lookup_raise _ _ _ _ _ H3) as [msg ->].
      exists msg. reflexivity. }
  exfalso.
  destruct Hkey as [<- | [<- | [<- | []]]];
    [rewrite Hraise in H1 | rewrite Hraise in H2 | rewrite Hraise in H3];
    discriminate.
Qed.

(** The default configuration: [memory_mb] is 1024. *)
Lemma scalar_limit_witness :
  exists msg,
    execute default_config_world "/w/a.sh" (ContainerIsolation "medium" PNone, [])
    = (Raise (AttributeError msg), (ContainerIsolation "medium" PNone, [])).
Proof.
  apply (scalar_limit_breaks_container_setup default_config_world
           default_resource_limits "memory_mb" (PInt 1024)).
  - reflexivity.
  - left. reflexivity.
  - reflexivity.
Defined.

(* ================================================================== *)
(** * Further properties: what a scan calls *)
(* ================================================================== *)

Section KeepsTrace.
Context (pick : event -> bool).

Lemma keeps_trace_ret {A} (a : A) : keeps_trace (filter pick) (ret a).
Proof. intro s. reflexivity. Qed.

Lemma keeps_trace_raise {A} e : keeps_trace (filter pick) (@raise _ A e).
Proof. intro s. reflexivity. Qed.

Lemma keeps_trace_lift {A} (r : result A) : keeps_trace (filter pick) (lift r).
Proof. intro s. reflexivity. Qed.

Lemma keeps_trace_get : keeps_trace (filter pick) get.
Proof. intro s. reflexivity. Qed.

Lemma keeps_trace_emit e :
  pick e = false -> keeps_trace (filter pick) (emit log_sandbox e).
Proof.
  intros He s. unfold emit, log_sandbox, log_trace. cbn [fst snd].
  rewrite filter_app. cbn [filter]. rewrite He. apply app_nil_r.
Qed.

Lemma keeps_trace_bind {A B} (m : M sandbox_state A)
      (k : A -> M sandbox_state B) :
  keeps_trace (filter pick) m -> (forall a, keeps_trace (filter pick) (k a)) ->
  keeps_trace (filter pick) (bind m k).
Proof.
  intros Hm Hk s. unfold bind. specialize (Hm s).
  destruct (m s) as [[a | e] s1]; cbn [fst snd] in *; [| exact Hm].
  rewrite <- Hm. apply Hk.
Qed.

Lemma keeps_trace_try_except {A} (m : M sandbox_state A) h :
  keeps_trace (filter pick) m -> (forall e, keeps_trace (filter pick) (h e)) ->
  keeps_trace (filter pick) (try_except m h).
Proof.
  intros Hm Hh s. unfold try_except. specialize (Hm s).
  destruct (m s) as [[a | e] s1]; cbn [fst snd] in *; [exact Hm |].
  rewrite <- Hm. apply Hh.
Qed.

Lemma keeps_trace_if {A} (b : bool) (m1 m2 : M sandbox_state A) :
  keeps_trace (filter pick) m1 -> keeps_trace (filter pick) m2 ->
  keeps_trace (filter pick) (if b then m1 else m2).
Proof. destruct b; auto. Qed.

Lemma keeps_trace_on_monitor {A} (m : M ProcessMonitor A) :
  keeps_trace (filter pick) (on_monitor m).
Proof.
  intro s. unfold on_monitor. destruct (m _) as [r mon']. reflexivity.
Qed.

Lemma keeps_trace_set_security_level level :
  keeps_trace (filter pick) (set_security_level level).
Proof. intro s. reflexivity. Qed.

Lemma keeps_trace_set_dir_exists b :
  keeps_trace (filter pick) (set_dir_exists b).
Proof. intro s. reflexivity. Qed.

End KeepsTrace.

Create HintDb ktrace.
#[export] Hint Resolve keeps_trace_ret keeps_trace_raise keeps_trace_lift
  keeps_trace_get keeps_trace_on_monitor keeps_trace_set_security_level
  keeps_trace_set_dir_exists : ktrace.

Ltac ktrace_step :=
  first
    [ solve [auto with ktrace]
    | apply keeps_trace_emit; reflexivity
    | apply keeps_trace_bind; [| intro]
    | apply keeps_trace_try_except; [| intro]
    | apply keeps_trace_if ].

Lemma _prepare_file_keeps_trace pick w file_path :
  (forall d, pick (Makedirs d) = false) ->
  (forall a b, pick (Copy a b) = false) ->
  keeps_trace (filter pick) (_prepare_file w file_path).
Proof.
  intros Hm Hc. unfold _prepare_file, shutil_copy, makedirs.
  repeat first [ apply keeps_trace_emit; solve [apply Hm | apply Hc]
               | ktrace_step ].
Qed.

Lemma execute_trace w p env t :
  exists added,
    snd (snd (execute w p (env, t))) = (t ++ added)%list
    /\ forallb is_setup_or_execute added = true.
Proof.
  destruct env as [level id | level process].
  - destruct (container_execute_cases w level id p t)
      as [[_ E] | [[_ (msg & E)] | [[_ (mem & cpu & net & e & _ & E)]
                                 | [_ (mem & cpu & net & id' & _ & E)]]]];
      rewrite E; cbn [snd]; eexists; split;
        try reflexivity; try (symmetry; apply app_nil_r); reflexivity.
  - run_env.
    destruct (execute_isolated w p level) as [[pr out] | e]; cbn [fst snd];
      exists [ExecuteIsolated p level]; split; reflexivity.
Qed.

Lemma on_env_execute_keeps_cleanup_calls w p :
  keeps_trace (filter is_cleanup_call) (on_env (execute w p)).
Proof.
  intros [sb t]. unfold on_env. cbn [fst snd].
  destruct (execute_trace w p (isolation_env sb) t) as (added & E & Hadd).
  destruct (execute w p (isolation_env sb, t)) as [r [env' t']].
  cbn [fst snd] in *. subst t'. rewrite filter_app.
  assert (Hnone : filter is_cleanup_call added = []).
  { clear -Hadd. induction added as [| e l IH]; [reflexivity |].
    cbn [forallb] in Hadd. apply andb_prop in Hadd as [He Hl].
    cbn [filter]. destruct e; try discriminate He; cbn; apply IH, Hl. }
  rewrite Hnone. apply app_nil_r.
Qed.

#[export] Hint Resolve on_env_execute_keeps_cleanup_calls : ktrace.

Lemma run_step_keeps_cleanup_calls w p timeout monitor method :
  keeps_trace (filter is_cleanup_call) (run_step w p timeout monitor method).
Proof.
  unfold run_step, _execute_in_container, _execute_in_process, monitored_run,
    _terminate_execution.
  repeat ktrace_step.
  - destruct a; auto with ktrace.
  - destruct e; auto with ktrace. repeat ktrace_step.
Qed.

Lemma provider_cleanup_trace w env t :
  exists added,
    snd (snd (cleanup_provider w (env, t))) = (t ++ added)%list
    /\ forallb is_cleanup_call added = true.
Proof.
  destruct env as [level id | level process]; run_env.
  - destruct (truthy id);
      [destruct (remove_container w id) as [[] | e] |]; cbn [fst snd];
      eexists; split; try reflexivity;
      try (symmetry; apply app_nil_r); reflexivity.
  - destruct (truthy process);
      [destruct (terminate_process w process) as [[] | e] |]; cbn [fst snd];
      eexists; split; try reflexivity;
      try (symmetry; apply app_nil_r); reflexivity.
Qed.

(** What [Sandbox.cleanup] appends to the trace. *)
Lemma cleanup_trace w sb t :
  exists added,
    snd (snd (cleanup w (sb, t))) = (t ++ added)%list
    /\ forallb is_cleanup_call added = true
    /\ (dir_exists sb = true -> In (Rmtree (sandbox_dir sb)) added).
Proof.
  unfold cleanup, try_except, bind, get, emit, lift, ret, set_dir_exists,
    on_env, log_sandbox, log_trace.
  cbn [fst snd].
  destruct (dir_exists sb) eqn:Hdir; cbn [fst snd].
  - destruct (rmtree_result w) as [[] | e]; cbn [fst snd].
    + cbn [isolation_env].
      destruct (provider_cleanup_trace w (isolation_env sb)
                  (t ++ [Rmtree (sandbox_dir sb)])%list)
        as (added & E & Hadd).
      destruct (cleanup_provider w _) as [[b | e] [env' t']];
        cbn [fst snd] in *; subst t';
        exists (Rmtree (sandbox_dir sb) :: added);
        (split; [rewrite <- app_assoc; reflexivity |]);
        (split; [cbn [forallb is_cleanup_call]; exact Hadd
                | intros _; left; reflexivity]).
    + exists [Rmtree (sandbox_dir sb)].
      split; [reflexivity |]. split; [reflexivity |]. intros _. left. reflexivity.
  - destruct (provider_cleanup_trace w (isolation_env sb) t)
      as (added & E & Hadd).
    destruct (cleanup_provider w _) as [[b | e] [env' t']];
      cbn [fst snd] in *; subst t';
      exists added; (split; [reflexivity |]);
      (split; [exact Hadd | intro Hf; discriminate Hf]).
Qed.

(** The failure of the look-up of a plain limit, for use below. *)
Lemma scalar_limit_raises w cfg key v level path t :
  resource_limits w = Ok cfg ->
  In key ["memory_mb"; "cpu_percent"; "network_access"] ->
  dict_get String.eqb cfg key (CPerLevel []) = CScalar v ->
  exists msg,
    execute w path (ContainerIsolation level PNone, t)
    = (Raise (AttributeError msg), (ContainerIsolation level PNone, t)).
Proof.
  intros Hcfg Hkey Hscalar. run_env. cbn [truthy negb fst snd].
  rewrite Hcfg.
  assert (Hraise : forall default,
             cfg_lookup cfg key level default
             = Raise (AttributeError "object has no attribute 'get'")).
  { intro default. unfold cfg_lookup. rewrite Hscalar. reflexivity. }
  destruct (cfg_lookup cfg "memory_mb" level (PInt 256)) as [mem | e1] eqn:H1.
  2:{ destruct (cfg_lookup_raise _ _ _ _ _ H1) as [msg ->].
      exists msg. reflexivity. }
  destruct (cfg_lookup cfg "cpu_percent" level (PInt 30)) as [cpu | e2] eqn:H2.
  2:{ destruct (cfg_lookup_raise _ _ _ _ _ H2) as [msg ->].
      exists msg. reflexivity. }
  destruct (cfg_lookup cfg "network_access" level (PBool false))
    as [net | e3] eqn:H3.
  2:{ destruct (cfg_lookup_raise _ _ _ _ _ H3) as [msg ->].
      exists msg. reflexivity. }
  exfalso.
  destruct Hkey as [<- | [<- | [<- | []]]];
    [rewrite Hraise in H1 | rewrite Hraise in H2 | rewrite Hraise in H3];
    discriminate.
Qed.

(** X8.  A sandbox asked for "container" isolation that was given the
    process provider (the selector's fallback) cannot complete a scan: the
    file is handed to [execute_isolated], and whatever that does the
    report says status "failed", exit code -1, and nothing is monitored. *)
Theorem fallback_scan_reports_failure
        w file_path timeout monitor sb t level process p st1 :
  isolation_method sb = "container" ->
  isolation_env sb = ProcessIsolation level process ->
  _prepare_file w file_path (sb, t) = (Ok p, st1) ->
  exists rep st',
    execute_file w file_path timeout monitor (sb, t) = (Ok rep, st')
    /\ r_status rep = "failed"
    /\ r_exit_code rep = PInt (-1)
    /\ r_monitoring_results rep = None
    /\ In (ExecuteIsolated p level) (snd st').
Proof.
  intros Hmethod Henv Hprep.
  destruct (execute_file_steps w file_path timeout monitor sb t p _ Hprep)
    as [_ E].
  destruct st1 as [sb0 t1]. cbn [snd] in E. rewrite Hmethod in E.
  set (sb1 := escalate (with_dir_exists sb true)
                (ar_threat_level (analyze w file_path))) in *.
  destruct (run_step_container w p timeout monitor sb1 t1)
    as (er & st3 & Hrun & Hstate & Her).
  rewrite Hrun in E.
  assert (Henv1 : isolation_env sb1 = ProcessIsolation level process).
  { subst sb1. rewrite (proj1 (proj2 (escalate_frame _ _))). exact Henv. }
  rewrite Henv1 in Hstate, Her.
  assert (Hexec : exists r env',
             execute w p (ProcessIsolation level process, t1)
             = (r, (env', (t1 ++ [ExecuteIsolated p level])%list))
             /\ match r with Ok (ExecDict _) => False | _ => True end).
  { run_env. destruct (execute_isolated w p level) as [[pr out] | e];
      cbn [fst snd]; eexists; eexists; split; try reflexivity; exact I. }
  destruct Hexec as (r & env' & Hexec & Hr). rewrite Hexec in Hstate, Her.
  cbn [fst snd] in Hstate, Her.
  assert (Hfailed : er = failed_execution).
  { destruct r as [[d | pr out] | e]; [destruct Hr | exact Her | exact Her]. }
  subst er.
  destruct st3 as [sb3 t3]. cbn [fst snd] in Hstate.
  injection Hstate as _ Ht3.
  destruct (cleanup_trace w sb3 t3) as (added & Hadd & _).
  destruct (cleanup w (sb3, t3)) as [[[] | e] st4] eqn:Hclean.
  - eexists. exists st4. split; [exact E |].
    cbn [report_of r_status r_exit_code r_monitoring_results failed_execution
         er_status er_exit_code].
    repeat split.
    cbn [snd] in Hadd. rewrite Hadd, Ht3.
    apply in_or_app. left. apply in_or_app. right. left. reflexivity.
  - destruct (cleanup_returns w (sb3, t3)) as (s' & Hc).
    rewrite Hc in Hclean. discriminate Hclean.
Qed.

(** On [tool_world] the selector answers a request for a container with
    the process provider; the scan runs the file and reports failure. *)
Lemma fallback_scan_witness :
  fst (get_isolation_environment tool_world "container" "low" [])
  = Ok (ProcessIsolation "low" PNone)
  /\ exists rep st',
       execute_file tool_world "/tmp/tool.sh" 300 true
         (fresh_sandbox tool_world "container" "low"
            (ProcessIsolation "low" PNone))
       = (Ok rep, st')
       /\ r_status rep = "failed"
       /\ r_exit_code rep = PInt (-1)
       /\ r_monitoring_results rep = None
       /\ In (ExecuteIsolated
                "/home/user/.saferun/sandbox/0b0c7f3e-sandbox/files/tool.sh"
                "low") (snd st').
Proof.
  split; [vm_compute; reflexivity |].
  eapply (fallback_scan_reports_failure tool_world "/tmp/tool.sh" 300 true
            _ [] "low" PNone).
  - reflexivity.
  - reflexivity.
  - vm_compute. reflexivity.
Defined.

Lemma cleanup_keeps_isolation_calls w s :
  isolation_calls (snd (snd (cleanup w s))) = isolation_calls (snd s).
Proof.
  destruct s as [sb t].
  destruct (cleanup_trace w sb t) as (added & -> & Hadd & _).
  cbn [snd]. unfold isolation_calls. rewrite filter_app.
  assert (Hnone : filter is_setup_or_execute added = []).
  { clear -Hadd. induction added as [| e l IH]; [reflexivity |].
    cbn [forallb] in Hadd. apply andb_prop in Hadd as [He Hl].
    cbn [filter]. destruct e; try discriminate He; cbn; apply IH, Hl. }
  rewrite Hnone. apply app_nil_r.
Qed.

(** X9.  With such a configuration (one resource limit a plain value, as
    in the default configuration file) every container scan of a file that
    can be copied returns a report with status "failed" and exit code -1,
    without a single set-up or execute call on the back end. *)
Theorem default_config_container_scan_fails
        w cfg key v file_path timeout monitor sb t level p st1 :
  resource_limits w = Ok cfg ->
  In key ["memory_mb"; "cpu_percent"; "network_access"] ->
  dict_get String.eqb cfg key (CPerLevel []) = CScalar v ->
  isolation_method sb = "container" ->
  isolation_env sb = ContainerIsolation level PNone ->
  _prepare_file w file_path (sb, t) = (Ok p, st1) ->
  exists rep st',
    execute_file w file_path timeout monitor (sb, t) = (Ok rep, st')
    /\ r_status rep = "failed"
    /\ r_exit_code rep = PInt (-1)
    /\ isolation_calls (snd st') = isolation_calls t.
Proof.
  intros Hcfg Hkey Hscalar Hmethod Henv Hprep.
  destruct (execute_file_steps w file_path timeout monitor sb t p _ Hprep)
    as [_ E].
  destruct st1 as [sb0 t1]. cbn [snd] in E. rewrite Hmethod in E.
  set (sb1 := escalate (with_dir_exists sb true)
                (ar_threat_level (analyze w file_path))) in *.
  destruct (run_step_container w p timeout monitor sb1 t1)
    as (er & st3 & Hrun & Hstate & Her).
  rewrite Hrun in E.
  assert (Henv1 : isolation_env sb1 = ContainerIsolation level PNone).
  { subst sb1. rewrite (proj1 (proj2 (escalate_frame _ _))). exact Henv. }
  rewrite Henv1 in Hstate, Her.
  destruct (scalar_limit_raises w cfg key v level p t1 Hcfg Hkey Hscalar)
    as (msg & Hexec).
  rewrite Hexec in Hstate, Her. cbn [fst snd] in Hstate, Her. subst er.
  destruct st3 as [sb3 t3]. cbn [fst snd] in Hstate.
  injection Hstate as _ Ht3. subst t3.
  pose proof (cleanup_keeps_isolation_calls w (sb3, t1)) as Hcalls.
  destruct (cleanup w (sb3, t1)) as [[[] | e] st4] eqn:Hclean.
  - eexists. exists st4. split; [exact E |].
    cbn [report_of r_status r_exit_code failed_execution er_status
         er_exit_code].
    repeat split. cbn [snd] in Hcalls. rewrite Hcalls.
    pose proof (_prepare_file_keeps_trace is_setup_or_execute w file_path
                  (fun _ => eq_refl) (fun _ _ => eq_refl) (sb, t)) as K.
    rewrite Hprep in K. exact K.
  - destruct (cleanup_returns w (sb3, t1)) as (s' & Hc).
    rewrite Hc in Hclean. discriminate Hclean.
Qed.

(** A container scan with the default configuration file. *)
Lemma default_config_scan_witness :
  exists rep st',
    execute_file default_config_world "/tmp/tool.sh" 300 true
      (fresh_sandbox default_config_world "container" "medium"
         (ContainerIsolation "medium" PNone))
    = (Ok rep, st')
    /\ r_status rep = "failed"
    /\ r_exit_code rep = PInt (-1)
    /\ isolation_calls (snd st') = [].
Proof.
  eapply (default_config_container_scan_fails default_config_world
           default_resource_limits "memory_mb" (PInt 1024)
           "/tmp/tool.sh" 300 true _ [] "medium").
  - reflexivity.
  - left. reflexivity.
  - reflexivity.
  - reflexivity.
  - reflexivity.
  - vm_compute. reflexivity.
Defined.

(* ================================================================== *)
(** * Further properties: cleaning up *)
(* ================================================================== *)

(** X10.  [Sandbox.cleanup] never raises.  When removing the workspace and
    releasing the provider's handle succeed, a second cleanup calls nothing
    and changes nothing. *)
Theorem sandbox_cleanup_idempotent w s :
  (exists s1, cleanup w s = (Ok tt, s1))
  /\ (rmtree_result w = Ok tt ->
      (forall id, remove_container w id = Ok tt) ->
      (forall process, terminate_process w process = Ok tt) ->
      forall s1, cleanup w s = (Ok tt, s1) -> cleanup w s1 = (Ok tt, s1)).
Proof.
  split.
  - unfold cleanup, try_except.
    match goal with
    | |- context [match ?m s with _ => _ end] =>
        destruct (m s) as [[[] | e] s1]
    end; eexists; reflexivity.
  - intros Hrm Hremove Hterm s1.
    destruct s as [sb t]. destruct sb as [lv me id dir det mon env ex].
    unfold cleanup, try_except, bind, get, emit, lift, ret, set_dir_exists,
      on_env, log_sandbox, log_trace.
    cbn [fst snd dir_exists isolation_env]. rewrite Hrm.
    destruct ex; cbn [fst snd dir_exists isolation_env];
      destruct env as [level cid | level process]; run_env;
      cbn [fst snd];
      [ destruct (truthy cid) eqn:Hh; [rewrite Hremove |]
      | destruct (truthy process) eqn:Hh; [rewrite Hterm |]
      | destruct (truthy cid) eqn:Hh; [rewrite Hremove |]
      | destruct (truthy process) eqn:Hh; [rewrite Hterm |] ];
      cbn [fst snd]; intro H; injection H as <-;
      cbn [fst snd dir_exists isolation_env truthy];
      rewrite ?Hh; reflexivity.
Qed.

(** A sandbox of [docker_world] that holds container [c0ffee]. *)
Lemma sandbox_cleanup_witness :
  exists s1,
    cleanup docker_world
      (fresh_sandbox docker_world "container" "low"
         (ContainerIsolation "low" (PStr "c0ffee")))
    = (Ok tt, s1)
    /\ snd s1 = [Rmtree "/home/user/.saferun/sandbox/0b0c7f3e-sandbox";
                 RemoveContainer (PStr "c0ffee")]
    /\ cleanup docker_world s1 = (Ok tt, s1).
Proof.
  destruct (sandbox_cleanup_idempotent docker_world
              (fresh_sandbox docker_world "container" "low"
                 (ContainerIsolation "low" (PStr "c0ffee"))))
    as [(s1 & E) Hidem].
  exists s1. split; [exact E |]. split.
  - vm_compute in E. injection E as <-. reflexivity.
  - apply Hidem; try reflexivity. exact E.
Defined.

(** X11.  When the workspace exists and removing it raises, [cleanup]
    swallows the exception and stops there: the provider's [cleanup] is
    not called, so a container or process it holds is left as it is. *)
Theorem failed_rmtree_skips_provider_cleanup w sb t e :
  dir_exists sb = true ->
  rmtree_result w = Raise e ->
  cleanup w (sb, t) = (Ok tt, (sb, (t ++ [Rmtree (sandbox_dir sb)])%list)).
Proof.
  intros Hdir Hrm.
  unfold cleanup, try_except, bind, get, emit, lift, ret, log_sandbox,
    log_trace.
  cbn [fst snd]. rewrite Hdir, Hrm. reflexivity.
Qed.

(** On [sticky_world] container [c0ffee] is never removed. *)
Lemma failed_rmtree_witness :
  cleanup sticky_world
    (fresh_sandbox sticky_world "container" "low"
       (ContainerIsolation "low" (PStr "c0ffee")))
  = (Ok tt,
     (fst (fresh_sandbox sticky_world "container" "low"
             (ContainerIsolation "low" (PStr "c0ffee"))),
      [Rmtree "/home/user/.saferun/sandbox/0b0c7f3e-sandbox"])).
Proof.
  exact (failed_rmtree_skips_provider_cleanup sticky_world
           (fst (fresh_sandbox sticky_world "container" "low"
                   (ContainerIsolation "low" (PStr "c0ffee"))))
           [] (PermissionError "sandbox") eq_refl eq_refl).
Defined.

(** X12.  A scan that returns a report has called [shutil.rmtree] on the
    sandbox directory, also when the directory was gone before the scan:
    copying the file creates it again. *)
Theorem returning_scan_removes_workspace
        w file_path timeout monitor sb t rep st' :
  execute_file w file_path timeout monitor (sb, t) = (Ok rep, st') ->
  In (Rmtree (sandbox_dir sb)) (snd st').
Proof.
  intros H.
  destruct (execute_file_report _ _ _ _ _ _ _ _ H)
    as (p & t1 & er & mr & st3 & _ & Hrun & Hclean & _).
  pose proof (run_step_keeps_frame w p timeout monitor (isolation_method sb)
                (escalate (with_dir_exists sb true)
                   (ar_threat_level (analyze w file_path)), t1))
    as K.
  rewrite Hrun in K. cbn [fst snd] in K.
  rewrite (proj1 (escalate_frame _ _)) in K.
  unfold frame in K.
  cbn [with_dir_exists isolation_method sandbox_id sandbox_dir dir_exists]
    in K.
  injection K as _ _ Hd He _.
  destruct st3 as [sb3 t3]. cbn [fst] in Hd, He.
  destruct (cleanup_trace w sb3 t3) as (added & Hadd & _ & Hin).
  rewrite Hclean in Hadd. cbn [snd] in Hadd. rewrite Hadd.
  apply in_or_app. right. rewrite <- Hd. apply Hin. exact He.
Qed.

(** The scan of [tool_world]. *)
Lemma returning_scan_witness :
  exists rep st',
    execute_file tool_world "/tmp/tool.sh" 300 true
      (fresh_sandbox tool_world "process" "low" (ProcessIsolation "low" PNone))
    = (Ok rep, st')
    /\ In (Rmtree "/home/user/.saferun/sandbox/0b0c7f3e-sandbox") (snd st').
Proof.
  destruct (execute_file tool_world "/tmp/tool.sh" 300 true
              (fresh_sandbox tool_world "process" "low"
                 (ProcessIsolation "low" PNone)))
    as [[rep | e] st'] eqn:E.
  - exists rep, st'. split; [reflexivity |].
    apply (returning_scan_removes_workspace _ _ _ _ _ _ _ _ E).
  - vm_compute in E. discriminate E.
Defined.

(** X13.  A scan that raises has not run the sandbox's [cleanup]: neither
    [shutil.rmtree], nor [remove_container], nor [terminate_process] of
    the back end has been called by it (a process whose wait timed out may
    have been terminated by the sandbox itself, which is no part of
    [cleanup]).  The sandbox directory is left behind: it exists when it
    existed before, and also when the workspace could be written, for then
    the copy has created it. *)
Theorem raising_scan_skips_cleanup
        w file_path timeout monitor sb t e st' :
  execute_file w file_path timeout monitor (sb, t) = (Raise e, st') ->
  cleanup_calls (snd st') = cleanup_calls t
  /\ sandbox_dir (fst st') = sandbox_dir sb
  /\ dir_exists (fst st') = (dir_exists sb || workspace_writable w).
Proof.
  intro H.
  pose proof (_prepare_file_keeps_trace is_cleanup_call w file_path
                (fun _ => eq_refl) (fun _ _ => eq_refl) (sb, t)) as Kt.
  pose proof (_prepare_file_sandbox w file_path sb t) as Ks.
  destruct (_prepare_file w file_path (sb, t)) as [[p | e0] st1] eqn:Hprep.
  - rewrite (_prepare_file_ok_writable _ _ _ _ _ Hprep) in *.
    destruct (execute_file_steps w file_path timeout monitor sb t p st1 Hprep)
      as [E1 E2].
    rewrite E2 in H. clear E2.
    pose proof (run_step_keeps_cleanup_calls w p timeout monitor
                  (isolation_method sb)
                  (escalate (with_dir_exists sb true)
                     (ar_threat_level (analyze w file_path)),
                   snd st1)) as Rt.
    pose proof (run_step_keeps_frame w p timeout monitor (isolation_method sb)
                  (escalate (with_dir_exists sb true)
                     (ar_threat_level (analyze w file_path)),
                   snd st1)) as Rf.
    destruct (run_step w p timeout monitor (isolation_method sb) _)
      as [[[er mr] | e1] st3].
    + destruct (cleanup_returns w st3) as (s4 & Hc). rewrite Hc in H.
      discriminate H.
    + injection H as <- <-. cbn [fst snd] in *.
      rewrite (proj1 (escalate_frame _ _)) in Rf.
      unfold frame in Rf.
      cbn [with_dir_exists isolation_method sandbox_id sandbox_dir
           dir_exists] in Rf.
      injection Rf as _ _ Hd He _.
      unfold cleanup_calls. rewrite Rt, Kt, orb_true_r.
      repeat split; assumption.
  - unfold execute_file in H. rewrite (bind_raise _ _ _ _ _ Hprep) in H.
    injection H as <- <-. cbn [fst snd] in *.
    unfold cleanup_calls. rewrite Kt, Ks.
    destruct (workspace_writable w);
      [rewrite orb_true_r | rewrite orb_false_r]; repeat split.
Qed.

(** A scan of a file that [tool_world] does not hold. *)
Lemma raising_scan_witness :
  exists e st',
    execute_file tool_world "/tmp/absent.bin" 300 true
      (fresh_sandbox tool_world "process" "low" (ProcessIsolation "low" PNone))
    = (Raise e, st')
    /\ cleanup_calls (snd st') = []
    /\ dir_exists (fst st') = true.
Proof.
  destruct (execute_file tool_world "/tmp/absent.bin" 300 true
              (fresh_sandbox tool_world "process" "low"
                 (ProcessIsolation "low" PNone)))
    as [[rep | e] st'] eqn:E.
  - vm_compute in E. discriminate E.
  - exists e, st'. split; [reflexivity |].
    destruct (raising_scan_skips_cleanup _ _ _ _ _ _ _ _ E) as (H1 & _ & H3).
    split; [exact H1 | exact H3].
Defined.

(* ================================================================== *)
(** * Further properties: the process monitor *)
(* ================================================================== *)

Section MonitorScores.
Variable w : World.

Lemma add_points_matches patterns s points score :
  add_points patterns s points score
  = (score + points * matches patterns s)%Z.
Proof.
  unfold add_points, matches. revert score.
  induction patterns as [| p patterns IH]; intro score; cbn [fold_left filter].
  - cbn. lia.
  - rewrite IH. destruct (contains p s); cbn [List.length]; lia.
Qed.

Lemma matches_nonneg patterns s : (0 <= matches patterns s)%Z.
Proof. unfold matches. lia. Qed.

Lemma Zsum_snoc {A} (f : A -> Z) l x :
  Zsum (map f (l ++ [x])) = (Zsum (map f l) + f x)%Z.
Proof.
  induction l as [| y l IH]; cbn [app map Zsum fold_right] in *; [lia |].
  unfold Zsum in IH. rewrite IH. lia.
Qed.

Lemma score_step_refl strict m : score_step strict m m.
Proof. repeat split; lia. Qed.

Lemma score_step_trans strict m1 m2 m3 :
  score_step strict m1 m2 -> score_step strict m2 m3 -> score_step strict m1 m3.
Proof.
  intros (P1 & S1 & A1 & E1) (P2 & S2 & A2 & E2).
  repeat split; try congruence; try lia.
  intro Hs. specialize (E1 Hs). specialize (E2 Hs). lia.
Qed.

Lemma file_step_score m path : score_step true m (file_step w m path).
Proof.
  unfold file_step.
  destruct (negb (existsb _ (file_accesses m))); [| apply score_step_refl].
  unfold score_step, accounted.
  cbn [set_threat_score append_file_access pm_platform pm_threat_score
       file_accesses network_connections registry_activities].
  rewrite add_points_matches, Zsum_snoc. cbn [fa_path].
  pose proof (matches_nonneg suspicious_files path).
  repeat split; lia.
Qed.

Lemma network_step_score m conn : score_step false m (network_step w m conn).
Proof.
  unfold network_step.
  destruct (conn_raddr conn) as [[ip port] |]; [| apply score_step_refl].
  destruct (conn_status conn =? "ESTABLISHED")%string;
    [| apply score_step_refl].
  pose proof (matches_nonneg suspicious_network (remote_of ip port)).
  destruct (negb (existsb _ (network_connections m)));
    unfold score_step, accounted;
    cbn [set_threat_score append_network_connection pm_platform
         pm_threat_score file_accesses network_connections
         registry_activities];
    rewrite add_points_matches, ?Zsum_snoc; cbn [nc_remote];
    repeat split; try lia; intro Hf; discriminate Hf.
Qed.

Lemma registry_step_score m dll : score_step true m (registry_step w m dll).
Proof.
  unfold registry_step.
  destruct (contains "advapi32.dll" (lower dll)); [| apply score_step_refl].
  destruct (negb (existsb _ (registry_activities m)));
    [| apply score_step_refl].
  unfold score_step, accounted.
  cbn [set_threat_score append_registry_activity pm_platform pm_threat_score
       file_accesses network_connections registry_activities].
  rewrite length_app. cbn [List.length].
  repeat split; lia.
Qed.

Lemma score_step_weaken m m' : score_step true m m' -> score_step false m m'.
Proof.
  intros (P & S & A & E). repeat split; try assumption.
  intro Hf. discriminate Hf.
Qed.

Lemma fold_score_step {A} strict (step : ProcessMonitor -> A -> ProcessMonitor) :
  (forall m a, score_step strict m (step m a)) ->
  forall l m, score_step strict m (fold_left step l m).
Proof.
  intros Hstep l. induction l as [| a l IH]; intro m; cbn [fold_left].
  - apply score_step_refl.
  - eapply score_step_trans; [apply Hstep | apply IH].
Qed.

Lemma poll_score obs m m' :
  poll w obs m = Some m' ->
  score_step false m m' /\ (quiet_pass obs -> score_step true m m').
Proof.
  unfold poll. destruct (obs_is_running obs) as [[] |]; try discriminate.
  intro H. injection H as <-.
  assert (Hfile : score_step true m (_monitor_file_activity w obs m)).
  { unfold _monitor_file_activity.
    destruct (obs_open_files obs); [| apply score_step_refl].
    destruct (keys_renamed m); [apply score_step_refl |].
    apply fold_score_step, file_step_score. }
  set (m1 := _monitor_file_activity w obs m) in *.
  assert (Hnet : score_step false m1 (_monitor_network_activity w obs m1)
                 /\ (quiet_pass obs ->
                     _monitor_network_activity w obs m1 = m1)).
  { unfold _monitor_network_activity, quiet_pass.
    destruct (obs_connections obs) as [[| c l] | e].
    - destruct (keys_renamed m1);
        (split; [apply score_step_refl | reflexivity]).
    - destruct (keys_renamed m1);
        (split; [first [apply score_step_refl
                       | apply fold_score_step, network_step_score]
                | intros []]).
    - split; [apply score_step_refl | reflexivity]. }
  destruct Hnet as [Hnet Hquiet].
  set (m2 := _monitor_network_activity w obs m1) in *.
  assert (Hreg : forall m0,
             score_step true m0
               (if (pm_platform m0 =? "Windows")%string
                then _monitor_registry_activity w obs m0 else m0)).
  { intro m0. destruct (_ =? "Windows")%string; [| apply score_step_refl].
    unfold _monitor_registry_activity.
    destruct (obs_memory_maps obs); [| apply score_step_refl].
    destruct (keys_renamed m0); [apply score_step_refl |].
    apply fold_score_step, registry_step_score. }
  split.
  - eapply score_step_trans; [apply score_step_weaken, Hfile |].
    eapply score_step_trans; [apply Hnet |].
    apply score_step_weaken, Hreg.
  - intro Hq. eapply score_step_trans; [apply Hfile |].
    subst m2. rewrite (Hquiet Hq). apply Hreg.
Qed.

Lemma _monitor_process_score passes m :
  score_step false m (_monitor_process w passes m)
  /\ (no_connections passes -> score_step true m (_monitor_process w passes m)).
Proof.
  revert m. induction passes as [| obs passes IH]; intro m;
    cbn [_monitor_process].
  - split; [| intros _]; apply score_step_refl.
  - destruct (poll w obs m) as [m' |] eqn:E.
    + destruct (poll_score obs m m' E) as [H1 H2].
      destruct (IH m') as [I1 I2]. split.
      * eapply score_step_trans; eassumption.
      * intro Hq. inversion Hq as [| ? ? Hobs Hrest]; subst.
        eapply score_step_trans; [apply H2, Hobs | apply I2, Hrest].
    + split; [| intros _]; apply score_step_refl.
Qed.

End MonitorScores.

(** X14.  The running score of the monitor never decreases, and it is never
    less than what the records account for: 10 points for every sensitive
    pattern in a recorded path, 20 for every suspicious pattern in a
    recorded endpoint and 5 for every registry record.  In a session in
    which no pass observes a connection it is exactly that. *)
Theorem monitor_score_accounts w passes :
  (forall m,
      (pm_threat_score m <= pm_threat_score (_monitor_process w passes m))%Z)
  /\ (accounted (session w passes) <= pm_threat_score (session w passes))%Z
  /\ (no_connections passes ->
      pm_threat_score (session w passes) = accounted (session w passes)).
Proof.
  split; [| split].
  - intro m.
    destruct (_monitor_process_score w passes m) as [(_ & H & _) _]. exact H.
  - destruct (_monitor_process_score w passes (new_monitor w))
      as [(_ & _ & H & _) _].
    unfold session. change (accounted (new_monitor w)) with 0%Z in H.
    change (pm_threat_score (new_monitor w)) with 0%Z in H. lia.
  - intro Hq.
    destruct (_monitor_process_score w passes (new_monitor w)) as [_ H].
    destruct (H Hq) as (_ & _ & _ & E). specialize (E eq_refl).
    unfold session. change (accounted (new_monitor w)) with 0%Z in E.
    change (pm_threat_score (new_monitor w)) with 0%Z in E. lia.
Qed.

(** Two passes that see a sensitive file, an ordinary one and no
    connection. *)
Lemma monitor_score_witness :
  pm_threat_score
    (session tool_world
       [seen ["/etc/passwd"; "/tmp/notes.txt"] [];
        seen ["/etc/passwd"] []])
  = accounted
      (session tool_world
         [seen ["/etc/passwd"; "/tmp/notes.txt"] [];
          seen ["/etc/passwd"] []]).
Proof.
  apply (proj2 (proj2 (monitor_score_accounts tool_world _))).
  repeat constructor.
Defined.

(** X15.  On a platform other than Windows the monitor never records
    registry activity, whatever modules the process has loaded. *)
Theorem registry_needs_windows w passes m :
  pm_platform m <> "Windows" ->
  registry_activities (_monitor_process w passes m) = registry_activities m.
Proof.
  intro Hp. revert m Hp.
  induction passes as [| obs passes IH]; intros m Hp; cbn [_monitor_process];
    [reflexivity |].
  destruct (poll w obs m) as [m' |] eqn:E; [| reflexivity].
  assert (Hm' : pm_platform m' = pm_platform m
                /\ registry_activities m' = registry_activities m).
  { unfold poll in E. destruct (obs_is_running obs) as [[] |]; try discriminate.
    injection E as <-.
    set (m1 := _monitor_file_activity w obs m).
    set (m2 := _monitor_network_activity w obs m1).
    assert (H1 : step_ok m m1) by apply _monitor_file_activity_ok.
    assert (P1 : pm_platform m1 = pm_platform m).
    { subst m1. unfold _monitor_file_activity.
      destruct (obs_open_files obs) as [l |]; [| reflexivity].
      destruct (keys_renamed m); [reflexivity |].
      destruct (fold_score_step true _ (file_step_score w) l m) as (H & _).
      exact H. }
    assert (P2 : pm_platform m2 = pm_platform m1).
    { subst m2. unfold _monitor_network_activity.
      destruct (obs_connections obs) as [l |]; [| reflexivity].
      destruct (keys_renamed m1); [reflexivity |].
      destruct (fold_score_step false _ (network_step_score w) l m1)
        as (H & _).
      exact H. }
    assert (G1 : registry_activities m1 = registry_activities m).
    { subst m1. unfold _monitor_file_activity.
      destruct (obs_open_files obs) as [files |]; [| reflexivity].
      destruct (keys_renamed m); [reflexivity |].
      clear. revert m. induction files as [| f files IH]; intro m;
        cbn [fold_left]; [reflexivity |].
      rewrite IH. apply (file_step_lists w m f). }
    assert (G2 : registry_activities m2 = registry_activities m1).
    { subst m2. unfold _monitor_network_activity.
      destruct (obs_connections obs) as [conns |]; [| reflexivity].
      destruct (keys_renamed m1); [reflexivity |].
      generalize m1. clear. induction conns as [| c conns IH]; intro m;
        cbn [fold_left]; [reflexivity |].
      rewrite IH. apply (network_step_lists w m c). }
    apply String.eqb_neq in Hp. rewrite P2, P1, Hp.
    split; congruence. }
  destruct Hm' as [P G]. rewrite IH; [exact G |]. rewrite P. exact Hp.
Qed.

(** On Linux a loaded [advapi32.dll] leaves no registry record. *)
Lemma registry_needs_windows_witness :
  registry_activities
    (session tool_world
       [{| obs_is_running := Ok true; obs_open_files := Ok [];
           obs_connections := Ok [];
           obs_memory_maps := Ok ["C:\Windows\System32\ADVAPI32.dll"] |}])
  = [].
Proof.
  apply (registry_needs_windows tool_world _ (new_monitor tool_world)).
  vm_compute. discriminate.
Defined.

(** X16.  Once a pass finds the process not running, or psutil raises
    while asking, the loop is over: nothing observed from that pass on is
    recorded. *)
Theorem monitor_stops_when_process_ends w before obs after m :
  obs_is_running obs <> Ok true ->
  _monitor_process w (before ++ obs :: after) m = _monitor_process w before m.
Proof.
  intro Hdead. revert m.
  induction before as [| o before IH]; intro m; cbn [app _monitor_process].
  - unfold poll. destruct (obs_is_running obs) as [[] |]; try reflexivity.
    exfalso. apply Hdead. reflexivity.
  - destruct (poll w o m); [apply IH | reflexivity].
Qed.

(** The process is gone in the second of three passes. *)
Lemma monitor_stops_witness :
  session tool_world
    ([seen ["/tmp/a"] []]
     ++ {| obs_is_running := Ok false; obs_open_files := Ok ["/etc/passwd"];
           obs_connections := Ok []; obs_memory_maps := Ok [] |}
     :: [seen ["/etc/shadow"] []])
  = session tool_world [seen ["/tmp/a"] []].
Proof.
  apply (monitor_stops_when_process_ends tool_world). discriminate.
Defined.

(** The flags and the pid that [start_monitoring] sets play no part in a
    pass. *)
Lemma fold_set_started {A} (step : ProcessMonitor -> A -> ProcessMonitor)
      pid b :
  (forall m a, step (set_started m pid b) a = set_started (step m a) pid b) ->
  forall l m,
    fold_left step l (set_started m pid b)
    = set_started (fold_left step l m) pid b.
Proof.
  intros Hstep l. induction l as [| a l IH]; intro m; cbn [fold_left];
    [reflexivity |].
  rewrite Hstep. apply IH.
Qed.

Lemma poll_set_started w obs m pid b :
  poll w obs (set_started m pid b)
  = option_map (fun m' => set_started m' pid b) (poll w obs m).
Proof.
  assert (F : forall m, _monitor_file_activity w obs (set_started m pid b)
                        = set_started (_monitor_file_activity w obs m) pid b).
  { intro m0. unfold _monitor_file_activity.
    destruct (obs_open_files obs) as [l |]; [| reflexivity].
    cbn [set_started keys_renamed].
    destruct (keys_renamed m0); [reflexivity |].
    apply fold_set_started. intros m1 path. unfold file_step.
    cbn [set_started file_accesses].
    destruct (negb _); reflexivity. }
  assert (N : forall m, _monitor_network_activity w obs (set_started m pid b)
                        = set_started (_monitor_network_activity w obs m) pid b).
  { intro m0. unfold _monitor_network_activity.
    destruct (obs_connections obs) as [l |]; [| reflexivity].
    cbn [set_started keys_renamed].
    destruct (keys_renamed m0); [reflexivity |].
    apply fold_set_started. intros m1 c. unfold network_step.
    destruct (conn_raddr c) as [[ip port] |]; [| reflexivity].
    destruct (conn_status c =? "ESTABLISHED")%string; [| reflexivity].
    cbn [set_started network_connections].
    destruct (negb _); reflexivity. }
  assert (R : forall m, _monitor_registry_activity w obs (set_started m pid b)
                        = set_started (_monitor_registry_activity w obs m) pid b).
  { intro m0. unfold _monitor_registry_activity.
    destruct (obs_memory_maps obs) as [l |]; [| reflexivity].
    cbn [set_started keys_renamed].
    destruct (keys_renamed m0); [reflexivity |].
    apply fold_set_started. intros m1 d. unfold registry_step.
    destruct (contains _ _); [| reflexivity].
    cbn [set_started registry_activities].
    destruct (negb _); reflexivity. }
  unfold poll. destruct (obs_is_running obs) as [[] |]; try reflexivity.
  cbn [option_map]. rewrite F, N. cbn [set_started pm_platform].
  destruct (pm_platform _ =? "Windows")%string; [apply f_equal, R | reflexivity].
Qed.

Lemma _monitor_process_set_started w passes m pid b :
  _monitor_process w passes (set_started m pid b)
  = set_started (_monitor_process w passes m) pid b.
Proof.
  revert m. induction passes as [| obs passes IH]; intro m;
    cbn [_monitor_process]; [reflexivity |].
  rewrite poll_set_started. destruct (poll w obs m) as [m' |];
    cbn [option_map]; [apply IH | reflexivity].
Qed.

(** Once the keys are renamed a pass changes nothing. *)
Lemma poll_renamed w obs m :
  keys_renamed m = true -> poll w obs m = Some m \/ poll w obs m = None.
Proof.
  intro H. unfold poll. destruct (obs_is_running obs) as [[] |]; auto.
  left. f_equal.
  assert (F : _monitor_file_activity w obs m = m).
  { unfold _monitor_file_activity. rewrite H.
    destruct (obs_open_files obs); reflexivity. }
  rewrite F.
  assert (N : _monitor_network_activity w obs m = m).
  { unfold _monitor_network_activity. rewrite H.
    destruct (obs_connections obs); reflexivity. }
  rewrite N.
  destruct (_ =? "Windows")%string; [| reflexivity].
  unfold _monitor_registry_activity. rewrite H.
  destruct (obs_memory_maps obs); reflexivity.
Qed.

Lemma _monitor_process_renamed w passes m :
  keys_renamed m = true -> _monitor_process w passes m = m.
Proof.
  intro H. induction passes as [| obs passes IH]; cbn [_monitor_process];
    [reflexivity |].
  destruct (poll_renamed w obs m H) as [-> | ->]; [exact IH | reflexivity].
Qed.

(** No pass renames the keys: only [stop_monitoring] does. *)
Lemma fold_keeps_keys {A} (step : ProcessMonitor -> A -> ProcessMonitor) :
  (forall m a, keys_renamed (step m a) = keys_renamed m) ->
  forall l m, keys_renamed (fold_left step l m) = keys_renamed m.
Proof.
  intros Hstep l. induction l as [| a l IH]; intro m; cbn [fold_left];
    [reflexivity |].
  rewrite IH. apply Hstep.
Qed.

Lemma poll_keeps_keys w obs m m' :
  poll w obs m = Some m' -> keys_renamed m' = keys_renamed m.
Proof.
  unfold poll. destruct (obs_is_running obs) as [[] |]; try discriminate.
  intro H. injection H as <-.
  assert (F : forall m0,
             keys_renamed (_monitor_file_activity w obs m0) = keys_renamed m0).
  { intro m0. unfold _monitor_file_activity.
    destruct (obs_open_files obs) as [l |]; [| reflexivity].
    destruct (keys_renamed m0) eqn:E; [exact E |].
    rewrite fold_keeps_keys; [exact E |].
    intros m1 path. unfold file_step. destruct (negb _); reflexivity. }
  assert (N : forall m0,
             keys_renamed (_monitor_network_activity w obs m0)
             = keys_renamed m0).
  { intro m0. unfold _monitor_network_activity.
    destruct (obs_connections obs) as [l |]; [| reflexivity].
    destruct (keys_renamed m0) eqn:E; [exact E |].
    rewrite fold_keeps_keys; [exact E |].
    intros m1 c. unfold network_step.
    destruct (conn_raddr c) as [[ip port] |]; [| reflexivity].
    destruct (conn_status c =? "ESTABLISHED")%string; [| reflexivity].
    destruct (negb _); reflexivity. }
  assert (R : forall m0,
             keys_renamed (_monitor_registry_activity w obs m0)
             = keys_renamed m0).
  { intro m0. unfold _monitor_registry_activity.
    destruct (obs_memory_maps obs) as [l |]; [| reflexivity].
    destruct (keys_renamed m0) eqn:E; [exact E |].
    rewrite fold_keeps_keys; [exact E |].
    intros m1 d. unfold registry_step.
    destruct (contains _ _); [| reflexivity].
    destruct (negb _); reflexivity. }
  destruct (_ =? "Windows")%string; [rewrite R |]; rewrite N; apply F.
Qed.

Lemma _monitor_process_keeps_keys w passes m :
  keys_renamed (_monitor_process w passes m) = keys_renamed m.
Proof.
  revert m. induction passes as [| obs passes IH]; intro m;
    cbn [_monitor_process]; [reflexivity |].
  destruct (poll w obs m) as [m' |] eqn:E; [| reflexivity].
  rewrite IH. apply (poll_keeps_keys w obs m m' E).
Qed.

(** X17.  [start_monitoring] does nothing for a pid that is [None] or 0,
    and lets every exception of psutil other than [NoSuchProcess] out.
    In the first session of a monitor (its keys not yet renamed),
    [stop_monitoring] returns, under the key names of the detector, the
    records and the score of the passes the thread made when the process
    was running, and the records the monitor had when psutil reported the
    process as not running or not existing and no thread was started.
    Either way the keys are renamed from then on, and a monitor whose keys
    are renamed is spent: no pass records or scores anything, and
    [stop_monitoring] returns three empty lists. *)
Theorem monitoring_start_stop w pid m :
  (truthy pid = false -> start_monitoring w pid m = (Ok tt, m))
  /\ (truthy pid = true ->
      forall e, psutil_is_running w pid = Raise e -> e <> NoSuchProcess ->
      exists m', start_monitoring w pid m = (Raise e, m'))
  /\ (truthy pid = true -> log_dir_writable w = true ->
      keys_renamed m = false ->
      psutil_is_running w pid = Ok false
      \/ psutil_is_running w pid = Raise NoSuchProcess ->
      monitoring_thread m = false ->
      exists m',
        bind (start_monitoring w pid) (fun _ => stop_monitoring w) m
        = (Ok {| md_threat_score := pm_threat_score m;
                 file_operations := file_accesses m;
                 network_activity := network_connections m;
                 registry_operations := registry_activities m |}, m')
        /\ keys_renamed m' = true)
  /\ (truthy pid = true -> log_dir_writable w = true ->
      keys_renamed m = false ->
      psutil_is_running w pid = Ok true ->
      exists m',
        bind (start_monitoring w pid) (fun _ => stop_monitoring w) m
        = (Ok {| md_threat_score :=
                   pm_threat_score (_monitor_process w (polling_passes w pid) m);
                 file_operations :=
                   file_accesses (_monitor_process w (polling_passes w pid) m);
                 network_activity :=
                   network_connections
                     (_monitor_process w (polling_passes w pid) m);
                 registry_operations :=
                   registry_activities
                     (_monitor_process w (polling_passes w pid) m) |}, m')
        /\ keys_renamed m' = true)
  /\ (keys_renamed m = true ->
      (forall passes, _monitor_process w passes m = m)
      /\ (truthy pid = true -> log_dir_writable w = true ->
          (exists running, psutil_is_running w pid = Ok running)
          \/ psutil_is_running w pid = Raise NoSuchProcess ->
          exists m',
            bind (start_monitoring w pid) (fun _ => stop_monitoring w) m
            = (Ok {| md_threat_score := pm_threat_score m;
                     file_operations := [];
                     network_activity := [];
                     registry_operations := [] |}, m')
            /\ keys_renamed m' = true)).
Proof.
  split; [| split; [| split; [| split]]].
  - intro Hpid. unfold start_monitoring. rewrite Hpid. reflexivity.
  - intros Hpid e He Hne.
    unfold start_monitoring, bind, get, put, try_except, lift, ret, raise.
    rewrite Hpid, He. cbn [negb].
    destruct e; try (eexists; reflexivity). exfalso. apply Hne. reflexivity.
  - intros Hpid Hlog Hkeys Hrun Hthread.
    unfold start_monitoring, stop_monitoring, bind, get, put, try_except,
      lift, ret, raise, popped.
    rewrite Hpid. cbn [negb].
    destruct Hrun as [-> | ->]; cbn [set_started monitoring_thread];
      rewrite Hthread, Hlog; cbn [set_started keys_renamed]; rewrite Hkeys;
      eexists; split; reflexivity.
  - intros Hpid Hlog Hkeys Hrun.
    unfold start_monitoring, stop_monitoring, bind, get, put, try_except,
      lift, ret, raise, popped.
    rewrite Hpid, Hrun, Hlog. cbn [negb set_started monitoring_thread pm_pid].
    rewrite (_monitor_process_set_started w _ m pid true).
    cbn [set_started keys_renamed].
    rewrite _monitor_process_keeps_keys, Hkeys.
    eexists. split; reflexivity.
  - intro Hkeys. split; [intro passes; apply _monitor_process_renamed, Hkeys |].
    intros Hpid Hlog Hrun.
    assert (Hspent : forall passes b,
               _monitor_process w passes (set_started m pid b)
               = set_started m pid b).
    { intros passes b. apply _monitor_process_renamed. exact Hkeys. }
    unfold start_monitoring, stop_monitoring, bind, get, put, try_except,
      lift, ret, raise, popped.
    rewrite Hpid. cbn [negb].
    destruct Hrun as [[[] ->] | ->];
      cbn [set_started monitoring_thread pm_pid];
      repeat rewrite Hspent;
      try (destruct (monitoring_thread m); repeat rewrite Hspent);
      rewrite Hlog; cbn [set_started keys_renamed pm_threat_score];
      rewrite Hkeys; eexists; split; reflexivity.
Qed.

(** A running process that opens [/etc/passwd] in its first pass, watched
    by a new monitor. *)
Lemma monitoring_start_stop_witness :
  exists m',
    bind (start_monitoring tool_world (PInt 7))
         (fun _ => stop_monitoring tool_world) (new_monitor tool_world)
    = (Ok {| md_threat_score :=
               pm_threat_score
                 (_monitor_process tool_world
                    (polling_passes tool_world (PInt 7))
                    (new_monitor tool_world));
             file_operations :=
               file_accesses
                 (_monitor_process tool_world
                    (polling_passes tool_world (PInt 7))
                    (new_monitor tool_world));
             network_activity :=
               network_connections
                 (_monitor_process tool_world
                    (polling_passes tool_world (PInt 7))
                    (new_monitor tool_world));
             registry_operations :=
               registry_activities
                 (_monitor_process tool_world
                    (polling_passes tool_world (PInt 7))
                    (new_monitor tool_world)) |}, m')
    /\ keys_renamed m' = true.
Proof.
  apply (proj1 (proj2 (proj2 (proj2
           (monitoring_start_stop tool_world (PInt 7)
              (new_monitor tool_world))))));
    reflexivity.
Defined.

(* ================================================================== *)
(** * The findings of analyze_report *)
(* ================================================================== *)

Lemma first_indicator_some inds d i :
  first_indicator inds d = Some i -> In i inds /\ contains (lower i) d = true.
Proof.
  induction inds as [| a inds IH]; cbn [first_indicator]; [discriminate |].
  destruct (contains (lower a) d) eqn:E.
  - intro H. injection H as <-. split; [left; reflexivity | exact E].
  - intro H. destruct (IH H) as [Hin Hc]. split; [right; exact Hin | exact Hc].
Qed.

Lemma first_indicator_none inds d :
  first_indicator inds d = None ->
  forall i, In i inds -> contains (lower i) d = false.
Proof.
  induction inds as [| a inds IH]; cbn [first_indicator]; intros H i Hi;
    [destruct Hi |].
  destruct (contains (lower a) d) eqn:E; [discriminate |].
  destruct Hi as [<- | Hi]; [exact E | apply IH; assumption].
Qed.

Lemma signature_step_hits w d acc sig :
  snd (signature_step w d acc sig) = (snd acc ++ signature_hits w d sig)%list.
Proof.
  unfold signature_step, signature_hits.
  destruct (sig_applies w sig); [| symmetry; apply app_nil_r].
  destruct (first_indicator _ d); [reflexivity | symmetry; apply app_nil_r].
Qed.

Lemma signature_fold_hits w d sigs acc :
  snd (fold_left (signature_step w d) sigs acc)
  = (snd acc ++ flat_map (signature_hits w d) sigs)%list.
Proof.
  revert acc. induction sigs as [| sig sigs IH]; intro acc;
    cbn [fold_left flat_map]; [symmetry; apply app_nil_r |].
  rewrite IH, signature_step_hits, <- app_assoc. reflexivity.
Qed.

Lemma entries_fold_hits w sigs entries acc :
  snd (fold_left (entry_step w sigs) entries acc)
  = (snd acc
     ++ flat_map (fun e => flat_map (signature_hits w (lower (json_dumps e)))
                                    sigs) entries)%list.
Proof.
  revert acc. induction entries as [| e entries IH]; intro acc;
    cbn [fold_left flat_map]; [symmetry; apply app_nil_r |].
  rewrite IH. unfold entry_step. rewrite signature_fold_hits, <- app_assoc.
  reflexivity.
Qed.

Lemma analyze_report_threats w sigs report :
  threats (analyze_report w sigs report)
  = flat_map (fun e => flat_map (signature_hits w (lower (json_dumps e))) sigs)
             (all_entries report).
Proof.
  unfold analyze_report, scan_entries. cbn [threats].
  rewrite entries_fold_hits. reflexivity.
Qed.

Lemma signature_hits_length w d sig :
  (List.length (signature_hits w d sig) <= 1)%nat.
Proof.
  unfold signature_hits. destruct (sig_applies w sig); [| cbn; lia].
  destruct (first_indicator _ d); cbn; lia.
Qed.

Lemma flat_map_length_le {A B} (f : A -> list B) k l :
  (forall a, (List.length (f a) <= k)%nat) ->
  (List.length (flat_map f l) <= List.length l * k)%nat.
Proof.
  intro Hf. induction l as [| a l IH]; cbn [flat_map List.length]; [lia |].
  rewrite length_app. specialize (Hf a). lia.
Qed.

(** Every finding of a report comes from a signature that applies on this
    host and a record in whose JSON text the first matching indicator of
    the signature occurs. *)
Lemma analyze_report_sound w sigs report f :
  In f (threats (analyze_report w sigs report)) ->
  exists sig indicator e,
    In sig sigs /\ sig_applies w sig = true
    /\ In indicator (sig_indicators sig)
    /\ In e (all_entries report)
    /\ contains (lower indicator) (lower (json_dumps e)) = true
    /\ f = signature_finding sig indicator.
Proof.
  rewrite analyze_report_threats. intro H.
  apply in_flat_map in H. destruct H as (e & He & H).
  apply in_flat_map in H. destruct H as (sig & Hsig & H).
  unfold signature_hits in H.
  destruct (sig_applies w sig) eqn:Ha; [| destruct H].
  destruct (first_indicator _ _) as [i |] eqn:Hi; [| destruct H].
  destruct H as [<- | []].
  destruct (first_indicator_some _ _ _ Hi) as [Hin Hc].
  exists sig, i, e. repeat split; assumption.
Qed.

(** X18.  The findings of [analyze_report] are exactly the matches of
    signatures against records: every finding names a signature that
    applies on this host and an indicator of it that occurs, in lower
    case, in the lower-cased JSON text of a record; a signature with such
    a match is reported, under one of its indicators; and a record adds at
    most one finding for each signature. *)
Theorem analyze_report_findings w sigs report :
  (forall f,
      In f (threats (analyze_report w sigs report)) ->
      exists sig indicator e,
        In sig sigs /\ sig_applies w sig = true
        /\ In indicator (sig_indicators sig)
        /\ In e (all_entries report)
        /\ contains (lower indicator) (lower (json_dumps e)) = true
        /\ f = SignatureFinding (sig_id sig) (sig_name sig)
                 (ThreatLevel_name (sig_severity sig)) (sig_category sig)
                 indicator)
  /\ (forall sig indicator e,
        In sig sigs -> sig_applies w sig = true ->
        In indicator (sig_indicators sig) ->
        In e (all_entries report) ->
        contains (lower indicator) (lower (json_dumps e)) = true ->
        exists reported,
          In reported (sig_indicators sig)
          /\ In (SignatureFinding (sig_id sig) (sig_name sig)
                   (ThreatLevel_name (sig_severity sig)) (sig_category sig)
                   reported)
                (threats (analyze_report w sigs report)))
  /\ (List.length (threats (analyze_report w sigs report))
      <= List.length (all_entries report) * List.length sigs)%nat.
Proof.
  split; [| split].
  - intros f H. apply analyze_report_sound in H. exact H.
  - intros sig indicator e Hsig Ha Hin He Hc.
    destruct (first_indicator (sig_indicators sig) (lower (json_dumps e)))
      as [i |] eqn:Hi.
    + exists i. split; [apply (first_indicator_some _ _ _ Hi) |].
      rewrite analyze_report_threats.
      apply in_flat_map. exists e. split; [exact He |].
      apply in_flat_map. exists sig. split; [exact Hsig |].
      unfold signature_hits. rewrite Ha, Hi. left. reflexivity.
    + rewrite (first_indicator_none _ _ Hi indicator Hin) in Hc. discriminate.
  - rewrite analyze_report_threats.
    eapply Nat.le_trans; [apply flat_map_length_le with (k := List.length sigs) |
                          apply Nat.le_refl].
    intro e.
    eapply Nat.le_trans;
      [apply flat_map_length_le with (k := 1%nat); apply signature_hits_length |].
    lia.
Qed.

(** On Linux the connection to port 4444 of [busy_report] is reported
    under SIG-003. *)
Lemma analyze_report_findings_witness :
  exists reported,
    In reported (sig_indicators
                   {| sig_id := "SIG-003";
                      sig_name := "Suspicious Network Connection";
                      sig_description :=
                        "Connects to common malicious ports or domains";
                      sig_indicators :=
                        [":4444"; ":1337"; ":31337"; ":8080";
                         "malicious.example.com"];
                      sig_severity := HIGH; sig_category := "Network Activity";
                      sig_platforms := ["all"] |})
    /\ In (SignatureFinding "SIG-003" "Suspicious Network Connection" "HIGH"
             "Network Activity" reported)
          (threats (analyze_report tool_world builtin_signatures busy_report)).
Proof.
  refine (proj1 (proj2 (analyze_report_findings tool_world builtin_signatures
                          busy_report))
            {| sig_id := "SIG-003";
               sig_name := "Suspicious Network Connection";
               sig_description :=
                 "Connects to common malicious ports or domains";
               sig_indicators :=
                 [":4444"; ":1337"; ":31337"; ":8080";
                  "malicious.example.com"];
               sig_severity := HIGH; sig_category := "Network Activity";
               sig_platforms := ["all"] |}
            ":4444"
            (ENet {| nc_timestamp := "2025-01-01T00:00:02";
                     nc_remote := "10.0.0.5:4444" |})
            _ _ _ _ _).
  - right. right. left. reflexivity.
  - reflexivity.
  - left. reflexivity.
  - right. right. left. reflexivity.
  - vm_compute. reflexivity.
Defined.

(* ================================================================== *)
(** * Backslashes in indicators *)
(* ================================================================== *)

Lemma prefix_app p s :
  String.prefix p s = true -> exists post, s = (p ++ post)%string.
Proof.
  revert s. induction p as [| a p IH]; intros s H.
  - exists s. reflexivity.
  - destruct s as [| b s]; [discriminate |]. cbn [String.prefix] in H.
    destruct (ascii_dec a b) as [-> |]; [| discriminate].
    destruct (IH s H) as [post ->]. exists post. reflexivity.
Qed.

Lemma contains_app p s :
  contains p s = true -> exists pre post, s = (pre ++ p ++ post)%string.
Proof.
  induction s as [| c s IH]; cbn [contains]; intro H.
  - rewrite orb_false_r in H. apply prefix_app in H. destruct H as [post E].
    exists EmptyString, post. exact E.
  - apply orb_true_iff in H. destruct H as [H | H].
    + apply prefix_app in H. destruct H as [post E].
      exists EmptyString, post. exact E.
    + destruct (IH H) as (pre & post & ->).
      exists (String c pre), post. reflexivity.
Qed.

Lemma read_escapes_app p s t :
  read_escapes p (s ++ t)
  = match read_escapes p s with
    | Some p' => read_escapes p' t
    | None => None
    end.
Proof.
  revert p. induction s as [| c s IH]; intro p;
    cbn [append read_escapes]; [reflexivity |].
  destruct p; [destruct (escape_letter c); [apply IH | reflexivity] | apply IH].
Qed.

Lemma read_escapes_app_ok p s t q :
  read_escapes p s = Some q -> read_escapes p (s ++ t) = read_escapes q t.
Proof. intro H. rewrite read_escapes_app, H. reflexivity. Qed.

Lemma json_escape_char_reads c :
  read_escapes false (json_escape_char c) = Some false.
Proof. destruct c as [[] [] [] [] [] [] [] []]; vm_compute; reflexivity. Qed.

Lemma json_escape_reads s : read_escapes false (json_escape s) = Some false.
Proof.
  induction s as [| c s IH]; cbn [json_escape]; [reflexivity |].
  rewrite (read_escapes_app_ok _ _ _ _ (json_escape_char_reads c)). exact IH.
Qed.

Lemma json_str_reads s : read_escapes false (json_str s) = Some false.
Proof.
  unfold json_str.
  rewrite (read_escapes_app_ok false dquote _ false eq_refl).
  rewrite (read_escapes_app_ok _ _ _ _ (json_escape_reads s)). reflexivity.
Qed.

Lemma json_item_reads k v t :
  read_escapes false (json_item k v ++ t) = read_escapes false t.
Proof.
  unfold json_item.
  assert (H : read_escapes false (json_str k ++ ": " ++ json_str v)
              = Some false).
  { rewrite (read_escapes_app_ok _ _ _ _ (json_str_reads k)).
    rewrite (read_escapes_app_ok false ": " _ false eq_refl).
    apply json_str_reads. }
  apply (read_escapes_app_ok _ _ _ _ H).
Qed.

Lemma json_dumps_reads e : read_escapes false (json_dumps e) = Some false.
Proof.
  destruct e as [f | n | r]; cbn [json_dumps];
    rewrite (read_escapes_app_ok false "{" _ false eq_refl);
    repeat (rewrite json_item_reads;
            try rewrite (read_escapes_app_ok false ", " _ false eq_refl));
    reflexivity.
Qed.

Lemma escape_letter_lower c : escape_letter c = true -> ascii_lower c = c.
Proof.
  destruct c as [[] [] [] [] [] [] [] []]; vm_compute; intro H;
    first [reflexivity | discriminate H].
Qed.

Lemma backslash_lower c :
  Ascii.eqb (ascii_lower c) "\"%char = Ascii.eqb c "\"%char.
Proof. destruct c as [[] [] [] [] [] [] [] []]; vm_compute; reflexivity. Qed.

Lemma read_escapes_lower p s b :
  read_escapes p s = Some b -> read_escapes p (lower s) = Some b.
Proof.
  revert p. induction s as [| c s IH]; intro p; cbn [lower read_escapes];
    [trivial |].
  destruct p.
  - destruct (escape_letter c) eqn:E; [| discriminate].
    rewrite (escape_letter_lower c E), E. apply IH.
  - rewrite backslash_lower. apply IH.
Qed.

Lemma lone_backslash_unread s post :
  lone_backslash s = true -> forall p, read_escapes p (s ++ post) = None.
Proof.
  induction s as [| x s IH]; [discriminate |].
  destruct s as [| b [| y r]]; try discriminate.
  cbn [lone_backslash]. intro H. apply orb_true_iff in H.
  destruct H as [H | H].
  - apply andb_true_iff in H. destruct H as [H Hy].
    apply andb_true_iff in H. destruct H as [Hx Hb].
    apply negb_true_iff in Hx. apply negb_true_iff in Hy.
    intro p. cbn [append read_escapes]. rewrite Hx, Hb, Hy.
    destruct p; [destruct (escape_letter x) |]; reflexivity.
  - specialize (IH H). intro p.
    change (String x (String b (String y r)) ++ post)%string
      with (String x (String b (String y r) ++ post)).
    cbn [read_escapes].
    destruct p; [destruct (escape_letter x); [apply IH | reflexivity] |
                 apply IH].
Qed.

Lemma lone_backslash_never_in_json indicator e :
  lone_backslash (lower indicator) = true ->
  contains (lower indicator) (lower (json_dumps e)) = false.
Proof.
  intro Hl. destruct (contains _ _) eqn:E; [| reflexivity].
  apply contains_app in E. destruct E as (pre & post & E).
  pose proof (read_escapes_lower _ _ _ (json_dumps_reads e)) as R.
  rewrite E, read_escapes_app in R.
  destruct (read_escapes false pre) as [p |]; [| discriminate].
  rewrite (lone_backslash_unread _ post Hl p) in R. discriminate.
Qed.

(** X19.  An indicator in which a backslash stands between a character
    that is no backslash and one that opens no JSON escape never occurs in
    the text the detector searches, because [json.dumps] doubles every
    backslash of a record.  With the built-in signatures no report
    therefore yields a finding of SIG-002 (registry modification), nor one
    whose details are the Windows path of SIG-001, on any platform. *)
Theorem backslash_indicators_never_match :
  (forall indicator e,
      lone_backslash (lower indicator) = true ->
      contains (lower indicator) (lower (json_dumps e)) = false)
  /\ (forall w report f,
        In f (threats (analyze_report w builtin_signatures report)) ->
        finding_signature f <> Some "SIG-002"
        /\ finding_details f <> "C:\Windows\System32\config").
Proof.
  split; [exact lone_backslash_never_in_json |].
  intros w report f H. apply analyze_report_sound in H.
  destruct H as (sig & i & e & Hsig & _ & Hi & _ & Hc & ->).
  assert (Hl : lone_backslash (lower i) = true -> False).
  { intro Hl. rewrite (lone_backslash_never_in_json i e Hl) in Hc.
    discriminate. }
  cbn [In builtin_signatures] in Hsig.
  destruct Hsig as [<- | [<- | [<- | []]]];
    cbn [sig_indicators In] in Hi;
    repeat match goal with
           | H : _ \/ _ |- _ => destruct H as [H | H]
           | H : False |- _ => destruct H
           end; subst i;
    try (exfalso; apply Hl; vm_compute; reflexivity);
    split; cbn; discriminate.
Qed.

(** The registry record of [busy_report] carries the very key SIG-002
    looks for, and does not match it. *)
Lemma backslash_indicators_witness :
  contains
    (lower "HKEY_LOCAL_MACHINE\Software\Microsoft\Windows\CurrentVersion\Run")
    (lower
       (json_dumps
          (EReg {| ra_timestamp := "2025-01-01T00:00:03";
                   ra_dll := "c:\windows\system32\advapi32.dll";
                   ra_key :=
                     "HKEY_LOCAL_MACHINE\SOFTWARE\Microsoft\Windows\CurrentVersion\Run" |})))
  = false.
Proof.
  apply (proj1 backslash_indicators_never_match).
  vm_compute. reflexivity.
Defined.

(* ================================================================== *)
(** * The findings of analyze_file *)
(* ================================================================== *)

Lemma keyword_fold_filter bytes ks acc :
  snd (fold_left (keyword_step bytes) ks acc)
  = (snd acc
     ++ map keyword_finding
          (filter (fun k => contains (fst k) bytes) ks))%list.
Proof.
  revert acc. induction ks as [| [kw level] ks IH]; intro acc;
    cbn [fold_left filter map fst]; [symmetry; apply app_nil_r |].
  rewrite IH. unfold keyword_step.
  destruct (contains kw bytes); cbn [snd map]; [| reflexivity].
  rewrite <- app_assoc. reflexivity.
Qed.

Lemma extension_step_small ext :
  (List.length (snd (extension_step ext)) <= 1)%nat
  /\ py_min (fst (extension_step ext)) 1.0 == fst (extension_step ext)
  /\ fst (extension_step ext) <= 0.2.
Proof.
  unfold extension_step.
  destruct (str_in ext _); [repeat split; cbn; try lia; discriminate |].
  destruct (str_in ext _); repeat split; cbn; try lia; discriminate.
Qed.

(** X20.  The keyword findings of [analyze_file] are the keywords of the
    table that occur in the bytes of the file, in the order of the table
    and once each however often a keyword occurs; they follow the finding
    for the extension, if there is one.  A file that cannot be read gets
    one finding of type [error] instead, and its score is what the
    extension alone gives, at most 0.2. *)
Theorem analyze_file_findings w path :
  (forall bytes,
      read_bytes w path = Ok bytes ->
      threats (analyze_file w path)
      = (snd (extension_step (lower (snd (splitext w path))))
         ++ map (fun k => Keyword (fst k) (ThreatLevel_name (snd k)))
              (filter (fun k => contains (fst k) bytes) keywords))%list)
  /\ (forall e,
        read_bytes w path = Raise e ->
        threats (analyze_file w path)
        = (snd (extension_step (lower (snd (splitext w path))))
           ++ [Heuristic "error" (exn_str e) 0.1])%list
        /\ threat_score (analyze_file w path)
           == fst (extension_step (lower (snd (splitext w path))))
        /\ threat_score (analyze_file w path) <= 0.2)
  /\ (List.length (threats (analyze_file w path)) <= 13)%nat.
Proof.
  pose proof (extension_step_small (lower (snd (splitext w path))))
    as (Hlen & Hmin & Hle).
  split; [| split].
  - intros bytes Hread. unfold analyze_file. rewrite Hread.
    cbn [threats]. unfold scan_keywords. apply keyword_fold_filter.
  - intros e Hread. unfold analyze_file. rewrite Hread.
    cbn [threats threat_score]. split; [reflexivity |].
    split; [exact Hmin | rewrite Hmin; exact Hle].
  - unfold analyze_file. destruct (read_bytes w path) as [bytes | e];
      cbn [threats].
    + unfold scan_keywords. rewrite keyword_fold_filter, length_app, length_map.
      pose proof (filter_length_le (fun k => contains (fst k) bytes) keywords)
        as Hf.
      change (List.length keywords) with 12%nat in Hf. lia.
    + rewrite length_app. cbn [List.length]. lia.
Qed.

(** [sample.exe] mentions [cmd.exe] and [CreateProcess]. *)
Lemma analyze_file_findings_witness :
  threats (analyze_file exe_world "sample.exe")
  = (snd (extension_step (lower (snd (splitext exe_world "sample.exe"))))
     ++ map (fun k => Keyword (fst k) (ThreatLevel_name (snd k)))
          (filter (fun k => contains (fst k) "cmd.exe /c CreateProcess")
                  keywords))%list.
Proof.
  apply (proj1 (analyze_file_findings exe_world "sample.exe")).
  vm_compute. reflexivity.
Defined.

(* ================================================================== *)
(** * The static rating of FileAnalyzer *)
(* ================================================================== *)

Lemma tenths_zero : tenths 0.0.
Proof. exists 0%Z. reflexivity. Qed.

Lemma tenths_add q (k : Z) :
  tenths q -> tenths (q + inject_Z k / 10).
Proof.
  intros [z Hz]. exists (z + k)%Z. rewrite inject_Z_plus, Hz. field.
Qed.

Lemma round2_tenths q : tenths q -> round2 q == q.
Proof.
  intros [z Hz]. rewrite Hz. unfold round2.
  assert (E : inject_Z z / 10 * 100 == inject_Z (10 * z)).
  { rewrite inject_Z_mult. change (inject_Z 10) with 10. field. }
  rewrite E, round_half_even_Z, inject_Z_mult.
  change (inject_Z 10) with 10. field.
Qed.

Lemma round2_capped_tenths q : tenths q -> round2 (py_min q 1.0) == py_min q 1.0.
Proof.
  intro Hq. apply round2_tenths. unfold py_min.
  destruct (Q.min_spec q 1.0) as [[_ E] | [_ E]].
  - destruct Hq as [z Hz]. exists z. rewrite E. exact Hz.
  - exists 10%Z. rewrite E. reflexivity.
Qed.

(** A score and the findings behind it, as [FileAnalyzer.analyze] builds
    them: the score is the sum of the levels listed, and a whole number
    of tenths. *)
Lemma rated_start :
  tenths (fst ((0.0, []) : Q * list finding))
  /\ fst ((0.0, []) : Q * list finding)
     == Qsum (map finding_level (snd ((0.0, []) : Q * list finding))).
Proof. split; [apply tenths_zero | reflexivity]. Qed.

Lemma rated_snoc (acc : Q * list finding) (k : Z) level name details :
  level == inject_Z k / 10 ->
  tenths (fst acc) /\ fst acc == Qsum (map finding_level (snd acc)) ->
  tenths (fst acc + level)
  /\ fst acc + level
     == Qsum (map finding_level
                (snd acc ++ [FileFinding name level details])%list).
Proof.
  intros Hk [Ht Hs]. split.
  - destruct (tenths_add _ k Ht) as [z Hz]. exists z. rewrite Hk. exact Hz.
  - rewrite map_app, Qsum_app, <- Hs. cbn [map finding_level Qsum fold_right].
    lra.
Qed.

Lemma rated_patterns l (acc : Q * list finding) :
  tenths (fst acc) /\ fst acc == Qsum (map finding_level (snd acc)) ->
  tenths (fst (fold_left pattern_step l acc))
  /\ fst (fold_left pattern_step l acc)
     == Qsum (map finding_level (snd (fold_left pattern_step l acc))).
Proof.
  revert acc. induction l as [| p l IH]; intros acc H; cbn [fold_left];
    [exact H |].
  apply IH. unfold pattern_step. cbn [fst snd].
  apply (rated_snoc acc 1); [reflexivity | exact H].
Qed.

Lemma analyze_body_rated w path r :
  analyze_body w path = Ok r ->
  exists found,
    ar_threat_analysis r = Some found
    /\ ar_threat_level r == py_min (Qsum (map finding_level found)) 1
    /\ ar_error r = None.
Proof.
  unfold analyze_body.
  destruct (getsize w path); [| discriminate].
  destruct (_calculate_hash w path "md5"); [| discriminate].
  destruct (_calculate_hash w path "sha256"); [| discriminate].
  cbv zeta. intro H. injection H as <-.
  cbn [ar_threat_analysis ar_threat_level ar_error].
  match goal with
  | |- exists found, Some (snd ?acc) = Some found /\ _ =>
      assert (Hr : tenths (fst acc)
                   /\ fst acc == Qsum (map finding_level (snd acc)));
      [| exists (snd acc); destruct Hr as [Ht Hs];
         split; [reflexivity |]; split; [| reflexivity];
         rewrite (round2_capped_tenths _ Ht), Hs;
         apply py_min_proper; reflexivity]
  end.
  assert (H1 : forall b : bool,
             let s1 : Q * list finding :=
               if b
               then (fst ((0.0, []) : Q * list finding) + 0.3,
                     (snd ((0.0, []) : Q * list finding)
                      ++ [FileFinding "Executable file detected" 0.3
                            "The file is an executable, which could perform system-level operations."])%list)
               else (0.0, []) in
             tenths (fst s1) /\ fst s1 == Qsum (map finding_level (snd s1))).
  { intros [|]; cbv zeta.
    - apply (rated_snoc (0.0, []) 3); [reflexivity | apply rated_start].
    - apply rated_start. }
  specialize (H1 (_is_executable w path
                    (lower (snd (splitext w (basename w path)))))).
  cbv zeta in H1.
  match goal with
  | |- context [if ?c then fold_left _ _ _ else _] => destruct c
  end; [| exact H1].
  apply rated_patterns. cbn [fst snd].
  eapply rated_snoc with (k := 1%Z); [reflexivity | exact H1].
Qed.

(** X21.  What [FileAnalyzer.analyze] rates a file: a missing file 0, with
    no list of findings; a file that exists and cannot be read 0.5, with
    an empty list; a readable file the sum of the levels of the findings
    it lists, capped at 1, and no error. *)
Theorem static_rating w path :
  (fs w path = None ->
   ar_threat_level (analyze w path) == 0
   /\ ar_threat_analysis (analyze w path) = None
   /\ ar_error (analyze w path) = Some "File not found")
  /\ (forall f,
        fs w path = Some f -> readable f = false ->
        ar_threat_level (analyze w path) == 0.5
        /\ ar_threat_analysis (analyze w path) = Some [])
  /\ (forall f,
        fs w path = Some f -> readable f = true ->
        exists found,
          ar_threat_analysis (analyze w path) = Some found
          /\ ar_threat_level (analyze w path)
             == py_min (Qsum (map finding_level found)) 1
          /\ ar_error (analyze w path) = None).
Proof.
  split; [| split].
  - intro Hfs. unfold analyze, exists_. rewrite Hfs. cbn.
    repeat split; reflexivity.
  - intros f Hfs Hr. unfold analyze, exists_. rewrite Hfs. cbn [negb].
    assert (E : exists e, analyze_body w path = Raise e).
    { unfold analyze_body, getsize, _calculate_hash, read_bytes.
      rewrite Hfs, Hr. eexists. reflexivity. }
    destruct E as [e ->]. cbn. split; reflexivity.
  - intros f Hfs Hr. unfold analyze, exists_. rewrite Hfs. cbn [negb].
    destruct (analyze_body w path) as [r | e] eqn:E.
    + apply (analyze_body_rated w path r E).
    + exfalso. unfold analyze_body, getsize, _calculate_hash, read_bytes in E.
      rewrite Hfs, Hr in E. discriminate E.
Qed.

(** The script [/tmp/tool.sh], readable and executable. *)
Lemma static_rating_witness :
  exists found,
    ar_threat_analysis (analyze tool_world "/tmp/tool.sh") = Some found
    /\ ar_threat_level (analyze tool_world "/tmp/tool.sh")
       == py_min (Qsum (map finding_level found)) 1
    /\ ar_error (analyze tool_world "/tmp/tool.sh") = None.
Proof.
  apply (proj2 (proj2 (static_rating tool_world "/tmp/tool.sh"))
           (executable_file "echo hello")); reflexivity.
Defined.

Lemma lower_never_mixed s : lower s <> ".AppImage".
Proof.
  intro H. pose proof (lower_idem s) as Hi. rewrite H in Hi.
  vm_compute in Hi. discriminate Hi.
Qed.

(** X22.  Which files [_is_executable] takes for executables, the
    extension being given in lower case as [analyze] gives it: on Windows
    the six extensions of the table and nothing else; on macOS the four of
    the table or the execute permission; on Linux [.sh], [.bin], [.run] or
    the execute permission.  The table's [.AppImage] never matches a
    lower-cased extension. *)
Theorem is_executable_by_platform w path ext :
  _is_executable w path (lower ext)
  = match platform w with
    | Windows =>
        str_in (lower ext) [".exe"; ".bat"; ".cmd"; ".msi"; ".ps1"; ".vbs"]
    | Linux => str_in (lower ext) [".sh"; ".bin"; ".run"] || os_access_x w path
    | Darwin =>
        str_in (lower ext) [".app"; ".sh"; ".command"; ".tool"]
        || os_access_x w path
    end.
Proof.
  unfold _is_executable.
  destruct (platform w); cbn [platform_system].
  - change (dict_get String.eqb EXECUTABLE_EXTENSIONS "Linux" [])
      with [".sh"; ".bin"; ".run"; ".AppImage"].
    change (str_in "Linux" ["Linux"; "Darwin"]) with true.
    unfold str_in. cbn [existsb].
    rewrite (proj2 (String.eqb_neq _ _) (lower_never_mixed ext)).
    rewrite !orb_false_r.
    destruct (_ || _); reflexivity.
  - change (dict_get String.eqb EXECUTABLE_EXTENSIONS "Darwin" [])
      with [".app"; ".sh"; ".command"; ".tool"].
    change (str_in "Darwin" ["Linux"; "Darwin"]) with true.
    destruct (str_in _ _); reflexivity.
  - change (dict_get String.eqb EXECUTABLE_EXTENSIONS "Windows" [])
      with [".exe"; ".bat"; ".cmd"; ".msi"; ".ps1"; ".vbs"].
    change (str_in "Windows" ["Linux"; "Darwin"]) with false.
    destruct (str_in _ _); reflexivity.
Qed.

(** X23.  When the configuration cannot be loaded, or has no resource
    limits, [setup] of a container provider asks the back end for a
    container with the defaults: 256 MB of memory, 30 percent of a CPU and
    no network access.  The provider then holds what the back end returns;
    when the back end raises, [setup] raises [RuntimeError] with the
    message [Container creation failed] and the provider holds nothing. *)
Theorem unloadable_config_gives_defaults w level t :
  (exists e, resource_limits w = Raise e) \/ resource_limits w = Ok [] ->
  (forall id,
      create_container w level (PInt 256) (PInt 30) (PBool false) = Ok id ->
      setup w (ContainerIsolation level PNone, t)
      = (Ok id,
         (ContainerIsolation level id,
          (t ++ [CreateContainer level (PInt 256) (PInt 30) (PBool false)])%list)))
  /\ (forall e,
        create_container w level (PInt 256) (PInt 30) (PBool false) = Raise e ->
        setup w (ContainerIsolation level PNone, t)
        = (Raise (RuntimeError "Container creation failed"),
           (ContainerIsolation level PNone,
            (t ++ [CreateContainer level (PInt 256) (PInt 30) (PBool false)])%list))).
Proof.
  intro Hcfg.
  assert (E : match resource_limits w with Ok c => c | Raise _ => [] end = []).
  { destruct Hcfg as [[e ->] | ->]; reflexivity. }
  split; intros r Hr; run_env; cbn [fst snd]; rewrite E;
    cbn [cfg_lookup dict_get]; run_env; rewrite Hr; reflexivity.
Qed.

(** A host with a container engine and no resource limits configured. *)
Lemma unloadable_config_witness :
  setup docker_world (ContainerIsolation "medium" PNone, [])
  = (Ok (PStr "c0ffee"),
     (ContainerIsolation "medium" (PStr "c0ffee"),
      [CreateContainer "medium" (PInt 256) (PInt 30) (PBool false)])).
Proof.
  apply (proj1 (unloadable_config_gives_defaults docker_world "medium" []
                  (or_intror eq_refl))).
  reflexivity.
Defined.

(* ================================================================== *)
(** * Further properties: terminating the process *)
(* ================================================================== *)

Lemma filter_none_of {A} (pick other : A -> bool) l :
  (forall a, other a = true -> pick a = false) ->
  forallb other l = true -> filter pick l = [].
Proof.
  intros H. induction l as [| a l IH]; cbn [forallb filter]; [reflexivity |].
  intro Hl. apply andb_prop in Hl as [Ha Hl]. rewrite (H a Ha). apply IH, Hl.
Qed.

Lemma on_env_execute_keeps_trace pick w p :
  (forall e, is_setup_or_execute e = true -> pick e = false) ->
  keeps_trace (filter pick) (on_env (execute w p)).
Proof.
  intros Hp [sb t]. unfold on_env. cbn [fst snd].
  destruct (execute_trace w p (isolation_env sb) t) as (added & E & Hadd).
  destruct (execute w p (isolation_env sb, t)) as [r [env' t']].
  cbn [fst snd] in *. subst t'.
  rewrite filter_app, (filter_none_of pick _ added Hp Hadd). apply app_nil_r.
Qed.

Lemma cleanup_keeps_trace pick w :
  (forall e, is_cleanup_call e = true -> pick e = false) ->
  keeps_trace (filter pick) (cleanup w).
Proof.
  intros Hp [sb t].
  destruct (cleanup_trace w sb t) as (added & E & Hadd & _).
  cbn [snd]. rewrite E.
  rewrite filter_app, (filter_none_of pick _ added Hp Hadd). apply app_nil_r.
Qed.

Lemma untimely_not_isolation w timeout monitor method e :
  is_setup_or_execute e = true ->
  untimely_terminate w timeout monitor method e = false.
Proof. destruct e; try discriminate; reflexivity. Qed.

Lemma untimely_not_cleanup w timeout monitor method e :
  is_cleanup_call e = true ->
  untimely_terminate w timeout monitor method e = false.
Proof. destruct e; try discriminate; reflexivity. Qed.

(** The wait of a monitored scan, and what follows a time-out. *)
Lemma wait_keeps_trace pick w er timeout :
  (process_wait w (er_process er) timeout = Raise TimeoutExpired ->
   pick (PopenTerminate (er_process er)) = false) ->
  keeps_trace (filter pick)
    (try_except
       (lift (process_wait w (er_process er) timeout))
       (fun e => match e with
                 | TimeoutExpired => _terminate_execution w er
                 | _ => raise e
                 end)).
Proof.
  intros Hpick s. unfold try_except, lift.
  destruct (process_wait w (er_process er) timeout) as [[] | e] eqn:Hw;
    [reflexivity |].
  destruct e; try reflexivity.
  unfold _terminate_execution.
  destruct (truthy (er_process er)); [| reflexivity].
  unfold try_except, bind, emit, lift, ret, log_sandbox, log_trace.
  cbn [fst snd].
  assert (E : filter pick (snd s ++ [PopenTerminate (er_process er)])
              = filter pick (snd s)).
  { rewrite filter_app. cbn [filter]. rewrite (Hpick eq_refl).
    apply app_nil_r. }
  destruct (process_terminate w (er_process er)) as [[] | e];
    cbn [fst snd]; exact E.
Qed.

Lemma run_step_keeps_untimely w p timeout monitor method :
  keeps_trace (filter (untimely_terminate w timeout monitor method))
    (run_step w p timeout monitor method).
Proof.
  pose proof (on_env_execute_keeps_trace
                (untimely_terminate w timeout monitor method) w p
                (untimely_not_isolation w timeout monitor method)) as He.
  unfold run_step.
  destruct (method =? "container")%string eqn:Hm.
  - unfold _execute_in_container.
    repeat first [ exact He | ktrace_step ].
    destruct a; auto with ktrace.
  - unfold _execute_in_process.
    apply keeps_trace_bind; [repeat first [ exact He | ktrace_step ] |].
    intro er. destruct monitor; cbn [andb]; [| auto with ktrace].
    apply keeps_trace_if; [| auto with ktrace].
    unfold monitored_run.
    repeat first
      [ apply wait_keeps_trace;
        intro Hw; cbn [untimely_terminate]; rewrite Hm, Hw; reflexivity
      | ktrace_step ].
Qed.

(** What a scan adds to the trace holds no other [Popen.terminate]. *)
Lemma execute_file_keeps_untimely w file_path timeout monitor sb t :
  filter (untimely_terminate w timeout monitor (isolation_method sb))
    (snd (snd (execute_file w file_path timeout monitor (sb, t))))
  = filter (untimely_terminate w timeout monitor (isolation_method sb)) t.
Proof.
  set (pick := untimely_terminate w timeout monitor (isolation_method sb)).
  pose proof (_prepare_file_keeps_trace pick w file_path
                (fun _ => eq_refl) (fun _ _ => eq_refl) (sb, t)) as Kt.
  destruct (_prepare_file w file_path (sb, t)) as [[p | e0] st1] eqn:Hprep.
  - destruct (execute_file_steps w file_path timeout monitor sb t p st1 Hprep)
      as [_ E].
    rewrite E. clear E.
    pose proof (run_step_keeps_untimely w p timeout monitor
                  (isolation_method sb)
                  (escalate (with_dir_exists sb true)
                     (ar_threat_level (analyze w file_path)),
                   snd st1)) as Rt.
    fold pick in Rt.
    destruct (run_step w p timeout monitor (isolation_method sb) _)
      as [[[er mr] | e1] st3]; cbn [fst snd] in *.
    + pose proof (cleanup_keeps_trace pick w
                    (untimely_not_cleanup w timeout monitor
                       (isolation_method sb)) st3) as Ct.
      destruct (cleanup w st3) as [[[] | e'] st4]; cbn [fst snd] in *;
        rewrite Ct, Rt, Kt; reflexivity.
    + rewrite Rt, Kt. reflexivity.
  - unfold execute_file. rewrite (bind_raise _ _ _ _ _ Hprep). exact Kt.
Qed.

(** A scan that raises has not reached [cleanup]. *)
Lemma raising_scan_cleanup_calls w file_path timeout monitor sb t e st' :
  execute_file w file_path timeout monitor (sb, t) = (Raise e, st') ->
  cleanup_calls (snd st') = cleanup_calls t.
Proof.
  intro H.
  pose proof (_prepare_file_keeps_trace is_cleanup_call w file_path
                (fun _ => eq_refl) (fun _ _ => eq_refl) (sb, t)) as Kt.
  destruct (_prepare_file w file_path (sb, t)) as [[p | e0] st1] eqn:Hprep.
  - destruct (execute_file_steps w file_path timeout monitor sb t p st1 Hprep)
      as [_ E].
    rewrite E in H. clear E.
    pose proof (run_step_keeps_cleanup_calls w p timeout monitor
                  (isolation_method sb)
                  (escalate (with_dir_exists sb true)
                     (ar_threat_level (analyze w file_path)),
                   snd st1)) as Rt.
    destruct (run_step w p timeout monitor (isolation_method sb) _)
      as [[[er mr] | e1] st3].
    + destruct (cleanup_returns w st3) as (s4 & Hc). rewrite Hc in H.
      discriminate H.
    + injection H as <- <-. cbn [fst snd] in *.
      unfold cleanup_calls. rewrite Rt, Kt. reflexivity.
  - unfold execute_file in H. rewrite (bind_raise _ _ _ _ _ Hprep) in H.
    injection H as <- <-. cbn [fst snd] in *.
    unfold cleanup_calls. exact Kt.
Qed.

(** X24.  The two ways a scan terminates a process.  The sandbox itself
    calls [terminate] on the process (in [_terminate_execution]) only in
    a monitored scan that is not a container scan, and only after waiting
    for that process has timed out.  The handler's [terminate_process] is
    called only by the cleanup at the end of a scan that returns a report:
    there it is called on the process the provider holds without any wait
    or time-out, and a scan that raises never calls it. *)
Theorem terminations_of_a_scan
        w file_path timeout monitor sb t r st' process :
  execute_file w file_path timeout monitor (sb, t) = (r, st') ->
  (In (PopenTerminate process) (snd st') ->
   In (PopenTerminate process) t
   \/ (monitor = true
       /\ isolation_method sb <> "container"
       /\ process_wait w process timeout = Raise TimeoutExpired))
  /\ (In (TerminateProcess process) (snd st') ->
      In (TerminateProcess process) t \/ exists rep, r = Ok rep).
Proof.
  intro H. split.
  - intro Hin.
    pose proof (execute_file_keeps_untimely w file_path timeout monitor sb t)
      as K.
    rewrite H in K. cbn [snd] in K.
    destruct (untimely_terminate w timeout monitor (isolation_method sb)
                (PopenTerminate process)) eqn:Hp.
    + left.
      assert (Hf : In (PopenTerminate process)
                      (filter (untimely_terminate w timeout monitor
                                 (isolation_method sb)) (snd st')))
        by (apply filter_In; split; assumption).
      rewrite K in Hf. apply filter_In in Hf. apply Hf.
    + right. cbn [untimely_terminate] in Hp.
      apply negb_false_iff in Hp.
      apply andb_true_iff in Hp as [Hp Hw].
      apply andb_true_iff in Hp as [Hmon Hm].
      apply negb_true_iff in Hm. apply String.eqb_neq in Hm.
      repeat split; [exact Hmon | exact Hm |].
      destruct (process_wait w process timeout) as [[] | e];
        [discriminate Hw |].
      destruct e; try discriminate Hw. reflexivity.
  - intro Hin. destruct r as [rep | e]; [right; exists rep; reflexivity |].
    left.
    pose proof (raising_scan_cleanup_calls _ _ _ _ _ _ _ _ H) as K.
    assert (Hf : In (TerminateProcess process) (cleanup_calls (snd st')))
      by (apply filter_In; split; [exact Hin | reflexivity]).
    rewrite K in Hf. apply filter_In in Hf. apply Hf.
Qed.

(** A monitored scan of a program that does not end in time: the sandbox
    terminates it after the time-out, and the cleanup has the handler
    terminate it once more. *)
Lemma terminations_of_a_scan_witness :
  exists r st',
    execute_file slow_world "/tmp/tool.sh" 300 true
      (fresh_sandbox slow_world "process" "low"
         (ProcessIsolation "low" PNone))
    = (r, st')
    /\ In (PopenTerminate (PProc 4242)) (snd st')
    /\ In (TerminateProcess (PProc 4242)) (snd st')
    /\ process_wait slow_world (PProc 4242) 300 = Raise TimeoutExpired
    /\ exists rep, r = Ok rep.
Proof.
  destruct (execute_file slow_world "/tmp/tool.sh" 300 true
              (fresh_sandbox slow_world "process" "low"
                 (ProcessIsolation "low" PNone)))
    as [r st'] eqn:E.
  exists r, st'. split; [reflexivity |].
  pose proof E as E'. vm_compute in E'. injection E' as _ Hs.
  assert (HP : In (PopenTerminate (PProc 4242)) (snd st'))
    by (rewrite <- Hs; vm_compute; tauto).
  assert (HT : In (TerminateProcess (PProc 4242)) (snd st'))
    by (rewrite <- Hs; vm_compute; tauto).
  split; [exact HP |]. split; [exact HT |].
  destruct (terminations_of_a_scan slow_world "/tmp/tool.sh" 300 true
              (fst (fresh_sandbox slow_world "process" "low"
                      (ProcessIsolation "low" PNone)))
              [] r st' (PProc 4242) E) as [H1 H2].
  split.
  - destruct (H1 HP) as [[] | (_ & _ & Hw)]. exact Hw.
  - destruct (H2 HT) as [[] | Hr]. exact Hr.
Defined.

(* ================================================================== *)
(** * Further properties: the handlers of platforms/linux.py *)
(* ================================================================== *)

Lemma linux_execute_raises w p env t :
  linux_handlers w ->
  exists e st, execute w p (env, t) = (Raise e, st).
Proof.
  intros (_ & Hexec & _ & Hiso).
  destruct env as [level id | level process].
  - destruct (container_execute_cases w level id p t)
      as [[_ E] | [[_ (msg & E)] | [[_ (mem & cpu & net & e & _ & E)]
                                 | [_ (mem & cpu & net & id' & _ & E)]]]];
      rewrite E.
    + destruct (Hexec id p) as [msg ->]. eexists; eexists; reflexivity.
    + eexists; eexists; reflexivity.
    + eexists; eexists; reflexivity.
    + destruct (Hexec id' p) as [msg ->]. eexists; eexists; reflexivity.
  - run_env. destruct (Hiso p level) as [msg ->]. cbn [fst snd].
    eexists; eexists; reflexivity.
Qed.

Lemma linux_run_step_fails w p timeout monitor method st er mr st3 :
  linux_handlers w ->
  run_step w p timeout monitor method st = (Ok (er, mr), st3) ->
  er = failed_execution /\ mr = None.
Proof.
  intros Hl. destruct st as [sb t].
  destruct (linux_execute_raises w p (isolation_env sb) t Hl) as (e & se & E).
  unfold run_step.
  destruct (method =? "container")%string;
    unfold _execute_in_container, _execute_in_process, try_except,
      bind, on_env, ret, raise, lift;
    cbn [fst snd]; rewrite E; destruct se as [env' t']; cbn [fst snd];
    [| cbn [failed_execution er_pid truthy]; rewrite andb_false_r];
    intro H; injection H as <- <- _; split; reflexivity.
Qed.

(** X25.  With the handlers of platforms/linux.py, which define no
    [execute_in_container], no [remove_container] and no
    [execute_isolated], nothing is ever run on Linux: every scan that
    returns a report reports status "failed" and exit code -1, monitors
    nothing and lists the static findings only.  A container the provider
    holds is never removed: its [cleanup] returns [False] and keeps the
    container. *)
Theorem linux_scan_always_fails w :
  linux_handlers w ->
  (forall file_path timeout monitor sb t rep st',
      execute_file w file_path timeout monitor (sb, t) = (Ok rep, st') ->
      r_status rep = "failed"
      /\ r_exit_code rep = PInt (-1)
      /\ r_monitoring_results rep = None
      /\ r_threats rep = static_threats_of (analyze w file_path))
  /\ (forall level id t,
        truthy id = true ->
        cleanup_provider w (ContainerIsolation level id, t)
        = (Ok false,
           (ContainerIsolation level id, (t ++ [RemoveContainer id])%list))).
Proof.
  intro Hl. split.
  - intros file_path timeout monitor sb t rep st' H.
    destruct (execute_file_report w file_path timeout monitor sb t rep st' H)
      as (p & t1 & er & mr & st3 & _ & Hrun & _ & ->).
    destruct (linux_run_step_fails w p timeout monitor _ _ er mr st3 Hl Hrun)
      as [-> ->].
    unfold report_of.
    cbn [r_status r_exit_code r_monitoring_results r_threats failed_execution
         er_status er_exit_code].
    repeat split. apply app_nil_r.
  - intros level id t Hid. destruct Hl as (_ & _ & Hrm & _).
    run_env. rewrite Hid. destruct (Hrm id) as [msg ->]. reflexivity.
Qed.

(** A container scan of [/tmp/tool.sh] on such a host. *)
Lemma linux_scan_witness :
  exists rep st',
    execute_file linux_py_world "/tmp/tool.sh" 300 true
      (fresh_sandbox linux_py_world "container" "medium"
         (ContainerIsolation "medium" PNone))
    = (Ok rep, st')
    /\ r_status rep = "failed"
    /\ r_exit_code rep = PInt (-1)
    /\ r_monitoring_results rep = None
    /\ r_threats rep = static_threats_of (analyze linux_py_world "/tmp/tool.sh").
Proof.
  assert (Hl : linux_handlers linux_py_world).
  { split; [reflexivity |]. repeat split; intros; eexists; reflexivity. }
  destruct (execute_file linux_py_world "/tmp/tool.sh" 300 true
              (fresh_sandbox linux_py_world "container" "medium"
                 (ContainerIsolation "medium" PNone)))
    as [[rep | e] st'] eqn:E.
  - exists rep, st'. split; [reflexivity |].
    exact (proj1 (linux_scan_always_fails linux_py_world Hl)
             "/tmp/tool.sh" 300%Z true _ _ rep st' E).
  - vm_compute in E. discriminate E.
Defined.

(** X26.  When the process handler returns no process (as
    [execute_isolated] of platforms/windows.py does when launching the
    file fails, together with exit code -1), the scan does not notice: the
    report says status "completed" and exit code 0, nothing is monitored
    and the threat level is the static score. *)
Theorem failed_launch_reported_completed
        w file_path timeout monitor sb t level process p st1 out :
  (isolation_method sb =? "container")%string = false ->
  isolation_env sb = ProcessIsolation level process ->
  _prepare_file w file_path (sb, t) = (Ok p, st1) ->
  execute_isolated w p level = Ok (PNone, out) ->
  exists rep st',
    execute_file w file_path timeout monitor (sb, t) = (Ok rep, st')
    /\ r_status rep = "completed"
    /\ r_exit_code rep = PInt 0
    /\ r_monitoring_results rep = None
    /\ r_threat_level rep == ar_threat_level (analyze w file_path).
Proof.
  intros Hm Henv Hprep Hiso.
  destruct (execute_file_steps w file_path timeout monitor sb t p _ Hprep)
    as [_ E].
  destruct st1 as [sb0 t1]. cbn [snd] in E.
  set (sb1 := escalate (with_dir_exists sb true)
                (ar_threat_level (analyze w file_path))) in *.
  assert (Henv1 : isolation_env sb1 = ProcessIsolation level process).
  { subst sb1. rewrite (proj1 (proj2 (escalate_frame _ _))). exact Henv. }
  assert (Hrun : exists st3,
             run_step w p timeout monitor (isolation_method sb) (sb1, t1)
             = (Ok ({| er_status := "completed"; er_exit_code := PInt 0;
                       er_pid := PNone; er_process := PNone |}, None), st3)).
  { unfold run_step. rewrite Hm.
    unfold _execute_in_process, try_except, bind, on_env, lift, ret.
    cbn [fst snd]. rewrite Henv1. run_env. rewrite Hiso.
    cbn [fst snd unpack_pair pid_of truthy er_pid].
    rewrite andb_false_r. eexists. reflexivity. }
  destruct Hrun as [st3 Hrun]. rewrite Hrun in E.
  destruct (cleanup_returns w st3) as (s4 & Hc). rewrite Hc in E.
  eexists. exists s4. split; [exact E |].
  unfold report_of.
  cbn [r_status r_exit_code r_monitoring_results r_threat_level
       er_status er_exit_code].
  repeat split.
  unfold analyze_report, all_entries, scan_entries.
  cbn [get_file_operations get_network_activity get_registry_operations
       map app fold_left fst threat_score].
  apply combined_score_static; [apply analyze_range | apply analyze_hundredths].
Qed.

(** A monitored process scan on [failed_launch_world]. *)
Lemma failed_launch_witness :
  exists rep st',
    execute_file failed_launch_world "/tmp/tool.sh" 300 true
      (fresh_sandbox failed_launch_world "process" "low"
         (ProcessIsolation "low" PNone))
    = (Ok rep, st')
    /\ r_status rep = "completed"
    /\ r_exit_code rep = PInt 0
    /\ r_monitoring_results rep = None
    /\ r_threat_level rep
       == ar_threat_level (analyze failed_launch_world "/tmp/tool.sh").
Proof.
  eapply (failed_launch_reported_completed failed_launch_world "/tmp/tool.sh"
            300 true _ [] "low" PNone).
  - reflexivity.
  - reflexivity.
  - vm_compute. reflexivity.
  - reflexivity.
Defined.
